(** * The .agentrc plugin: configuration cascade and command dispatcher

    A shallow embedding of [packages/agentrc/src/index.js]: the config
    locator ([loadAgentrcConfig]), the legacy extractor
    ([loadLegacyConfigs]), the merger ([mergeConfigs]), the rule list
    commands ([handleMemoryCommand]) and the [tool.execute.before] hook,
    followed by the properties of the specification that concern them.

    Conventions of the embedding.
    - JavaScript data is the type [value]: JSON data, [undefined], and
      an array that was given named properties.  Numbers are integers
      ([Z]); fractions and the float corner cases are outside the model.
    - Objects are association lists, written to with [obj_set] (replace
      in place, or append) and read with [obj_get].
    - Strings are byte strings.  Every pattern the program searches for
      is ASCII, so searching bytes of UTF-8 text finds what the program
      finds.
    - The file system is a finite map from paths to contents.  A read of
      an unmapped path raises; a write always succeeds.
    - [JSON.parse] and [JSON.stringify] belong to the language runtime
      and are parameters of the sections that need them; so are the two
      built-ins a [ruleId] given as text can reach ([runtime]).
    - The logger never raises (every notifier call sits in a catch-all
      [try]) and changes nothing the hooks read, so the hooks are given
      without its calls; what it writes to the console is modelled on
      its own ([console_lines]). *)

From Stdlib Require Import ZArith Ascii String List.
From stdpp Require Import base option list strings gmap pretty.

Set Warnings "-register-all".

Local Open Scope string_scope.
Local Open Scope list_scope.

(** ** Strings, as the program uses them *)

Module Js.

(** [s.startsWith(p)] *)
Definition startsWith (s p : string) : bool := String.prefix p s.

(** [s.includes(p)]: [p] occurs somewhere in [s]. *)
Fixpoint includes (s p : string) : bool :=
  String.prefix p s ||
  match s with
  | EmptyString => false
  | String _ s' => includes s' p
  end.

(** [s.endsWith(p)] *)
Fixpoint endsWith (s p : string) : bool :=
  String.eqb s p ||
  match s with
  | EmptyString => false
  | String _ s' => endsWith s' p
  end.

(** [s.substring(n)] *)
Fixpoint substring (n : nat) (s : string) : string :=
  match n, s with
  | O, _ => s
  | S _, EmptyString => EmptyString
  | S n', String _ s' => substring n' s'
  end.

(** [s.split(c)] for a one character separator.  The result is never
    empty: splitting the empty string gives one empty piece. *)
Fixpoint split (c : ascii) (s : string) : list string :=
  match s with
  | EmptyString => [EmptyString]
  | String a s' =>
      if Ascii.eqb a c then EmptyString :: split c s'
      else match split c s' with
           | h :: t => String a h :: t
           | [] => [String a EmptyString]
           end
  end.

(** [s.replace(p, r)] with a string pattern: the first occurrence only. *)
Fixpoint replace (p r s : string) : string :=
  if String.prefix p s then r +:+ substring (String.length p) s
  else match s with
       | EmptyString => EmptyString
       | String a s' => String a (replace p r s')
       end.

(** [s.replace(re, empty)] for the global pattern matching one single
    or double quote character: every quote character is dropped. *)
Fixpoint strip_quotes (s : string) : string :=
  match s with
  | EmptyString => EmptyString
  | String a s' =>
      if Ascii.eqb a "'" || Ascii.eqb a "034" then strip_quotes s'
      else String a (strip_quotes s')
  end.

(** [s.toLowerCase()] on the ASCII letters.  The one pattern searched
    after lowering is [protect .env], and no letter outside ASCII
    lowers to one of its characters. *)
Definition lower_ascii (a : ascii) : ascii :=
  let n := nat_of_ascii a in
  if (65 <=? n)%nat && (n <=? 90)%nat then ascii_of_nat (n + 32) else a.

Fixpoint toLowerCase (s : string) : string :=
  match s with
  | EmptyString => EmptyString
  | String a s' => String (lower_ascii a) (toLowerCase s')
  end.

End Js.

(** ** JavaScript values *)

Inductive value : Type :=
| VUndefined
| VNull
| VBool (b : bool)
| VNum (n : Z)
| VStr (s : string)
| VArr (xs : list value)
| VArrWith (xs : list value) (props : list (string * value))
| VObj (fields : list (string * value)).

(** A JavaScript object: its own properties, each name once, in the
    order they were given.  The order in which JavaScript enumerates
    them differs for names that are array indices, which come first; so
    a list stands for the properties it holds, read through [obj_get],
    and its order says nothing about the order of enumeration.  The one
    function that enumerates an object, [JSON.stringify], is a
    parameter. *)
Abbreviation obj := (list (string * value)).

(** The condition of an [if], of [!v] and of [||]. *)
Definition truthy (v : value) : bool :=
  match v with
  | VUndefined | VNull => false
  | VBool b => b
  | VNum n => negb (n =? 0)%Z
  | VStr s => negb (String.eqb s EmptyString)
  | VArr _ | VArrWith _ _ | VObj _ => true
  end.

(** [a || b] *)
Definition or_else (a b : value) : value := if truthy a then a else b.

Definition typeof (v : value) : string :=
  match v with
  | VUndefined => "undefined"
  | VNull | VArr _ | VArrWith _ _ | VObj _ => "object"
  | VBool _ => "boolean"
  | VNum _ => "number"
  | VStr _ => "string"
  end.

Definition is_null (v : value) : bool :=
  match v with VNull => true | _ => false end.

(** [v === s] for a string literal [s]. *)
Definition is_str (s : string) (v : value) : bool :=
  match v with VStr t => String.eqb t s | _ => false end.

Fixpoint obj_get (k : string) (o : obj) : option value :=
  match o with
  | [] => None
  | (k', v) :: o' => if String.eqb k' k then Some v else obj_get k o'
  end.

(** [o[k] = v]: an existing property keeps its place, a new one goes
    last. *)
Fixpoint obj_set (k : string) (v : value) (o : obj) : obj :=
  match o with
  | [] => [(k, v)]
  | (k', v') :: o' =>
      if String.eqb k' k then (k, v) :: o' else (k', v') :: obj_set k v o'
  end.

(** [v.k] and [v?.k], for the property names this program reads
    ([rules], [commands], [project], [security], [sensitiveFiles],
    [restrictedPaths], [test], [build], [lint], [dev]).  None of them is
    a built-in member of a string, an array or a number, so only a plain
    object can answer.  Every plain [v.k] of the program is guarded by a
    test that [v] is truthy, so the two forms agree wherever they are
    evaluated. *)
Definition get (v : value) (k : string) : value :=
  match v with
  | VObj o | VArrWith _ o => default VUndefined (obj_get k o)
  | _ => VUndefined
  end.

(** The own enumerable properties that [{...v}] copies: the properties
    of an object, the elements of an array under their indices, the
    characters of a string under theirs, and nothing for the rest. *)
Definition chars (s : string) : list value :=
  map (fun a => VStr (String a EmptyString)) (list_ascii_of_string s).

Definition indexed (xs : list value) : obj :=
  imap (fun i x => (pretty i, x)) xs.

Definition own_properties (v : value) : obj :=
  match v with
  | VObj o => o
  | VArr xs => indexed xs
  | VArrWith xs props => indexed xs ++ props
  | VStr s => indexed (chars s)
  | _ => []
  end.

(** [{...o, ...v}]: the properties of [v] are assigned onto [o] one by
    one. *)
Definition spread (v : value) (o : obj) : obj :=
  fold_left (fun acc kv => obj_set (fst kv) (snd kv) acc) (own_properties v) o.

(** The string a template literal puts in place of [${v}]. *)
Fixpoint to_string (v : value) : string :=
  match v with
  | VUndefined => "undefined"
  | VNull => "null"
  | VBool true => "true"
  | VBool false => "false"
  | VNum n => pretty n
  | VStr s => s
  | VArr xs | VArrWith xs _ =>
      let elem x :=
        match x with VUndefined | VNull => EmptyString | _ => to_string x end in
      (fix join (l : list value) : string :=
         match l with
         | [] => EmptyString
         | [x] => elem x
         | x :: l' => elem x +:+ "," +:+ join l'
         end) xs
  | VObj _ => "[object Object]"
  end.

(** The number of UTF-16 code units of a text held as UTF-8: what
    [s.length] is.  A byte that starts a character of up to three bytes
    counts one, a byte that starts a character of four bytes counts two,
    a continuation byte counts nothing. *)
Fixpoint utf16_length (s : string) : nat :=
  match s with
  | EmptyString => 0
  | String a s' =>
      let b := N_of_ascii a in
      (if (b <? 128)%N then 1
       else if (b <? 192)%N then 0
       else if (b <? 240)%N then 1
       else 2) + utf16_length s'
  end.

(** [v?.length] *)
Definition js_length (v : value) : value :=
  match v with
  | VArr xs | VArrWith xs _ => VNum (Z.of_nat (length xs))
  | VStr s => VNum (Z.of_nat (utf16_length s))
  | VObj _ => get v "length"
  | _ => VUndefined
  end.

(** [s.padEnd(n)]: spaces are added until the text has [n] code units. *)
Definition padEnd (s : string) (n : nat) : string :=
  s +:+ string_of_list_ascii (repeat " "%char (n - utf16_length s)).

(** ** Exceptions and results *)

Inductive exn : Type :=
| Error (message : string)   (* [throw new Error(message)] *)
| TypeError                  (* raised by the runtime *)
| SyntaxError                (* raised by [JSON.parse] *)
| ENOENT.                    (* raised by [fs.readFile] *)

Inductive outcome (A : Type) : Type :=
| Returns (a : A)
| Throws (e : exn).
Arguments Returns {A} a.
Arguments Throws {A} e.

(** The error taxonomy of the specification, by the message the code
    throws. *)
Definition InvalidConfig : exn := Error "Invalid .agentrc: must be an object".
Definition MissingRule : exn := Error "Rule text required".
Definition MissingRuleId : exn := Error "Rule ID required".
Definition NoConfig : exn := Error "No .agentrc config found".
Definition NoRules : exn := Error "No rules found".
Definition SecurityDenied : exn :=
  Error "[🌸 Kuuzuki] .env file access blocked by .agentrc security rules".

(** ** The environment *)

(** [app.path.root], [app.path.config] and [process.env.HOME], each a
    string: the host sets the first two, and the home directory is taken
    to be set. *)
Record app := { root : string; config_dir : string; HOME : string }.

(** [path.join], without normalisation of the segments. *)
Fixpoint path_join (segments : list string) : string :=
  match segments with
  | [] => "."
  | [s] => s
  | s :: rest => s +:+ "/" +:+ path_join rest
  end.

(** ** Config Locator *)

Definition validateAgentrcConfig (config : value) : outcome value :=
  if negb (String.eqb (typeof config) "object") || is_null config
  then Throws InvalidConfig
  else Returns config.

(** What [loadAgentrcConfig] returns, and the files it tried to read on
    the way, in order. *)
Record loaded := { config : value; path : option string; consulted : list string }.

Definition project_location (a : app) : string :=
  path_join [root a; ".agentrc"].
Definition global_location (a : app) : string :=
  path_join [config_dir a; ".agentrc"].
Definition kuuzuki_location (a : app) : string :=
  path_join [HOME a; ".config"; "kuuzuki"; ".agentrc"].

Definition locations (a : app) : list string :=
  [ project_location a; global_location a; kuuzuki_location a ].

Section Locator.
Variable JSON_parse : string -> option value.

(** The body of the [try] for one candidate. *)
Definition try_location (fs : gmap string string) (configPath : string)
  : outcome value :=
  match fs !! configPath with
  | None => Throws ENOENT
  | Some content =>
      match JSON_parse content with
      | None => Throws SyntaxError
      | Some parsed => validateAgentrcConfig parsed
      end
  end.

(** The [for] loop: the first candidate whose [try] completes is
    returned; the [catch] moves on whatever was thrown. *)
Fixpoint load_from (fs : gmap string string) (candidates : list string)
  : loaded :=
  match candidates with
  | [] => {| config := VNull; path := None; consulted := [] |}
  | configPath :: rest =>
      match try_location fs configPath with
      | Returns c =>
          {| config := c; path := Some configPath; consulted := [configPath] |}
      | Throws _ =>
          let r := load_from fs rest in
          {| config := config r; path := path r;
             consulted := configPath :: consulted r |}
      end
  end.

Definition loadAgentrcConfig (fs : gmap string string) (a : app) : loaded :=
  load_from fs (locations a).
End Locator.

(** ** Legacy Config Extractor *)

Inductive legacy_type : Type := agents | claude | cursor | copilot.

Definition legacyFiles (a : app) : list (string * legacy_type) :=
  [ (path_join [root a; "AGENTS.md"], agents);
    (path_join [root a; "CLAUDE.md"], claude);
    (path_join [root a; ".cursorrules"], cursor);
    (path_join [root a; ".github"; "copilot-instructions.md"], copilot) ].

(** The longest run of characters other than a backtick at the head of
    [s], and the rest of [s]. *)
Fixpoint span_code (s : string) : string * string :=
  match s with
  | EmptyString => (EmptyString, EmptyString)
  | String a s' =>
      if Ascii.eqb a "`" then (EmptyString, s)
      else let '(run, rest) := span_code s' in (String a run, rest)
  end.

(** [line.match(re)[1]] for the pattern: a backtick, one or more
    characters that are not backticks, a backtick.  The leftmost match
    is taken; [None] is a failed match. *)
Fixpoint match_backticks (line : string) : option string :=
  match line with
  | EmptyString => None
  | String a s' =>
      if Ascii.eqb a "`" then
        match span_code s' with
        | (String b run, String _ _) => Some (String b run)
        | _ => match_backticks s'
        end
      else match_backticks s'
  end.

(** The accumulator [legacyConfig] while the files are scanned
    ([project] stays empty). *)
Record legacy := { rules : list string; commands : obj }.

Definition assign_if (cond : bool) (key : string) (cmd : string) (cs : obj) : obj :=
  if cond then obj_set key (VStr cmd) cs else cs.

(** The command a line offers: the first backticked text of a line that
    mentions one of the three package managers after a backtick. *)
Definition extract_command (line : string) : option string :=
  if Js.includes line "`npm " || Js.includes line "`bun " || Js.includes line "`yarn "
  then match_backticks line
  else None.

(** The body of [lines.forEach]. *)
Definition scan_line (acc : legacy) (line : string) : legacy :=
  let rules1 :=
    if Js.startsWith line "- " && Js.includes line ":"
    then rules acc ++ [Js.substring 2 line]
    else rules acc in
  let commands1 :=
    match extract_command line with
    | Some cmd =>
        assign_if (Js.includes cmd "lint") "lint" cmd
          (assign_if (Js.includes cmd "build") "build" cmd
             (assign_if (Js.includes cmd "test") "test" cmd (commands acc)))
    | None => commands acc
    end in
  {| rules := rules1; commands := commands1 |}.

Definition scan_content (acc : legacy) (content : string) : legacy :=
  fold_left scan_line (Js.split "010" content) acc.

(** The body of the loop over [legacyFiles]. *)
Definition scan_file (fs : gmap string string) (acc : legacy)
  (file : string * legacy_type) : legacy :=
  match fs !! fst file with
  | None => acc
  | Some content =>
      match snd file with
      | agents | claude => scan_content acc content
      | cursor | copilot => acc
      end
  end.

Definition legacy_value (l : legacy) : value :=
  VObj [ ("rules", VArr (map VStr (rules l)));
         ("commands", VObj (commands l));
         ("project", VObj []) ].

Definition scan_files (fs : gmap string string) (a : app) : legacy :=
  fold_left (scan_file fs) (legacyFiles a) {| rules := []; commands := [] |}.

Definition loadLegacyConfigs (fs : gmap string string) (a : app) : value :=
  let legacyConfig := scan_files fs a in
  if (0 <? length (rules legacyConfig))%nat || (0 <? length (commands legacyConfig))%nat
  then legacy_value legacyConfig
  else VNull.

(** ** Config Merger *)

(** [Array.isArray(v) ? v : []] *)
Definition array_or_empty (v : value) : list value :=
  match v with VArr xs | VArrWith xs _ => xs | _ => [] end.

Definition mergeConfigs (agentrcConfig legacyConfig : value) : value :=
  if negb (truthy agentrcConfig) && negb (truthy legacyConfig) then VNull
  else if negb (truthy agentrcConfig) then legacyConfig
  else if negb (truthy legacyConfig) then agentrcConfig
  else
    let safeAgentrcConfig := or_else agentrcConfig (VObj []) in
    let safeLegacyConfig := or_else legacyConfig (VObj []) in
    let merged_of (key : string) : value :=
      VObj (spread (or_else (get safeAgentrcConfig key) (VObj []))
              (spread (or_else (get safeLegacyConfig key) (VObj [])) [])) in
    VObj
      (obj_set "project" (merged_of "project")
         (obj_set "rules"
            (VArr (array_or_empty (get safeLegacyConfig "rules")
                   ++ array_or_empty (get safeAgentrcConfig "rules")))
            (obj_set "commands" (merged_of "commands")
               (spread safeAgentrcConfig [])))).

(** ** Rule list commands *)

(** [ruleId] is a number when the memory tool is called directly and a
    string when the command came through the shell. *)
Inductive rule_id : Type := IdNum (n : Z) | IdStr (s : string).

(** The properties [action], [rule] and [ruleId] of the arguments;
    [None] is [undefined]. *)
Record memory_args := {
  action : option string;
  rule : option string;
  ruleId : option rule_id
}.

Record reply := { title : string; output : string }.

Definition action_is (a : option string) (s : string) : bool :=
  match a with Some t => String.eqb t s | None => false end.

Definition digit_of (a : ascii) : option N :=
  let n := N_of_ascii a in
  if (48 <=? n)%N && (n <=? 57)%N then Some (n - 48)%N else None.

Fixpoint digits_from (acc : N) (s : string) : option N :=
  match s with
  | EmptyString => Some acc
  | String a s' =>
      match digit_of a with
      | Some d => digits_from (acc * 10 + d)%N s'
      | None => None
      end
  end.

(** The array index a property name stands for: the natural number
    whose canonical decimal form it is.  [007] and [-1] are property
    names like any other. *)
Definition canonical_index (s : string) : option N :=
  match digits_from 0 s with
  | Some n => if String.eqb (pretty n) s then Some n else None
  | None => None
  end.

(** The value of a text of one or more decimal digits. *)
Definition digits_value (s : string) : option Z :=
  match s with
  | EmptyString => None
  | _ => Z.of_N <$> digits_from 0 s
  end.

(** The number a text of decimal digits converts to, with or without a
    sign and with or without leading zeros.  As everywhere in this
    development the number is the integer itself. *)
Definition integer_text (s : string) : option Z :=
  match s with
  | EmptyString => None
  | String a s' =>
      if Ascii.eqb a "-" then Z.opp <$> digits_value s'
      else if Ascii.eqb a "+" then digits_value s'
      else digits_value s
  end.

(** What [ToIntegerOrInfinity] returns. *)
Inductive integer_or_infinity : Type :=
| Finite (n : Z)
| PlusInfinity
| MinusInfinity.

(** What else of the language runtime a [ruleId] given as text can
    reach.  Like [JSON.parse] and [JSON.stringify] these are parameters.
    - [ToIntegerOrInfinity s] is what [splice] makes of a text [s] that
      is not a decimal integer: the floating point reader applied to
      [s], truncated ([abc] gives 0, [1.9] gives 1, [Infinity] gives
      infinity).
    - [inherited_text name] is the text of [`${[][name]}`] for a name
      that every array inherits ([push], [constructor], ...), an
      engine's rendering of a built-in; it is [None] for a name that
      arrays do not inherit.  No inherited name is a decimal integer. *)
Record runtime := {
  ToIntegerOrInfinity : string -> integer_or_infinity;
  inherited_text : string -> option string
}.

(** [ToIntegerOrInfinity(ruleId)] *)
Definition to_integer (rt : runtime) (id : rule_id) : integer_or_infinity :=
  match id with
  | IdNum n => Finite n
  | IdStr s =>
      match integer_text s with
      | Some n => Finite n
      | None => ToIntegerOrInfinity rt s
      end
  end.

(** The property name [rules[ruleId]] looks up: [ruleId] as text. *)
Definition property_key (id : rule_id) : string :=
  match id with
  | IdNum n => pretty n
  | IdStr s => s
  end.

(** [xs[n]] *)
Definition element_at (xs : list value) (n : Z) : value :=
  if (n <? 0)%Z then VUndefined else default VUndefined (xs !! Z.to_nat n).

(** Where [xs.splice(n, 1)] starts: a negative [n] counts from the end,
    and the start is clamped to the array. *)
Definition actual_start (len n : Z) : Z :=
  if (n <? 0)%Z then Z.max (len + n) 0 else Z.min n len.

(** [xs] after [xs.splice(n, 1)] *)
Definition splice1 (n : Z) (xs : list value) : list value :=
  let k := Z.to_nat (actual_start (Z.of_nat (length xs)) n) in
  take k xs ++ drop (S k) xs.

(** The same for a start that may be infinite: from plus infinity the
    start is the end of the array and nothing goes, from minus infinity
    it is the beginning. *)
Definition splice_at (start : integer_or_infinity) (xs : list value) : list value :=
  match start with
  | Finite n => splice1 n xs
  | PlusInfinity => xs
  | MinusInfinity => drop 1 xs
  end.

(** The text of [`${rules[ruleId]}`] for an array with the elements
    [xs] and the named properties [props].  An index finds its element;
    [length] is the array's own; then come the named properties, and
    last what arrays inherit. *)
Definition removed_text (rt : runtime) (xs : list value) (props : obj)
  (id : rule_id) : string :=
  let key := property_key id in
  match canonical_index key with
  | Some i => to_string (element_at xs (Z.of_N i))
  | None =>
      if String.eqb key "length" then pretty (length xs)
      else
        match obj_get key props with
        | Some v => to_string v
        | None =>
            match integer_text key with
            | Some _ => "undefined"
            | None => default "undefined" (inherited_text rt key)
            end
        end
  end.

(** The elements and the named properties of an array; [None] for what
    is not an array. *)
Definition elements (v : value) : option (list value * obj) :=
  match v with
  | VArr xs => Some (xs, [])
  | VArrWith xs props => Some (xs, props)
  | _ => None
  end.

(** The array [v] with the elements [xs]. *)
Definition with_elements (v : value) (xs : list value) : value :=
  match v with
  | VArrWith _ props => VArrWith xs props
  | _ => VArr xs
  end.

(** [config.rules = v].  An object takes the property, and so does an
    array; giving a property to a primitive raises (module code is
    strict). *)
Definition set_rules (config : value) (v : value) : outcome value :=
  match config with
  | VObj o => Returns (VObj (obj_set "rules" v o))
  | VArr xs => Returns (VArrWith xs [("rules", v)])
  | VArrWith xs props => Returns (VArrWith xs (obj_set "rules" v props))
  | _ => Throws TypeError
  end.

Definition newline : string := String "010" EmptyString.

Section Memory.
Variable JSON_stringify : value -> string.
Variable rt : runtime.

(** [if (configPath) await fs.writeFile(configPath, JSON.stringify(config, null, 2))] *)
Definition persist (configPath : option string) (config : value)
  (fs : gmap string string) : gmap string string :=
  match configPath with
  | Some p =>
      if String.eqb p EmptyString then fs else <[p := JSON_stringify config]> fs
  | None => fs
  end.

(** The result is the reply, the configuration after the call and the
    file system after the call.  A call that throws has changed
    neither: every throw comes before the first change, or after an
    assignment of [config.rules] to itself.

    Where [rules] is truthy and not an array, it has no [push] and no
    [splice], and the call raises a [TypeError]; so does giving a
    property to a primitive [config].  A configuration that is itself
    an array takes [rules] as a property of the array. *)
Definition handleMemoryCommand (args : memory_args) (config : value)
  (configPath : option string) (fs : gmap string string)
  : outcome (reply * value * gmap string string) :=
  if action_is (action args) "list" then
    Returns
      ({| title := "📋 Project Rules";
          output := JSON_stringify (VObj
            [ ("rules", or_else (get config "rules") (VArr []));
              ("commands", or_else (get config "commands") (VObj []));
              ("project", or_else (get config "project") (VObj [])) ]) |},
       config, fs)
  else if action_is (action args) "add" then
    match rule args with
    | None => Throws MissingRule
    | Some text =>
        if String.eqb text EmptyString then Throws MissingRule
        else if negb (truthy config) then Throws NoConfig
        else
          (* config.rules = config.rules || [] *)
          let rs := or_else (get config "rules") (VArr []) in
          match set_rules config rs with
          | Throws e => Throws e
          | Returns config1 =>
              (* config.rules.push(rule) *)
              match elements rs with
              | None => Throws TypeError
              | Some (xs, _) =>
                  match set_rules config1 (with_elements rs (xs ++ [VStr text])) with
                  | Throws e => Throws e
                  | Returns config' =>
                      Returns
                        ({| title := "✅ Rule Added";
                            output := "Added rule: " +:+ text |},
                         config', persist configPath config' fs)
                  end
              end
          end
    end
  else if action_is (action args) "remove" then
    match ruleId args with
    | None => Throws MissingRuleId
    | Some id =>
        let rs := get config "rules" in
        if negb (truthy rs) then Throws NoRules
        else
          match elements rs with
          | None => Throws TypeError
          | Some (xs, props) =>
              let removedRule := removed_text rt xs props id in
              (* config.rules.splice(ruleId, 1) *)
              match set_rules config
                      (with_elements rs (splice_at (to_integer rt id) xs)) with
              | Throws e => Throws e
              | Returns config' =>
                  Returns
                    ({| title := "🗑️ Rule Removed";
                        output := "Removed rule: " +:+ removedRule |},
                     config', persist configPath config' fs)
              end
          end
    end
  else
    Returns
      ({| title := "🌸 Kuuzuki Memory Tool";
          output := "Available actions: list, add, remove" +:+ newline +:+
                    "Usage: memory action=list | memory action=add rule='Your rule' | memory action=remove ruleId=0" |},
       config, fs).
End Memory.

(** ** Command Dispatcher *)

(** The plugin's two variables, shared by its hooks. *)
Record plugin := { agentrcConfig : value; configPath : option string }.

(** [output.args]: the properties the hook reads; [None] is
    [undefined].  [memory] holds [action], [rule] and [ruleId]. *)
Record tool_args := {
  filePath : option string;
  command : option string;
  memory : memory_args
}.

(** [args[key] = text] on the object literal [args].  The name
    [__proto__] is the accessor every object inherits, and its setter
    ignores a text: no property is made. *)
Definition assign_text (key text : string) (args : obj) : obj :=
  if String.eqb key "__proto__" then args else obj_set key (VStr text) args.

(** The body of [parts.forEach]: [const [key, value] = part.split("=")],
    then the assignment when both are non-empty. *)
Definition parse_part (args : obj) (part : string) : obj :=
  match Js.split "=" part with
  | key :: value :: _ =>
      if negb (String.eqb key EmptyString) && negb (String.eqb value EmptyString)
      then assign_text key (Js.strip_quotes value) args
      else args
  | _ => args
  end.

(** The arguments object built from a shell command [memory ...]. *)
Definition parse_memory_command (command : string) : obj :=
  let cmd := Js.replace "memory " EmptyString command in
  let parts := Js.split " " cmd in
  fold_left parse_part parts [].


Definition string_property (k : string) (args : obj) : option string :=
  match obj_get k args with
  | Some (VStr s) => Some s
  | _ => None
  end.

(** [const { action, rule, ruleId } = args] on a parsed command. *)
Definition destructure (args : obj) : memory_args :=
  {| action := string_property "action" args;
     rule := string_property "rule" args;
     ruleId := IdStr <$> string_property "ruleId" args |}.

(** One [if (cond && replacement) output.args.command = replacement]. *)
Definition remap (cond : bool) (replacement : value) (current : value) : value :=
  if cond && truthy replacement then replacement else current.

(** The seven remapping statements, in order.  Every test reads the
    command as it came in; every assignment overwrites the previous
    one. *)
Definition command_mapping (cmds : value) (command : string) : value :=
  let given s := String.eqb command s in
  let c1 := remap (given "npm test") (get cmds "test") (VStr command) in
  let c2 := remap (given "npm run build") (get cmds "build") c1 in
  let c3 := remap (Js.includes command "lint") (get cmds "lint") c2 in
  let c4 := remap (given "npm run dev") (get cmds "dev") c3 in
  let c5 := remap (given "npm run build") (get cmds "build") c4 in
  let c6 := remap (Js.includes command "lint") (get cmds "lint") c5 in
  remap (given "npm run dev") (get cmds "dev") c6.

(** [sensitiveFiles?.includes("*.env")]: an array is searched for the
    element, a string for the substring; nothing else has the method. *)
Definition includes_env_glob (sensitiveFiles : value) : outcome bool :=
  match sensitiveFiles with
  | VUndefined | VNull => Returns false
  | VArr xs | VArrWith xs _ => Returns (existsb (is_str "*.env") xs)
  | VStr s => Returns (Js.includes s "*.env")
  | _ => Throws TypeError
  end.

(** [xs.some(rule => rule.toLowerCase().includes("protect .env"))] *)
Fixpoint some_protects_env (xs : list value) : outcome bool :=
  match xs with
  | [] => Returns false
  | VStr s :: xs' =>
      if Js.includes (Js.toLowerCase s) "protect .env" then Returns true
      else some_protects_env xs'
  | _ :: _ => Throws TypeError
  end.

Definition rules_protect_env (rs : value) : outcome bool :=
  match rs with
  | VUndefined | VNull => Returns false
  | VArr xs | VArrWith xs _ => some_protects_env xs
  | _ => Throws TypeError
  end.

(** The condition of the security rule: [a || b], left to right. *)
Definition env_is_sensitive (config : value) : outcome bool :=
  match includes_env_glob (get (get config "security") "sensitiveFiles") with
  | Throws e => Throws e
  | Returns true => Returns true
  | Returns false => rules_protect_env (get config "rules")
  end.

(** [xs.some(pattern => filePath.includes(pattern.replace("*", "")))] *)
Fixpoint some_restricts (file : string) (xs : list value) : outcome bool :=
  match xs with
  | [] => Returns false
  | VStr pattern :: xs' =>
      if Js.includes file (Js.replace "*" EmptyString pattern) then Returns true
      else some_restricts file xs'
  | _ :: _ => Throws TypeError
  end.

Definition is_restricted (file : string) (restrictedPaths : value) : outcome bool :=
  match restrictedPaths with
  | VArr xs | VArrWith xs _ => some_restricts file xs
  | _ => Throws TypeError
  end.

(** The two onboarding branches hand over to [createDefaultAgentrc];
    what they do to the files is [annotate_agents_file] and [init]
    below. *)
Inductive onboarding : Type := WritesAgentsFile | SlashInit.

Inductive hook_result : Type :=
| Onboards (branch : onboarding)
| Answers (r : reply) (st : plugin) (fs : gmap string string)
    (* [output.args] replaced by the memory result *)
| Proceeds (command : value) (warned : bool)
    (* the invocation goes on with this [command]; nothing else changed *)
| Fails (e : exn).

Definition opt_test (f : string -> bool) (s : option string) : bool :=
  match s with Some x => f x | None => false end.

Section Dispatcher.
Variable JSON_stringify : value -> string.
Variable rt : runtime.

(** The last three rules of the hook, for an invocation that was not
    intercepted: command mapping, the [.env] rule, restricted paths. *)
Definition enforce (config : value) (tool : string) (args : tool_args)
  : hook_result :=
  let mapped : outcome value :=
    if String.eqb tool "bash" && truthy (get config "commands") then
      match command args with
      | Some c => Returns (command_mapping (get config "commands") c)
      | None => Throws TypeError
      end
    else Returns (match command args with Some c => VStr c | None => VUndefined end) in
  match mapped with
  | Throws e => Fails e
  | Returns cmd =>
      let denied : outcome bool :=
        if String.eqb tool "read" && opt_test (fun p => Js.includes p ".env") (filePath args)
        then env_is_sensitive config
        else Returns false in
      match denied with
      | Throws e => Fails e
      | Returns true => Fails SecurityDenied
      | Returns false =>
          if String.eqb tool "write" || String.eqb tool "edit" then
            match filePath args with
            | Some file =>
                let restrictedPaths := get (get config "security") "restrictedPaths" in
                if negb (String.eqb file EmptyString) && truthy restrictedPaths then
                  match is_restricted file restrictedPaths with
                  | Throws e => Fails e
                  | Returns isRestricted => Proceeds cmd isRestricted
                  end
                else Proceeds cmd false
            | None => Proceeds cmd false
            end
          else Proceeds cmd false
      end
  end.

Definition tool_execute_before (st : plugin) (fs : gmap string string)
  (tool : string) (args : tool_args) : hook_result :=
  if String.eqb tool "write"
     && opt_test (fun p => Js.endsWith p "AGENTS.md") (filePath args)
  then Onboards WritesAgentsFile
  else if String.eqb tool "bash" && opt_test (fun c => String.eqb c "/init") (command args)
  then Onboards SlashInit
  else if String.eqb tool "memory"
          || (String.eqb tool "bash"
              && opt_test (fun c => Js.startsWith c "memory ") (command args))
  then
    let margs :=
      if String.eqb tool "memory" then memory args
      else destructure
             (parse_memory_command (default EmptyString (command args))) in
    match handleMemoryCommand JSON_stringify rt margs
            (agentrcConfig st) (configPath st) fs with
    | Returns (result, config', fs') =>
        Answers result
          {| agentrcConfig := config'; configPath := configPath st |} fs'
    | Throws e => Fails e
    end
  else enforce (agentrcConfig st) tool args.
End Dispatcher.

(** ** Plugin start and reload *)

(** One line of the banner that shows a property: the value, or the
    fallback for a falsy one, padded.  Only text has [padEnd]. *)
Definition banner_field (v : value) (fallback : string) (width : nat)
  : outcome string :=
  match or_else v (VStr fallback) with
  | VStr s => Returns (padEnd s width)
  | _ => Throws TypeError
  end.

(** The banner [displayKuuzukiBanner] builds and hands to the logger. *)
Definition displayKuuzukiBanner (config : value) : outcome string :=
  match banner_field (get (get config "project") "name") "Unknown" 42 with
  | Throws e => Throws e
  | Returns name =>
      match banner_field (get (get config "project") "type") "Not specified" 45 with
      | Throws e => Throws e
      | Returns type =>
          let count :=
            padEnd (to_string (or_else (js_length (get config "rules")) (VNum 0))) 44 in
          Returns
            (newline
             +:+ "┌─────────────────────────────────────────────────────────┐" +:+ newline
             +:+ "│  🌸 kuuzuki compatibility layer active                 │" +:+ newline
             +:+ "│  Bringing .agentrc support to OpenCode                 │" +:+ newline
             +:+ "│                                                         │" +:+ newline
             +:+ "│  Project: " +:+ name +:+ " │" +:+ newline
             +:+ "│  Type: " +:+ type +:+ " │" +:+ newline
             +:+ "│  Rules: " +:+ count +:+ " │" +:+ newline
             +:+ "└─────────────────────────────────────────────────────────┘")
      end
  end.

(** [if (agentrcConfig) await displayKuuzukiBanner(agentrcConfig, logger)]
    at the end of the start: the state is kept, unless the banner
    raises. *)
Definition announce (st : plugin) : outcome plugin :=
  if truthy (agentrcConfig st) then
    match displayKuuzukiBanner (agentrcConfig st) with
    | Returns _ => Returns st
    | Throws e => Throws e
    end
  else Returns st.

Section Plugin.
Variable JSON_parse : string -> option value.

(** The start of the plugin: the located configuration is merged with
    the legacy extraction, and the banner is shown.  Whatever is raised
    on the way is raised again by the [catch] around the start. *)
Definition KuuzukiAgentrcPlugin (fs : gmap string string) (a : app)
  : outcome plugin :=
  let l := loadAgentrcConfig JSON_parse fs a in
  let legacyConfig := loadLegacyConfigs fs a in
  announce {| agentrcConfig := mergeConfigs (config l) legacyConfig;
              configPath := path l |}.

(** The [file.changed] event: both variables are replaced by what the
    locator finds now.  The banner is shown after that, so the state is
    the same whether or not the banner raises. *)
Definition file_changed (st : plugin) (fs : gmap string string) (a : app)
  (changed : option string) : plugin :=
  if opt_test (fun p => Js.endsWith p ".agentrc") changed then
    let l := loadAgentrcConfig JSON_parse fs a in
    {| agentrcConfig := config l; configPath := path l |}
  else st.
End Plugin.

(** ** Data for the examples *)

Definition double_quote : string := String "034" EmptyString.

Definition quoted (s : string) : string := double_quote +:+ s +:+ double_quote.

(** The text of the JSON object with the one property [rules], a list
    of one string. *)
Definition rules_text (r : string) : string :=
  "{" +:+ quoted "rules" +:+ ":[" +:+ quoted r +:+ "]}".

(** The theorems below hold for every [JSON.parse] and every
    [JSON.stringify].  The examples need one of each: a reader that
    knows the few texts the examples use and rejects every other text,
    and a writer that prints a value on one line. *)
Definition sample_parse (text : string) : option value :=
  if String.eqb text "42" then Some (VNum 42)
  else if String.eqb text "null" then Some VNull
  else if String.eqb text "{}" then Some (VObj [])
  else if String.eqb text (rules_text "A") then Some (VObj [("rules", VArr [VStr "A"])])
  else if String.eqb text (rules_text "G") then Some (VObj [("rules", VArr [VStr "G"])])
  else None.

Fixpoint sample_stringify (v : value) : string :=
  match v with
  | VUndefined | VNull => "null"
  | VBool true => "true"
  | VBool false => "false"
  | VNum n => pretty n
  | VStr s => quoted s
  | VArr xs | VArrWith xs _ =>
      "[" +:+
      (fix items (l : list value) : string :=
         match l with
         | [] => EmptyString
         | [x] => sample_stringify x
         | x :: l' => sample_stringify x +:+ "," +:+ items l'
         end) xs
      +:+ "]"
  | VObj o =>
      "{" +:+
      (fix members (l : list (string * value)) : string :=
         match l with
         | [] => EmptyString
         | [(k, x)] => quoted k +:+ ":" +:+ sample_stringify x
         | (k, x) :: l' => quoted k +:+ ":" +:+ sample_stringify x +:+ "," +:+ members l'
         end) o
      +:+ "}"
  end.

(** A runtime for the examples: every text that is not a decimal
    integer converts to zero, as a text that is no number does, and
    [push] is the one inherited name it knows. *)
Definition sample_runtime : runtime :=
  {| ToIntegerOrInfinity := fun _ => Finite 0;
     inherited_text := fun name =>
       if String.eqb name "push" then Some "function push() { [native code] }"
       else None |}.

Definition sample_app : app :=
  {| root := "/work"; config_dir := "/etc/opencode"; HOME := "/home/dev" |}.

Definition no_memory_args : memory_args :=
  {| action := None; rule := None; ruleId := None |}.

(** The project file holds the number 42 and the global file an object:
    the plugin starts, with the global configuration. *)
Definition number_in_project_file : gmap string string :=
  <[ "/work/.agentrc" := "42" ]>
    (<[ "/etc/opencode/.agentrc" := rules_text "G" ]> ∅).

(** A reader for the example of the banner: it knows the number 42 and
    a configuration whose project name is a number. *)
Definition numbered_name_parse (text : string) : option value :=
  if String.eqb text "42" then Some (VNum 42)
  else if String.eqb text "numbered" then
    Some (VObj [("project", VObj [("name", VNum 5)])])
  else None.

(** The project file holds the number 42 and the global file a
    configuration whose project name is a number. *)
Definition number_then_numbered_name : gmap string string :=
  <[ "/work/.agentrc" := "42" ]>
    (<[ "/etc/opencode/.agentrc" := "numbered" ]> ∅).

Definition project_file_only : gmap string string :=
  <[ "/work/.agentrc" := rules_text "A" ]>
    (<[ "/etc/opencode/.agentrc" := rules_text "G" ]> ∅).

Definition unreadable_project_file : gmap string string :=
  <[ "/work/.agentrc" := "{ not json" ]>
    (<[ "/etc/opencode/.agentrc" := rules_text "G" ]> ∅).


(** The configured entries that correspond to a command, in the words
    of the specification: [npm test] has [test], [npm run build] has
    [build], a command containing [lint] has [lint], [npm run dev] has
    [dev]. *)
Definition corresponding_keys (command : string) : list string :=
  (if String.eqb command "npm test" then ["test"] else [])
  ++ (if String.eqb command "npm run build" then ["build"] else [])
  ++ (if Js.includes command "lint" then ["lint"] else [])
  ++ (if String.eqb command "npm run dev" then ["dev"] else []).

Definition shell_call (c : string) : tool_args :=
  {| filePath := None; command := Some c; memory := no_memory_args |}.

Definition read_call (file : string) : tool_args :=
  {| filePath := Some file; command := None; memory := no_memory_args |}.

(** A plugin whose configuration maps the build command. *)
Definition with_make : plugin :=
  {| agentrcConfig := VObj [("commands", VObj [("build", VStr "make all")])];
     configPath := Some "/work/.agentrc" |}.

(** A plugin whose configuration lists [*.env] as sensitive. *)
Definition with_sensitive_env : plugin :=
  {| agentrcConfig :=
       VObj [("security", VObj [("sensitiveFiles", VArr [VStr "*.key"; VStr "*.env"])])];
     configPath := Some "/work/.agentrc" |}.

(** A plugin with rules and no security section. *)
Definition with_plain_rules : plugin :=
  {| agentrcConfig := VObj [("rules", VArr [VStr "Use semantic commit messages"])];
     configPath := Some "/work/.agentrc" |}.

(** A plugin with no security section and a rule about [.env] files. *)
Definition with_protect_rule : plugin :=
  {| agentrcConfig := VObj [("rules", VArr [VStr "Protect .env files"])];
     configPath := Some "/work/.agentrc" |}.

Definition remove_call (id : rule_id) : memory_args :=
  {| action := Some "remove"; rule := None; ruleId := Some id |}.

Definition add_call (text : string) : memory_args :=
  {| action := Some "add"; rule := Some text; ruleId := None |}.

Definition list_call : memory_args :=
  {| action := Some "list"; rule := None; ruleId := None |}.

Definition memory_call (m : memory_args) : tool_args :=
  {| filePath := None; command := None; memory := m |}.

(** The loaded configuration of scenario C. *)
Definition rules_A : value := VObj [("rules", VArr [VStr "A"])].

(** Only an instructions file: nothing for the locator to find. *)
Definition legacy_only : gmap string string :=
  <[ "/work/AGENTS.md" := "- Follow style: be consistent" ]> ∅.

(** ** Further definitions for the properties *)

(** The property names of an object. *)
Definition keys (o : obj) : list string := map fst o.

(** The last character of a text. *)
Fixpoint last_char (s : string) : option ascii :=
  match s with
  | EmptyString => None
  | String a EmptyString => Some a
  | String _ s' => last_char s'
  end.

(** Whether [lines.forEach] takes a line for a rule. *)
Definition is_rule_line (line : string) : bool :=
  Js.startsWith line "- " && Js.includes line ":".

(** The rules a file's text contributes: its rule lines, in order,
    without their dash. *)
Definition rule_lines (content : option string) : list string :=
  match content with
  | Some text => map (Js.substring 2) (List.filter is_rule_line (Js.split "010" text))
  | None => []
  end.

(** The files of scenario A: an instructions file and nothing else. *)
Definition scenario_A_files : gmap string string :=
  <[ "/work/AGENTS.md" :=
       "# Guidelines" +:+ newline +:+ "- Follow style: be consistent"
       +:+ newline +:+ "Run `npm test` before a commit" ]> ∅.

(** A shell token [key=value], and a command line of such tokens
    separated by single spaces. *)
Definition token (kv : string * string) : string := fst kv +:+ "=" +:+ snd kv.

Fixpoint render_tokens (l : list (string * string)) : string :=
  match l with
  | [] => EmptyString
  | [kv] => token kv
  | kv :: l' => token kv +:+ " " +:+ render_tokens l'
  end.

(** A text that is one side of a token: not empty, no space, no [=]. *)
Definition plain_text (k : string) : bool :=
  negb (String.eqb k EmptyString)
  && negb (Js.includes k " ") && negb (Js.includes k "=").

(** A key the tokenizer reads back: a plain text other than the name
    [__proto__]. *)
Definition plain_key (k : string) : bool :=
  plain_text k && negb (String.eqb k "__proto__").

(** A value the tokenizer reads back: a plain text without quote
    characters. *)
Definition plain_value (v : string) : bool :=
  plain_text v && negb (Js.includes v "'") && negb (Js.includes v double_quote).

Definition plain_token (kv : string * string) : bool :=
  plain_key (fst kv) && plain_value (snd kv).

Definition write_call (file : string) : tool_args :=
  {| filePath := Some file; command := None; memory := no_memory_args |}.

(** A plugin that restricts two paths, one of them with two stars. *)
Definition with_restricted_paths : plugin :=
  {| agentrcConfig :=
       VObj [("security",
              VObj [("restrictedPaths", VArr [VStr "secrets/*"; VStr "**/keys"])])];
     configPath := Some "/work/.agentrc" |}.


(** ** The hook after a tool has run *)

(** What [output.args] holds for the hook: a result left by the hook
    that ran before, or the tool's own arguments. *)
Inductive pending : Type :=
| InitResult (r : reply)
| MemoryResult (r : reply)
| NoResult.

(** The [output] of a tool invocation, as the hook reads and writes it. *)
Record tool_output := {
  out_args : pending;
  out_title : value;
  out_output : value;
  out_metadata : value
}.

(** [out += text] *)
Definition append_text (out : value) (text : string) : value :=
  VStr (to_string out +:+ text).

(** The [kuuzuki] entry of the result metadata. *)
Definition kuuzuki_metadata (config : value) : value :=
  VObj [ ("project", get (get config "project") "name");
         ("projectType", get (get config "project") "type");
         ("hasAgentrc", VBool true);
         ("rulesCount", or_else (js_length (get config "rules")) (VNum 0)) ].

(** The comment block added to what a [read] returned. *)
Definition project_context (config : value) (out : value) : value :=
  let conventions := get config "conventions" in
  let tools := get config "tools" in
  if truthy conventions || truthy tools then
    let o1 := append_text out (newline +:+ newline +:+ "<!-- 🌸 Kuuzuki Project Context -->") in
    let o2 :=
      if truthy conventions
      then append_text o1
             (newline +:+ "<!-- Naming: "
              +:+ to_string (or_else (get conventions "fileNaming") (VStr "not specified"))
              +:+ " -->")
      else o1 in
    if truthy (get tools "packageManager")
    then append_text o2
           (newline +:+ "<!-- Package Manager: "
            +:+ to_string (get tools "packageManager") +:+ " -->")
    else o2
  else out.

Definition tool_execute_after (config : value) (tool : string) (out : tool_output)
  : tool_output :=
  match out_args out with
  | InitResult result | MemoryResult result =>
      {| out_args := NoResult;
         out_title := VStr (title result);
         out_output := VStr (output result);
         out_metadata := out_metadata out |}
  | NoResult =>
      let metadata1 :=
        if truthy config
        then VObj (obj_set "kuuzuki" (kuuzuki_metadata config)
                     (spread (out_metadata out) []))
        else out_metadata out in
      let output1 :=
        if String.eqb tool "read" && truthy config
        then project_context config (out_output out)
        else out_output out in
      let title1 :=
        if String.eqb tool "bash" && truthy (out_title out)
        then VStr ("🌸 " +:+ to_string (out_title out))
        else out_title out in
      {| out_args := NoResult; out_title := title1;
         out_output := output1; out_metadata := metadata1 |}
  end.

(** What the hook before leaves in [output.args] for the hook after. *)
Definition left_for_after (h : hook_result) : pending :=
  match h with
  | Answers r _ _ => MemoryResult r
  | _ => NoResult
  end.

(** ** The smart logger's gates *)

Inductive message_level : Type :=
| info | success | warning | error | config_level | session.

(** [const { enabled = true, level = 'important', silent = false,
    mode = 'os' } = notificationConfig]: a default stands in for a
    property that is undefined. *)
Definition setting (notificationConfig : value) (k : string) (dflt : value) : value :=
  match get notificationConfig k with
  | VUndefined => dflt
  | v => v
  end.

Definition shouldNotify (notificationConfig : value) (messageLevel : message_level)
  : bool :=
  let enabled := setting notificationConfig "enabled" (VBool true) in
  let level := setting notificationConfig "level" (VStr "important") in
  if negb (truthy enabled) || is_str "none" level then false
  else if is_str "all" level then true
  else if is_str "important" level then
    match messageLevel with
    | success | warning | error | config_level | session => true
    | info => false
    end
  else if is_str "errors-only" level then
    match messageLevel with error => true | _ => false end
  else false.

(** Whether [createLogger] itself echoes a message to the console. *)
Definition echoes (notificationConfig : value) : bool :=
  let silent := setting notificationConfig "silent" (VBool false) in
  let mode := setting notificationConfig "mode" (VStr "os") in
  negb (truthy silent) && (is_str "console" mode || is_str "both" mode).

(** Whether a message is sent as a desktop notification. *)
Definition sends_notification (notificationConfig : value)
  (messageLevel : message_level) : bool :=
  let mode := setting notificationConfig "mode" (VStr "os") in
  shouldNotify notificationConfig messageLevel
  && (is_str "os" mode || is_str "both" mode).

(** *** The notifier *)

Inductive platform : Type := darwin | linux | win32 | other_platform.

(** What a notification depends on outside the program: whether the
    host handed its shell [$] to the plugin, [process.platform], and
    whether the commands that show a notification succeed. *)
Record host := {
  has_shell : bool;
  process_platform : platform;
  osascript_ok : bool;
  toast_ok : bool;
  message_box_ok : bool
}.

(** [s.replace(re1, r1).replace(re2, r2)], the two patterns matching
    every double quote and every single quote, each replaced by a
    backslash and itself. *)
Fixpoint escape_quotes (s : string) : string :=
  match s with
  | EmptyString => EmptyString
  | String a s' =>
      if Ascii.eqb a "034" || Ascii.eqb a "'"
      then String "092" (String a (escape_quotes s'))
      else String a (escape_quotes s')
  end.

(** The lines [notify] writes with [console.log].  Without a shell it
    prints the message instead of showing it.  On macOS and on Windows
    a failure of the last command that is tried reaches the outer
    [catch], which prints the message.  On Linux every failure is
    caught on the way and nothing is printed.  On any other platform
    the escaped message is printed. *)
Definition notify (h : host) (title message : string) : list string :=
  let printed := "[" +:+ title +:+ "] " +:+ message in
  if negb (has_shell h) then [printed]
  else
    match process_platform h with
    | darwin => if osascript_ok h then [] else [printed]
    | linux => []
    | win32 => if toast_ok h || message_box_ok h then [] else [printed]
    | other_platform =>
        ["[" +:+ escape_quotes title +:+ "] " +:+ escape_quotes message]
    end.

(** The title each method of the notifier gives [notify]. *)
Definition notifier_title (messageLevel : message_level) : string :=
  match messageLevel with
  | info => "🌸 Kuuzuki"
  | success => "✅ Kuuzuki Success"
  | warning => "⚠️ Kuuzuki Warning"
  | error => "❌ Kuuzuki Error"
  | config_level => "⚙️ Kuuzuki Config"
  | session => "🚀 Kuuzuki Session"
  end.

(** Everything one call of a logger method writes to the console: the
    echo of [createLogger], then what the notifier prints. *)
Definition console_lines (h : host) (notificationConfig : value)
  (messageLevel : message_level) (message : string) : list string :=
  (if echoes notificationConfig then ["[🌸 Kuuzuki] " +:+ message] else [])
  ++ (if sends_notification notificationConfig messageLevel
      then notify h (notifier_title messageLevel) message
      else []).

(** A Linux host with a shell, and a host without a shell. *)
Definition linux_host : host :=
  {| has_shell := true; process_platform := linux;
     osascript_ok := false; toast_ok := false; message_box_ok := false |}.

Definition no_shell_host : host :=
  {| has_shell := false; process_platform := linux;
     osascript_ok := false; toast_ok := false; message_box_ok := false |}.

(** The configuration the plugin gives the logger:
    [agentrcConfig?.notifications || { mode: 'os', silent: true }]. *)
Definition notificationConfig_of (agentrcConfig : value) : value :=
  or_else (get agentrcConfig "notifications")
          (VObj [("mode", VStr "os"); ("silent", VBool true)]).

(** The answer to [list] on the configuration of scenario C, and the
    output the hook before leaves for a shell command that asked it. *)
Definition listing_of_A : reply :=
  {| title := "📋 Project Rules";
     output := sample_stringify
                 (VObj [ ("rules", VArr [VStr "A"]);
                         ("commands", VObj []);
                         ("project", VObj []) ]) |}.

Definition listing_pending : tool_output :=
  {| out_args := MemoryResult listing_of_A;
     out_title := VStr "memory action=list";
     out_output := VUndefined;
     out_metadata := VUndefined |}.

(** A configuration that names its package manager, and the result of
    reading a file. *)
Definition with_tools : value :=
  VObj [("tools", VObj [("packageManager", VStr "bun")])].

Definition plain_read_output : tool_output :=
  {| out_args := NoResult; out_title := VStr "src/a.js";
     out_output := VStr "const a = 1"; out_metadata := VUndefined |}.

(** ** Project Analyzer *)

Module Analysis.
Record analysis := {
  type : string;
  language : string;
  framework : option string;
  packageManager : string;
  testFramework : option string;
  buildTool : option string;
  hasTypescript : bool;
  commands : value;
  dependencies : list string;
  devDependencies : list string
}.
End Analysis.

(** [fs.access(p)] succeeds. *)
Definition exists_at (fs : gmap string string) (p : string) : bool :=
  match fs !! p with Some _ => true | None => false end.

(** [names.includes(name)] *)
Definition has (names : list string) (name : string) : bool :=
  existsb (String.eqb name) names.

(** [Object.keys(v)] *)
Definition object_keys (v : value) : list string := keys (own_properties v).

(** The analysis [analyzeProject] starts from. *)
Definition initial_analysis : Analysis.analysis :=
  {| Analysis.type := "opencode-project";
     Analysis.language := "javascript";
     Analysis.framework := None;
     Analysis.packageManager := "npm";
     Analysis.testFramework := None;
     Analysis.buildTool := None;
     Analysis.hasTypescript := false;
     Analysis.commands := VObj [];
     Analysis.dependencies := [];
     Analysis.devDependencies := [] |}.

Definition with_kind (an : Analysis.analysis) (type language packageManager : string)
  : Analysis.analysis :=
  {| Analysis.type := type;
     Analysis.language := language;
     Analysis.framework := Analysis.framework an;
     Analysis.packageManager := packageManager;
     Analysis.testFramework := Analysis.testFramework an;
     Analysis.buildTool := Analysis.buildTool an;
     Analysis.hasTypescript := Analysis.hasTypescript an;
     Analysis.commands := Analysis.commands an;
     Analysis.dependencies := Analysis.dependencies an;
     Analysis.devDependencies := Analysis.devDependencies an |}.

(** The [catch]: the markers of the other project types, on the
    analysis as the [try] left it. *)
Definition detect_other (fs : gmap string string) (projectPath : string)
  (an : Analysis.analysis) : Analysis.analysis :=
  if exists_at fs (path_join [projectPath; "Cargo.toml"])
  then with_kind an "rust-project" "rust" "cargo"
  else if exists_at fs (path_join [projectPath; "go.mod"])
  then with_kind an "go-project" "go" "go"
  else if exists_at fs (path_join [projectPath; "requirements.txt"])
  then with_kind an "python-project" "python" "pip"
  else an.

(** The [try], once the manifest is read and is not null. *)
Definition analyze_manifest (fs : gmap string string) (projectPath : string)
  (packageJson : value) : Analysis.analysis :=
  let commands := or_else (get packageJson "scripts") (VObj []) in
  let dependencies := object_keys (or_else (get packageJson "dependencies") (VObj [])) in
  let devDependencies :=
    object_keys (or_else (get packageJson "devDependencies") (VObj [])) in
  let depends name := has dependencies name || has devDependencies name in
  let packageManager :=
    if exists_at fs (path_join [projectPath; "bun.lockb"]) then "bun"
    else if exists_at fs (path_join [projectPath; "yarn.lock"]) then "yarn"
    else if exists_at fs (path_join [projectPath; "pnpm-lock.yaml"]) then "pnpm"
    else "bun" in
  let hasTypescript :=
    depends "typescript" || exists_at fs (path_join [projectPath; "tsconfig.json"]) in
  let framework :=
    if depends "react" then Some "react"
    else if depends "vue" then Some "vue"
    else if depends "next" then Some "next"
    else if depends "express" then Some "express"
    else None in
  let type :=
    if depends "react" then "react-project"
    else if depends "vue" then "vue-project"
    else if depends "next" then "nextjs-project"
    else if depends "express" then "express-project"
    else "node-project" in
  let testFramework :=
    if depends "jest" then Some "jest"
    else if depends "vitest" then Some "vitest"
    else if depends "mocha" then Some "mocha"
    else None in
  let buildTool :=
    if depends "vite" then Some "vite"
    else if depends "webpack" then Some "webpack"
    else None in
  {| Analysis.type := type;
     Analysis.language := if hasTypescript then "typescript" else "javascript";
     Analysis.framework := framework;
     Analysis.packageManager := packageManager;
     Analysis.testFramework := testFramework;
     Analysis.buildTool := buildTool;
     Analysis.hasTypescript := hasTypescript;
     Analysis.commands := commands;
     Analysis.dependencies := dependencies;
     Analysis.devDependencies := devDependencies |}.

Section Analyzer.
Variable JSON_parse : string -> option value.

(** A manifest that cannot be read or parsed throws before anything is
    assigned.  A manifest that is [null] throws at [packageJson.scripts],
    after the type was set to a node project. *)
Definition analyzeProject (fs : gmap string string) (projectPath : string)
  : Analysis.analysis :=
  match fs !! path_join [projectPath; "package.json"] with
  | None => detect_other fs projectPath initial_analysis
  | Some content =>
      match JSON_parse content with
      | None => detect_other fs projectPath initial_analysis
      | Some VNull | Some VUndefined =>
          detect_other fs projectPath
            (with_kind initial_analysis "node-project" "javascript" "npm")
      | Some packageJson => analyze_manifest fs projectPath packageJson
      end
  end.
End Analyzer.

(** The manifest is read, parses, and is not null. *)
Definition readable_manifest (JSON_parse : string -> option value)
  (fs : gmap string string) (projectPath : string) (packageJson : value) : Prop :=
  exists content,
    fs !! path_join [projectPath; "package.json"] = Some content
    /\ JSON_parse content = Some packageJson
    /\ packageJson <> VNull /\ packageJson <> VUndefined.

(** No manifest, or one that does not parse. *)
Definition no_manifest (JSON_parse : string -> option value)
  (fs : gmap string string) (projectPath : string) : Prop :=
  fs !! path_join [projectPath; "package.json"] = None
  \/ exists content,
       fs !! path_join [projectPath; "package.json"] = Some content
       /\ JSON_parse content = None.

(** The types [analyzeProject] gives a project without a framework. *)
Definition plain_types : list string :=
  ["opencode-project"; "node-project"; "rust-project"; "go-project"; "python-project"].

(** The manifest of a React project written in TypeScript, with a yarn
    lock file beside it. *)
Definition react_manifest : value :=
  VObj [ ("scripts", VObj [("build", VStr "vite build"); ("dev", VStr "vite")]);
         ("dependencies", VObj [("react", VStr "^18.0.0")]);
         ("devDependencies", VObj [("typescript", VStr "^5.0.0"); ("vitest", VStr "^1.0.0")]) ].

Definition manifest_parse (text : string) : option value :=
  if String.eqb text "react manifest" then Some react_manifest else None.

Definition react_project : gmap string string :=
  <[ "/work/package.json" := "react manifest" ]> (<[ "/work/yarn.lock" := "lock" ]> ∅).

(** A directory with a Rust and a Go marker. *)
Definition rust_and_go : gmap string string :=
  <[ "/work/Cargo.toml" := "[package]" ]> (<[ "/work/go.mod" := "module m" ]> ∅).

(** ** Default configuration *)

(** The text of [path.basename(p)] on a POSIX path, read from the end:
    trailing slashes are passed over, then characters are taken up to
    the next slash. *)
Fixpoint skip_slashes (rev_path : list ascii) : list ascii :=
  match rev_path with
  | a :: rest => if Ascii.eqb a "/" then skip_slashes rest else rev_path
  | [] => []
  end.

Fixpoint upto_slash (rev_path : list ascii) : list ascii :=
  match rev_path with
  | a :: rest => if Ascii.eqb a "/" then [] else a :: upto_slash rest
  | [] => []
  end.

Definition basename (p : string) : string :=
  string_of_list_ascii
    (rev (upto_slash (skip_slashes (rev (list_ascii_of_string p))))).

Definition upper_ascii (a : ascii) : ascii :=
  let n := nat_of_ascii a in
  if (97 <=? n)%nat && (n <=? 122)%nat then ascii_of_nat (n - 32) else a.

(** [s.charAt(0).toUpperCase() + s.slice(1)], for the framework names,
    which are ASCII. *)
Definition capitalize (s : string) : string :=
  match s with
  | EmptyString => EmptyString
  | String a s' => String (upper_ascii a) s'
  end.

(** [...(x && { key: x })] for an optional text. *)
Definition optional_entry (key : string) (x : option string) : obj :=
  match x with Some s => [(key, VStr s)] | None => [] end.

Definition nullable (x : option string) : value :=
  match x with Some s => VStr s | None => VNull end.

(** The [commands] of the default configuration. *)
Definition default_commands (an : Analysis.analysis) : obj :=
  let pm := Analysis.packageManager an in
  let script name := truthy (get (Analysis.commands an) name) in
  let is_type t := String.eqb (Analysis.type an) t in
  let build :=
    if script "build" then pm +:+ " run build"
    else if is_type "rust-project" then "cargo build"
    else if is_type "go-project" then "go build"
    else pm +:+ " run build" in
  let test :=
    if script "test" then pm +:+ " test"
    else if is_type "rust-project" then "cargo test"
    else if is_type "go-project" then "go test"
    else pm +:+ " test" in
  [("build", VStr build); ("test", VStr test)]
  ++ (if script "dev" then [("dev", VStr (pm +:+ " run dev"))] else [])
  ++ (if script "start" then [("start", VStr (pm +:+ " start"))] else [])
  ++ (if script "lint" then [("lint", VStr (pm +:+ " run lint"))] else [])
  ++ (if script "type-check" || script "typecheck"
      then [("typecheck",
             VStr (pm +:+ " run "
                   +:+ (if script "typecheck" then "typecheck" else "type-check")))]
      else []).

(** The [rules] of the default configuration. *)
Definition default_rules (an : Analysis.analysis) : list string :=
  [ "Always use JavaScript/Bun - avoid TypeScript unless absolutely necessary";
    "Use functional programming paradigms combined with OOP when appropriate";
    "Apply DRY (Don't Repeat Yourself) methodology rigorously";
    "Use descriptive, functional names for variables, functions, and classes";
    "Follow existing code style and patterns" ]
  ++ (if opt_test (fun f => String.eqb f "react") (Analysis.framework an)
      then [ "Prefer functional components with hooks over class components";
             "Use custom hooks to extract and reuse stateful logic";
             "Implement pure functions for data transformations" ]
      else [])
  ++ (if Analysis.hasTypescript an
      then [ "Consider migrating TypeScript to JavaScript + JSDoc for type documentation";
             "If TypeScript is required, use it minimally with focus on interfaces" ]
      else [ "Use JSDoc comments for type documentation instead of TypeScript" ])
  ++ [ match Analysis.testFramework an with
       | Some t => "Write functional tests using " +:+ t
                   +:+ " - test behavior, not implementation"
       | None => "Write tests for new functionality using functional testing approaches"
       end ]
  ++ [ "Prefer pure functions - avoid side effects where possible";
       "Use higher-order functions for code reuse and composition";
       "When using classes, keep them focused with single responsibility";
       "Favor composition over inheritance";
       "Use semantic commit messages";
       "Prefer async/await over Promise.then() for readable async code" ].

(** The configuration object built from an analysis; [created] is the
    time stamp [new Date().toISOString()]. *)
Definition default_config (projectName : string) (an : Analysis.analysis)
  (created : string) : value :=
  VObj
    [ ("project",
       VObj [ ("name", VStr projectName);
              ("type", VStr (Analysis.type an));
              ("description",
               VStr ((match Analysis.framework an with
                      | Some f => capitalize f
                      | None => "Project"
                      end) +:+ " enhanced with kuuzuki .agentrc support"));
              ("language", VStr (Analysis.language an));
              ("framework", nullable (Analysis.framework an)) ]);
      ("commands", VObj (default_commands an));
      ("codeStyle",
       VObj ([ ("language", VStr "javascript");
               ("paradigm", VStr "functional-oop-hybrid");
               ("methodology", VStr "DRY");
               ("naming", VStr "functional-descriptive");
               ("runtime", VStr "bun") ]
             ++ optional_entry "testing" (Analysis.testFramework an)
             ++ optional_entry "bundler" (Analysis.buildTool an)
             ++ (if Analysis.hasTypescript an
                 then [("typescript", VStr "discouraged"); ("alternative", VStr "jsdoc")]
                 else [])));
      ("rules", VArr (map VStr (default_rules an)));
      ("tools",
       VObj ([("packageManager", VStr (Analysis.packageManager an))]
             ++ optional_entry "testing" (Analysis.testFramework an)
             ++ optional_entry "bundler" (Analysis.buildTool an)));
      ("dependencies",
       VObj ([("critical", VArr (map VStr (take 5 (Analysis.dependencies an))))]
             ++ (if (0 <? length (Analysis.devDependencies an))%nat
                 then [("dev", VArr (map VStr (take 3 (Analysis.devDependencies an))))]
                 else [])));
      ("metadata",
       VObj [ ("version", VStr "1.0.0");
              ("generator", VStr "kuuzuki-opencode-plugin");
              ("created", VStr created);
              ("analyzed", VBool true) ]) ].

Section Onboarding.
Variable JSON_parse : string -> option value.
Variable JSON_stringify : value -> string.

(** The configuration returned and the file system after the write. *)
Definition createDefaultAgentrc (fs : gmap string string) (projectPath : string)
  (created : string) : value * gmap string string :=
  let an := analyzeProject JSON_parse fs projectPath in
  let projectName := basename projectPath in
  let config := default_config projectName an created in
  let agentrcPath := path_join [projectPath; ".agentrc"] in
  (config, <[agentrcPath := JSON_stringify config]> fs).

Definition already_initialized : reply :=
  {| title := "🌸 Kuuzuki Project Already Initialized";
     output := ".agentrc file already exists in this project" |}.

Definition initialized (config : value) : reply :=
  {| title := "🌸 Kuuzuki Project Initialized";
     output :=
       "Created .agentrc configuration for "
       +:+ quoted (to_string (get (get config "project") "name"))
       +:+ newline +:+ newline +:+ "Next steps:" +:+ newline
       +:+ "- Edit .agentrc to customize project settings" +:+ newline
       +:+ "- Use 'memory action=list' to view configuration" +:+ newline
       +:+ "- Use 'memory action=add rule=" +:+ quoted "Your rule"
       +:+ "' to add project rules" |}.

(** The [init] command, and the [/init] branch of the hook, which
    leaves the same reply as the result of the invocation. *)
Definition init (fs : gmap string string) (a : app) (created : string)
  : reply * gmap string string :=
  if exists_at fs (project_location a) then (already_initialized, fs)
  else
    let '(config, fs') := createDefaultAgentrc fs (root a) created in
    (initialized config, fs').

(** The branch of the hook for a write of [AGENTS.md]: the content the
    write goes on with, and the file system after the branch. *)
Definition annotate_agents_file (fs : gmap string string) (a : app)
  (created : string) (content : value) : string * gmap string string :=
  let fs' :=
    if exists_at fs (project_location a) then fs
    else snd (createDefaultAgentrc fs (root a) created) in
  (to_string content +:+ newline +:+ newline
   +:+ "<!-- 🌸 This project also has .agentrc support via kuuzuki plugin -->",
   fs').
End Onboarding.

(** A reader that knows one text: what the sample writer prints for the
    default configuration of the React project. *)
Definition react_default : value :=
  fst (createDefaultAgentrc manifest_parse sample_stringify react_project "/work"
         "2025-01-01T00:00:00.000Z").

Definition reload_parse (text : string) : option value :=
  if String.eqb text (sample_stringify react_default) then Some react_default
  else manifest_parse text.

Definition no_plugin_config : plugin :=
  {| agentrcConfig := VNull; configPath := None |}.

(** * Properties *)

(** ** The string functions on small inputs *)

Example split_on_spaces :
  Js.split " " "a  b " = ["a"; EmptyString; "b"; EmptyString].
Proof. reflexivity. Qed.

Example split_without_value : Js.split "=" "flag" = ["flag"].
Proof. reflexivity. Qed.

Example replace_is_first_only :
  Js.replace "memory " EmptyString "memory memory x" = "memory x".
Proof. reflexivity. Qed.

Example lower_mixed_case : Js.toLowerCase "Protect .ENV" = "protect .env".
Proof. reflexivity. Qed.

Example match_skips_empty_pair :
  match_backticks "``npm test` and `b`" = Some "npm test".
Proof. reflexivity. Qed.

Example match_needs_closing : match_backticks "run `npm test" = None.
Proof. reflexivity. Qed.

Example index_strings :
  canonical_index "12" = Some 12%N
  /\ canonical_index "007" = None
  /\ canonical_index "-1" = None
  /\ integer_text "007" = Some 7%Z
  /\ integer_text "-1" = Some (-1)%Z
  /\ integer_text "+" = None
  /\ integer_text "1.5" = None.
Proof. repeat split; reflexivity. Qed.

Example array_to_string :
  to_string (VArr [VNum 1; VNull; VStr "a"; VArr [VNum (-2); VNum 3]]) = "1,,a,-2,3".
Proof. reflexivity. Qed.

Lemma append_nil (s : string) : EmptyString +:+ s = s.
Proof. reflexivity. Qed.

Lemma append_cons (a : ascii) (x y : string) :
  String a x +:+ y = String a (x +:+ y).
Proof. reflexivity. Qed.

Lemma append_assoc (x y z : string) : (x +:+ y) +:+ z = x +:+ (y +:+ z).
Proof.
  induction x as [|a x IH]; [reflexivity|].
  now rewrite !append_cons, IH.
Qed.

Lemma append_inj_l (x y z : string) : x +:+ y = x +:+ z -> y = z.
Proof.
  induction x as [|a x IH]; [now rewrite !append_nil|].
  rewrite !append_cons. intros [= H]. now apply IH.
Qed.

(** ** Objects *)

Lemma obj_get_set_eq (k : string) (v : value) (o : obj) :
  obj_get k (obj_set k v o) = Some v.
Proof.
  induction o as [|[k' v'] o IH]; simpl.
  - now rewrite String.eqb_refl.
  - destruct (String.eqb k' k) eqn:E; simpl.
    + now rewrite String.eqb_refl.
    + now rewrite E.
Qed.

Lemma obj_get_set_ne (k k' : string) (v : value) (o : obj) :
  k <> k' -> obj_get k (obj_set k' v o) = obj_get k o.
Proof.
  intros Hne. induction o as [|[k0 v0] o IH]; simpl.
  - destruct (String.eqb k' k) eqn:E; [|reflexivity].
    apply String.eqb_eq in E. congruence.
  - destruct (String.eqb k0 k') eqn:E; simpl.
    + apply String.eqb_eq in E. subst k0.
      destruct (String.eqb k' k) eqn:E'; [|reflexivity].
      apply String.eqb_eq in E'. congruence.
    + now rewrite IH.
Qed.

Lemma obj_set_same (k : string) (v : value) (o : obj) :
  obj_get k o = Some v -> obj_set k v o = o.
Proof.
  induction o as [|[k' v'] o IH]; simpl; [discriminate|].
  destruct (String.eqb k' k) eqn:E.
  - apply String.eqb_eq in E. intros [= ->]. now subst.
  - intros H. now rewrite IH.
Qed.

Lemma get_obj_set_eq (k : string) (v : value) (o : obj) :
  get (VObj (obj_set k v o)) k = v.
Proof. unfold get. now rewrite obj_get_set_eq. Qed.

Lemma get_obj_set_ne (k k' : string) (v : value) (o : obj) :
  k <> k' -> get (VObj (obj_set k' v o)) k = get (VObj o) k.
Proof. intros H. unfold get. now rewrite obj_get_set_ne. Qed.

(** A value with a property is an object, or an array that was given
    properties, and holds it. *)
Lemma get_defined (v w : value) (k : string) :
  get v k = w -> w <> VUndefined ->
  exists o, (v = VObj o \/ exists xs, v = VArrWith xs o) /\ obj_get k o = Some w.
Proof.
  destruct v as [| | | | | | xs o | o]; simpl; intros <- Hw; try congruence;
    destruct (obj_get k o) eqn:E; simpl in *; try congruence; eauto.
Qed.

Lemma get_truthy (v w : value) (k : string) :
  get v k = w -> w <> VUndefined -> truthy v = true.
Proof.
  intros H Hw. destruct (get_defined _ _ _ H Hw) as (o & [-> | [xs ->]] & _);
    reflexivity.
Qed.

(** ** Config Merger *)

(** C2. With rules present on both sides the merged rules are the
    legacy rules followed by the primary rules; merging a configuration
    with nothing on the other side returns it as it is, and merging
    nothing with nothing gives nothing. *)
Theorem mergeConfigs_rules_and_identities (P L : value) :
  (forall rulesP rulesL : list value,
      get P "rules" = VArr rulesP ->
      get L "rules" = VArr rulesL ->
      get (mergeConfigs P L) "rules" = VArr (rulesL ++ rulesP))
  /\ (truthy P = true -> mergeConfigs P VNull = P)
  /\ (truthy L = true -> mergeConfigs VNull L = L)
  /\ mergeConfigs VNull VNull = VNull.
Proof.
  repeat split.
  - intros rulesP rulesL HP HL.
    assert (HtP : truthy P = true) by (now apply (get_truthy _ _ _ HP)).
    assert (HtL : truthy L = true) by (now apply (get_truthy _ _ _ HL)).
    unfold mergeConfigs, or_else. rewrite HtP, HtL. cbn [negb andb].
    rewrite get_obj_set_ne by discriminate.
    rewrite get_obj_set_eq.
    now rewrite HP, HL.
  - intros HP. unfold mergeConfigs. now rewrite HP.
  - intros HL. unfold mergeConfigs. now rewrite HL.
Qed.

(** Scenario B of the specification, and the identities on it. *)
Lemma mergeConfigs_scenario_B :
  let P := VObj [("rules", VArr [VStr "R1"])] in
  let L := VObj [("rules", VArr [VStr "R0"])] in
  get (mergeConfigs P L) "rules" = VArr [VStr "R0"; VStr "R1"]
  /\ mergeConfigs P VNull = P
  /\ mergeConfigs VNull L = L.
Proof.
  intros P L.
  pose proof (mergeConfigs_rules_and_identities P L) as (Hrules & HP & HL & _).
  split; [|split].
  - apply (Hrules [VStr "R1"] [VStr "R0"]); reflexivity.
  - apply HP. reflexivity.
  - apply HL. reflexivity.
Defined.

(** ** Config Locator *)

Lemma validate_object (o : obj) :
  validateAgentrcConfig (VObj o) = Returns (VObj o).
Proof. reflexivity. Qed.

(** An array is an object to [typeof], and passes. *)
Lemma validate_array (xs : list value) :
  validateAgentrcConfig (VArr xs) = Returns (VArr xs).
Proof. reflexivity. Qed.

Lemma validate_rejects (v : value) :
  typeof v <> "object" \/ v = VNull ->
  validateAgentrcConfig v = Throws InvalidConfig.
Proof.
  intros [H | ->]; [|reflexivity].
  unfold validateAgentrcConfig.
  destruct (String.eqb (typeof v) "object") eqn:E; [|reflexivity].
  apply String.eqb_eq in E. contradiction.
Qed.

(** One turn of the loop on a candidate whose [try] throws. *)
Lemma load_from_skip (JSON_parse : string -> option value)
  (fs : gmap string string) (configPath : string) (rest : list string) (e : exn) :
  try_location JSON_parse fs configPath = Throws e ->
  load_from JSON_parse fs (configPath :: rest) =
  {| config := config (load_from JSON_parse fs rest);
     path := path (load_from JSON_parse fs rest);
     consulted := configPath :: consulted (load_from JSON_parse fs rest) |}.
Proof. intros H. simpl. now rewrite H. Qed.

Lemma load_from_hit (JSON_parse : string -> option value)
  (fs : gmap string string) (configPath : string) (rest : list string) (c : value) :
  try_location JSON_parse fs configPath = Returns c ->
  load_from JSON_parse fs (configPath :: rest) =
  {| config := c; path := Some configPath; consulted := [configPath] |}.
Proof. intros H. simpl. now rewrite H. Qed.

(** A candidate whose [try] throws counts for nothing: the loop gives
    what it gives when the file is not there. *)
Lemma load_from_without (JSON_parse : string -> option value)
  (fs : gmap string string) (p : string) (e : exn) (candidates : list string) :
  try_location JSON_parse fs p = Throws e ->
  load_from JSON_parse fs candidates = load_from JSON_parse (delete p fs) candidates.
Proof.
  intros Hp. induction candidates as [|q rest IH]; [reflexivity|].
  cbn [load_from]. rewrite <- IH.
  destruct (decide (q = p)) as [-> | Hq].
  - rewrite Hp. unfold try_location. now rewrite lookup_delete_eq.
  - unfold try_location. now rewrite lookup_delete_ne by congruence.
Qed.

(** The legacy extraction reads the legacy files and no other. *)
Lemma scan_files_agree (fs fs' : gmap string string) (a : app) :
  (forall file, In file (legacyFiles a) -> fs !! fst file = fs' !! fst file) ->
  scan_files fs a = scan_files fs' a.
Proof.
  unfold scan_files. generalize {| rules := []; commands := [] |}.
  induction (legacyFiles a) as [|file files IH]; [reflexivity|].
  intros acc H. cbn [fold_left].
  replace (scan_file fs' acc file) with (scan_file fs acc file).
  - apply IH. intros f Hf. apply H. now right.
  - unfold scan_file. now rewrite (H file) by now left.
Qed.

Lemma last_char_app (x s : string) :
  s <> EmptyString -> last_char (x +:+ s) = last_char s.
Proof.
  intros Hs. induction x as [|a x IH]; [reflexivity|].
  rewrite append_cons. cbn [last_char]. rewrite IH.
  destruct (x +:+ s) eqn:E; [|reflexivity].
  destruct x; [now rewrite append_nil in E | now rewrite append_cons in E].
Qed.

(** Every candidate location ends in [c] and no legacy file does. *)
Lemma location_is_no_legacy_file (a : app) (p : string) (file : string * legacy_type) :
  In p (locations a) -> In file (legacyFiles a) -> fst file <> p.
Proof.
  intros Hp Hfile E.
  assert (Hc : last_char p = Some "c"%char).
  { unfold locations, project_location, global_location, kuuzuki_location,
      path_join in Hp. cbn [In] in Hp.
    destruct Hp as [<- | [<- | [<- | []]]];
      (rewrite last_char_app; [reflexivity | discriminate]). }
  rewrite <- E in Hc. clear E Hp.
  unfold legacyFiles, path_join in Hfile. cbn [In] in Hfile.
  destruct Hfile as [<- | [<- | [<- | [<- | []]]]]; cbn [fst] in Hc;
    (rewrite last_char_app in Hc; [discriminate Hc | discriminate]).
Qed.

Lemma loadLegacyConfigs_without_candidate (fs : gmap string string) (a : app)
  (p : string) :
  In p (locations a) ->
  loadLegacyConfigs (delete p fs) a = loadLegacyConfigs fs a.
Proof.
  intros Hp. unfold loadLegacyConfigs.
  rewrite (scan_files_agree _ fs); [reflexivity|].
  intros file Hfile. apply lookup_delete_ne.
  intros H. now apply (location_is_no_legacy_file a p file).
Qed.

(** The banner is the one thing that can end the start, and what it
    raises is a [TypeError]. *)
Lemma announce_throws (st : plugin) (e : exn) :
  announce st = Throws e -> e = TypeError.
Proof.
  unfold announce, displayKuuzukiBanner, banner_field.
  destruct (truthy (agentrcConfig st)); [|discriminate].
  destruct (or_else (get (get (agentrcConfig st) "project") "name") _);
    try (now intros [= <-]).
  destruct (or_else (get (get (agentrcConfig st) "project") "type") _);
    now intros [= <-].
Qed.

(** C1, as the code has it.  A candidate whose content parses to
    something other than a non-null object makes the validation raise
    InvalidConfig, and the loop catches it like any other failure: the
    candidate is passed over and loading continues with the remaining
    locations, as it does when the file is not there.  Loading itself
    does not fail, and the start of the plugin ends as it ends without
    the file, never with InvalidConfig.  When the candidate is the
    project file, the start goes on with what the other two locations
    and the legacy files give. *)
Theorem invalid_config_is_skipped (JSON_parse : string -> option value)
  (fs : gmap string string) (configPath content : string) (parsed : value)
  (rest : list string) :
  fs !! configPath = Some content ->
  JSON_parse content = Some parsed ->
  typeof parsed <> "object" \/ parsed = VNull ->
  validateAgentrcConfig parsed = Throws InvalidConfig
  /\ try_location JSON_parse fs configPath = Throws InvalidConfig
  /\ load_from JSON_parse fs (configPath :: rest) =
     {| config := config (load_from JSON_parse fs rest);
        path := path (load_from JSON_parse fs rest);
        consulted := configPath :: consulted (load_from JSON_parse fs rest) |}
  /\ load_from JSON_parse fs (configPath :: rest)
     = load_from JSON_parse (delete configPath fs) (configPath :: rest)
  /\ (forall a : app,
        In configPath (locations a) ->
        KuuzukiAgentrcPlugin JSON_parse fs a
        = KuuzukiAgentrcPlugin JSON_parse (delete configPath fs) a
        /\ KuuzukiAgentrcPlugin JSON_parse fs a <> Throws InvalidConfig
        /\ (configPath = project_location a ->
            let others :=
              load_from JSON_parse fs [global_location a; kuuzuki_location a] in
            KuuzukiAgentrcPlugin JSON_parse fs a =
            announce
              {| agentrcConfig :=
                   mergeConfigs (config others) (loadLegacyConfigs fs a);
                 configPath := path others |})).
Proof.
  intros Hread Hparse Hbad.
  pose proof (validate_rejects parsed Hbad) as Hv.
  assert (Ht : try_location JSON_parse fs configPath = Throws InvalidConfig).
  { unfold try_location. now rewrite Hread, Hparse. }
  split; [exact Hv|]. split; [exact Ht|]. split; [|split].
  - now apply load_from_skip with (e := InvalidConfig).
  - now apply load_from_without with (e := InvalidConfig).
  - intros a Hin. split; [|split].
    + unfold KuuzukiAgentrcPlugin, loadAgentrcConfig.
      rewrite (loadLegacyConfigs_without_candidate fs a configPath Hin).
      now rewrite <- (load_from_without _ _ _ InvalidConfig (locations a) Ht).
    + intros H. unfold KuuzukiAgentrcPlugin in H.
      apply announce_throws in H. discriminate H.
    + intros -> others.
      unfold KuuzukiAgentrcPlugin, loadAgentrcConfig, locations.
      now rewrite (load_from_skip _ _ _ _ InvalidConfig Ht).
Qed.

Lemma invalid_config_is_skipped_witness :
  KuuzukiAgentrcPlugin sample_parse number_in_project_file sample_app =
  announce
    {| agentrcConfig :=
         mergeConfigs
           (config (load_from sample_parse number_in_project_file
                      [global_location sample_app; kuuzuki_location sample_app]))
           (loadLegacyConfigs number_in_project_file sample_app);
       configPath :=
         path (load_from sample_parse number_in_project_file
                 [global_location sample_app; kuuzuki_location sample_app]) |}.
Proof.
  refine (proj2 (proj2 (proj2 (proj2 (proj2 (proj2
            (invalid_config_is_skipped sample_parse number_in_project_file
               (project_location sample_app) "42" (VNum 42) [] _ _ _))))
            sample_app _)) eq_refl).
  - vm_compute. reflexivity.
  - reflexivity.
  - left. discriminate.
  - now left.
Defined.

(** C1 as stated fails: the candidate is invalid, and yet loading
    returns (the global configuration) and the plugin starts. *)
Lemma invalid_config_does_not_abort :
  try_location sample_parse number_in_project_file (project_location sample_app)
  = Throws InvalidConfig
  /\ loadAgentrcConfig sample_parse number_in_project_file sample_app =
     {| config := VObj [("rules", VArr [VStr "G"])];
        path := Some "/etc/opencode/.agentrc";
        consulted := ["/work/.agentrc"; "/etc/opencode/.agentrc"] |}
  /\ KuuzukiAgentrcPlugin sample_parse number_in_project_file sample_app =
     Returns {| agentrcConfig := VObj [("rules", VArr [VStr "G"])];
                configPath := Some "/etc/opencode/.agentrc" |}.
Proof. vm_compute. repeat split. Qed.

(** What can end the start is the banner, whatever the candidates
    were: a project name that is not text has no [padEnd]. *)
Example banner_can_end_the_start :
  KuuzukiAgentrcPlugin numbered_name_parse number_then_numbered_name sample_app
  = Throws TypeError
  /\ KuuzukiAgentrcPlugin numbered_name_parse
       (delete "/work/.agentrc" number_then_numbered_name) sample_app
     = Throws TypeError.
Proof. split; vm_compute; reflexivity. Qed.

(** A valid object at the project location ends the search at once. *)
Lemma load_project_object (JSON_parse : string -> option value)
  (fs : gmap string string) (a : app) (content : string) (o : obj) :
  fs !! project_location a = Some content ->
  JSON_parse content = Some (VObj o) ->
  loadAgentrcConfig JSON_parse fs a =
  {| config := VObj o; path := Some (project_location a);
     consulted := [project_location a] |}.
Proof.
  intros Hread Hparse. unfold loadAgentrcConfig, locations.
  apply load_from_hit. unfold try_location. now rewrite Hread, Hparse.
Qed.

(** C7. A valid object at the project location is what the locator
    returns, and the project location is the only file it reads.  When
    the project file is missing or does not parse and the global
    location holds a valid object, the locator returns the global
    object. *)
Theorem locator_priority (JSON_parse : string -> option value)
  (fs : gmap string string) (a : app) :
  (forall (content : string) (o : obj),
      fs !! project_location a = Some content ->
      JSON_parse content = Some (VObj o) ->
      loadAgentrcConfig JSON_parse fs a =
      {| config := VObj o; path := Some (project_location a);
         consulted := [project_location a] |})
  /\ (forall (content : string) (o : obj),
        (fs !! project_location a = None
         \/ exists junk, fs !! project_location a = Some junk
                         /\ JSON_parse junk = None) ->
        fs !! global_location a = Some content ->
        JSON_parse content = Some (VObj o) ->
        loadAgentrcConfig JSON_parse fs a =
        {| config := VObj o; path := Some (global_location a);
           consulted := [project_location a; global_location a] |}).
Proof.
  split.
  - intros content o. apply load_project_object.
  - intros content o Hroot Hread Hparse.
    unfold loadAgentrcConfig, locations.
    assert (exists e, try_location JSON_parse fs (project_location a) = Throws e)
      as [e He].
    { unfold try_location.
      destruct Hroot as [-> | (junk & -> & ->)]; eauto. }
    rewrite (load_from_skip _ _ _ _ e He).
    rewrite (load_from_hit _ _ _ _ (VObj o)); [reflexivity|].
    unfold try_location. now rewrite Hread, Hparse.
Qed.

Lemma locator_priority_witness :
  loadAgentrcConfig sample_parse project_file_only sample_app =
  {| config := VObj [("rules", VArr [VStr "A"])];
     path := Some (project_location sample_app);
     consulted := [project_location sample_app] |}
  /\ loadAgentrcConfig sample_parse unreadable_project_file sample_app =
     {| config := VObj [("rules", VArr [VStr "G"])];
        path := Some (global_location sample_app);
        consulted := [project_location sample_app; global_location sample_app] |}.
Proof.
  split.
  - apply (proj1 (locator_priority sample_parse project_file_only sample_app)
             (rules_text "A")); vm_compute; reflexivity.
  - apply (proj2 (locator_priority sample_parse unreadable_project_file sample_app)
             (rules_text "G")).
    + right. exists "{ not json". split; vm_compute; reflexivity.
    + vm_compute. reflexivity.
    + vm_compute. reflexivity.
Defined.

(** ** Legacy Config Extractor *)







(** ** Command Dispatcher: command mapping *)

Lemma remap_skip (cond : bool) (replacement current : value) :
  (cond = true -> truthy replacement = false) ->
  remap cond replacement current = current.
Proof.
  unfold remap. destruct cond; [|reflexivity].
  intros H. now rewrite H.
Qed.

(** A shell command that is neither the onboarding command nor a memory
    command reaches the mapping, and nothing after the mapping touches
    it. *)
Lemma shell_command_is_mapped (JSON_stringify : value -> string) (rt : runtime)
  (st : plugin) (fs : gmap string string) (args : tool_args) (c : string) :
  command args = Some c ->
  c <> "/init" ->
  Js.startsWith c "memory " = false ->
  tool_execute_before JSON_stringify rt st fs "bash" args =
  Proceeds
    (if truthy (get (agentrcConfig st) "commands")
     then command_mapping (get (agentrcConfig st) "commands") c
     else VStr c)
    false.
Proof.
  intros Hc Hinit Hmem.
  unfold tool_execute_before, enforce. rewrite Hc.
  cbn [String.eqb Ascii.eqb Bool.eqb andb orb opt_test].
  apply String.eqb_neq in Hinit. rewrite Hinit, Hmem.
  now destruct (truthy (get (agentrcConfig st) "commands")).
Qed.

(** C8. The command a shell invocation goes on with is a function of
    the command given and of the configured commands, and of nothing
    else in the state, the file system or the arguments; the command is
    left as it is when none of its corresponding entries is configured;
    and [npm run build] becomes [make all] when that is the configured
    build command. *)
Theorem command_mapping_is_pure (JSON_stringify : value -> string) (rt : runtime)
  (st : plugin) (fs : gmap string string) (args : tool_args) (c : string) :
  command args = Some c ->
  c <> "/init" ->
  Js.startsWith c "memory " = false ->
  tool_execute_before JSON_stringify rt st fs "bash" args =
    Proceeds
      (if truthy (get (agentrcConfig st) "commands")
       then command_mapping (get (agentrcConfig st) "commands") c
       else VStr c)
      false
  /\ (forall (st' : plugin) (fs' : gmap string string) (args' : tool_args),
        command args' = Some c ->
        get (agentrcConfig st') "commands" = get (agentrcConfig st) "commands" ->
        tool_execute_before JSON_stringify rt st' fs' "bash" args' =
        tool_execute_before JSON_stringify rt st fs "bash" args)
  /\ ((forall k, In k (corresponding_keys c) ->
                 truthy (get (get (agentrcConfig st) "commands") k) = false) ->
      tool_execute_before JSON_stringify rt st fs "bash" args =
        Proceeds (VStr c) false)
  /\ (c = "npm run build" ->
      get (get (agentrcConfig st) "commands") "build" = VStr "make all" ->
      tool_execute_before JSON_stringify rt st fs "bash" args =
        Proceeds (VStr "make all") false).
Proof.
  intros Hc Hinit Hmem.
  pose proof (shell_command_is_mapped JSON_stringify rt st fs args c Hc Hinit Hmem) as Hmap.
  split; [exact Hmap|]. split; [|split].
  - intros st' fs' args' Hc' Hsame.
    rewrite Hmap, (shell_command_is_mapped JSON_stringify rt st' fs' args' c Hc' Hinit Hmem).
    now rewrite Hsame.
  - intros Hnone. rewrite Hmap.
    destruct (truthy (get (agentrcConfig st) "commands")); [|reflexivity].
    do 2 f_equal. unfold command_mapping.
    unfold corresponding_keys in Hnone.
    rewrite !remap_skip; [reflexivity | | | | | | |];
      intros E; apply Hnone; rewrite E, ?in_app_iff; simpl; tauto.
  - intros -> Hbuild. rewrite Hmap.
    rewrite (get_truthy _ _ _ Hbuild) by discriminate.
    do 2 f_equal. unfold command_mapping.
    rewrite Hbuild. reflexivity.
Qed.

(** Scenario D of the specification. *)
Lemma command_mapping_scenario_D :
  tool_execute_before sample_stringify sample_runtime with_make ∅ "bash"
    (shell_call "npm run build")
  = Proceeds (VStr "make all") false.
Proof.
  refine (proj2 (proj2 (proj2
            (command_mapping_is_pure sample_stringify sample_runtime with_make ∅
               (shell_call "npm run build") "npm run build" _ _ _))) _ _);
    first [reflexivity | discriminate].
Defined.

(** ** Command Dispatcher: sensitive files *)

Lemma existsb_is_str (s : string) (xs : list value) :
  In (VStr s) xs -> existsb (is_str s) xs = true.
Proof.
  intros H. apply existsb_exists. exists (VStr s). split; [exact H|].
  simpl. apply String.eqb_refl.
Qed.

Lemma some_protects_env_none (texts : list string) :
  Forall (fun t => Js.includes (Js.toLowerCase t) "protect .env" = false) texts ->
  some_protects_env (map VStr texts) = Returns false.
Proof.
  induction 1 as [|t texts Ht _ IH]; [reflexivity|].
  cbn [map some_protects_env]. now rewrite Ht.
Qed.

(** C5, as the code has it.  Reading a path that contains [.env] fails
    with SecurityDenied when the sensitive files list holds [*.env].
    With no security section the read goes through provided that the
    rules are absent, or are texts none of which contains
    [protect .env] in any letter case. *)
Theorem env_read_is_guarded (JSON_stringify : value -> string) (rt : runtime)
  (st : plugin) (fs : gmap string string) (args : tool_args) (file : string) :
  filePath args = Some file ->
  Js.includes file ".env" = true ->
  (forall xs : list value,
      get (get (agentrcConfig st) "security") "sensitiveFiles" = VArr xs ->
      In (VStr "*.env") xs ->
      tool_execute_before JSON_stringify rt st fs "read" args = Fails SecurityDenied)
  /\ (get (agentrcConfig st) "security" = VUndefined ->
      (get (agentrcConfig st) "rules" = VUndefined
       \/ exists texts : list string,
            get (agentrcConfig st) "rules" = VArr (map VStr texts)
            /\ Forall (fun t => Js.includes (Js.toLowerCase t) "protect .env" = false)
                      texts) ->
      tool_execute_before JSON_stringify rt st fs "read" args =
      Proceeds
        (match command args with Some c => VStr c | None => VUndefined end)
        false).
Proof.
  intros Hfile Henv.
  split.
  - intros xs Hsens Hin.
    unfold tool_execute_before, enforce. rewrite Hfile.
    cbn [String.eqb Ascii.eqb Bool.eqb andb orb opt_test]. rewrite Henv.
    unfold env_is_sensitive. rewrite Hsens. cbn [includes_env_glob].
    now rewrite existsb_is_str.
  - intros Hsec Hrules.
    unfold tool_execute_before, enforce. rewrite Hfile.
    cbn [String.eqb Ascii.eqb Bool.eqb andb orb opt_test]. rewrite Henv.
    unfold env_is_sensitive. rewrite Hsec. cbn [get includes_env_glob].
    destruct Hrules as [-> | (texts & -> & Hnone)].
    + reflexivity.
    + cbn [rules_protect_env]. now rewrite some_protects_env_none.
Qed.

Lemma env_read_is_guarded_witness :
  tool_execute_before sample_stringify sample_runtime with_sensitive_env ∅ "read"
    (read_call "/work/.env")
  = Fails SecurityDenied
  /\ tool_execute_before sample_stringify sample_runtime with_plain_rules ∅ "read"
       (read_call "/work/.env")
     = Proceeds VUndefined false.
Proof.
  split.
  - refine (proj1 (env_read_is_guarded sample_stringify sample_runtime with_sensitive_env ∅
                     (read_call "/work/.env") "/work/.env" _ _)
              [VStr "*.key"; VStr "*.env"] _ _);
      first [reflexivity | simpl; tauto].
  - refine (proj2 (env_read_is_guarded sample_stringify sample_runtime with_plain_rules ∅
                     (read_call "/work/.env") "/work/.env" _ _) _ _);
      try reflexivity.
    right. exists ["Use semantic commit messages"].
    split; [reflexivity|]. repeat constructor.
Defined.

(** C5 as stated fails in its second half: the configuration has no
    security section, and the read is blocked by a rule. *)
Lemma rule_blocks_env_without_security :
  get (agentrcConfig with_protect_rule) "security" = VUndefined
  /\ tool_execute_before sample_stringify sample_runtime with_protect_rule ∅ "read"
       (read_call "/work/.env")
     = Fails SecurityDenied.
Proof. vm_compute. split; reflexivity. Qed.

(** ** Command Dispatcher: the tokenizer of shell memory commands *)

Lemma prefix_empty (s : string) : String.prefix EmptyString s = true.
Proof. now destruct s. Qed.

Lemma prefix_cons (a b : ascii) (p s : string) :
  String.prefix (String a p) (String b s) = Ascii.eqb a b && String.prefix p s.
Proof.
  cbn [String.prefix]. destruct (ascii_dec a b) as [->|Hne].
  - now rewrite Ascii.eqb_refl.
  - apply Ascii.eqb_neq in Hne. now rewrite Hne.
Qed.

(** Whether the character [c] occurs in [s], as [s.includes(c)]. *)
Lemma includes_char_cons (c a : ascii) (s : string) :
  Js.includes (String a s) (String c EmptyString) =
  Ascii.eqb a c || Js.includes s (String c EmptyString).
Proof.
  cbn [Js.includes]. rewrite prefix_cons, prefix_empty, andb_true_r.
  now rewrite (Ascii.eqb_sym c a).
Qed.

Lemma split_nonempty (c : ascii) (s : string) :
  exists h t, Js.split c s = h :: t.
Proof.
  induction s as [|a s (h & t & IH)]; cbn [Js.split]; [eauto|].
  destruct (Ascii.eqb a c); [eauto|]. rewrite IH. eauto.
Qed.

(** Splitting distributes over a separator. *)
Lemma split_app (c : ascii) (x y : string) :
  Js.split c (x +:+ String c y) = Js.split c x ++ Js.split c y.
Proof.
  induction x as [|a x IH]; [rewrite append_nil | rewrite append_cons];
    cbn [Js.split].
  - now rewrite Ascii.eqb_refl.
  - destruct (Ascii.eqb a c); [now rewrite IH|].
    rewrite IH. destruct (split_nonempty c x) as (h & t & ->). reflexivity.
Qed.

Lemma split_without_separator (c : ascii) (s : string) :
  Js.includes s (String c EmptyString) = false -> Js.split c s = [s].
Proof.
  induction s as [|a s IH]; [reflexivity|].
  rewrite includes_char_cons. intros [Ha Hs]%orb_false_iff.
  cbn [Js.split]. now rewrite Ha, IH.
Qed.












(** A token [k=v] without a space or a second [=] assigns [v], less its
    quote characters, to [k]. *)
Lemma parse_part_token (k v : string) (args : obj) :
  k <> EmptyString -> v <> EmptyString ->
  Js.includes k "=" = false -> Js.includes v "=" = false ->
  parse_part args (k +:+ "=" +:+ v) = assign_text k (Js.strip_quotes v) args.
Proof.
  intros Hk Hv Hk' Hv'. unfold parse_part.
  change ("=" +:+ v) with (String "=" v).
  rewrite split_app, !split_without_separator by assumption.
  cbn [List.app].
  apply String.eqb_neq in Hk, Hv. now rewrite Hk, Hv.
Qed.

Lemma assign_text_sets (k text : string) (args : obj) :
  k <> "__proto__" -> assign_text k text args = obj_set k (VStr text) args.
Proof. intros H%String.eqb_neq. unfold assign_text. now rewrite H. Qed.

Lemma replace_memory_prefix (x : string) :
  Js.replace "memory " EmptyString ("memory " +:+ x) = x.
Proof.
  rewrite !append_cons, append_nil. cbn [Js.replace].
  rewrite !prefix_cons, prefix_empty. cbn [Ascii.eqb Bool.eqb andb].
  reflexivity.
Qed.

Lemma includes_char_app (c : ascii) (x y : string) :
  Js.includes (x +:+ y) (String c EmptyString) =
  Js.includes x (String c EmptyString) || Js.includes y (String c EmptyString).
Proof.
  induction x as [|a x IH]; [reflexivity|].
  now rewrite append_cons, !includes_char_cons, IH, orb_assoc.
Qed.


(** No command gives the arguments a property [__proto__]. *)
Lemma parse_parts_no_proto (parts : list string) (args : obj) :
  obj_get "__proto__" args = None ->
  obj_get "__proto__" (fold_left parse_part parts args) = None.
Proof.
  revert args. induction parts as [|p parts IH]; intros args Hargs; [assumption|].
  cbn [fold_left]. apply IH. unfold parse_part.
  destruct (Js.split "=" p) as [|key [|value more]]; try assumption.
  destruct (_ && _); [|assumption].
  unfold assign_text. destruct (String.eqb key "__proto__") eqn:E; [assumption|].
  rewrite obj_get_set_ne; [assumption|].
  intros <-. now rewrite String.eqb_refl in E.
Qed.




(** ** Rule list commands *)

Lemma element_at_lookup (xs : list value) (i : nat) (x : value) :
  xs !! i = Some x -> element_at xs (Z.of_nat i) = x.
Proof.
  intros H. unfold element_at.
  destruct (Z.of_nat i <? 0)%Z eqn:E; [apply Z.ltb_lt in E; lia|].
  now rewrite Nat2Z.id, H.
Qed.

Lemma element_at_beyond (xs : list value) (i : Z) :
  (Z.of_nat (length xs) <= i)%Z -> element_at xs i = VUndefined.
Proof.
  intros H. unfold element_at.
  destruct (i <? 0)%Z; [reflexivity|].
  rewrite lookup_ge_None_2; [reflexivity | lia].
Qed.

(** Within the list, [splice] takes out the element at the index. *)
Lemma splice1_delete (xs : list value) (i : nat) :
  i < length xs -> splice1 (Z.of_nat i) xs = delete i xs.
Proof.
  intros H. unfold splice1, actual_start.
  destruct (Z.of_nat i <? 0)%Z eqn:E; [apply Z.ltb_lt in E; lia|].
  rewrite Z.min_l by lia. rewrite Nat2Z.id.
  symmetry. apply delete_take_drop.
Qed.

(** At the end of the list or beyond it, [splice] takes out nothing. *)
Lemma splice1_beyond (xs : list value) (i : Z) :
  (Z.of_nat (length xs) <= i)%Z -> splice1 i xs = xs.
Proof.
  intros H. unfold splice1, actual_start.
  destruct (i <? 0)%Z eqn:E; [apply Z.ltb_lt in E; lia|].
  rewrite Z.min_r by lia. rewrite Nat2Z.id.
  rewrite firstn_all, skipn_all2 by lia. apply app_nil_r.
Qed.

Lemma get_rules (o : obj) (v : value) :
  obj_get "rules" o = Some v -> get (VObj o) "rules" = v.
Proof. intros H. unfold get. now rewrite H. Qed.

Lemma digit_of_char (d : N) :
  (d < 10)%N -> digit_of (pretty_N_char d) = Some d.
Proof.
  intros H.
  assert (d = 0 \/ d = 1 \/ d = 2 \/ d = 3 \/ d = 4 \/ d = 5 \/ d = 6
          \/ d = 7 \/ d = 8 \/ d = 9)%N as Hd by lia.
  repeat (destruct Hd as [-> | Hd]; [reflexivity|]). now subst.
Qed.

Lemma digits_of_pretty_go (x : N) (s : string) :
  digits_from 0 (pretty_N_go x s) = digits_from x s.
Proof.
  revert s. induction (N.lt_wf_0 x) as [x _ IH]. intros s.
  destruct (N.eq_dec x 0%N) as [-> | Hx]; [reflexivity|].
  rewrite pretty_N_go_step by lia.
  rewrite IH by (apply N.div_lt; lia).
  cbn [digits_from]. rewrite digit_of_char by (apply N.mod_lt; lia).
  f_equal. pose proof (N.div_mod x 10). lia.
Qed.

Lemma digits_of_pretty (n : N) : digits_from 0 (pretty n) = Some n.
Proof.
  unfold pretty, pretty_N. destruct (decide (n = 0%N)) as [-> | Hn]; [reflexivity|].
  now rewrite digits_of_pretty_go.
Qed.

Lemma pretty_not_empty (n : N) : pretty n <> EmptyString.
Proof.
  intros E. pose proof (digits_of_pretty n) as Hd. rewrite E in Hd.
  cbn in Hd. injection Hd as <-. discriminate E.
Qed.

Lemma canonical_index_pretty (n : N) : canonical_index (pretty n) = Some n.
Proof.
  unfold canonical_index. now rewrite digits_of_pretty, String.eqb_refl.
Qed.

Lemma digits_value_pretty (n : N) : digits_value (pretty n) = Some (Z.of_N n).
Proof.
  unfold digits_value. pose proof (pretty_not_empty n) as Hne.
  destruct (pretty n) eqn:E; [contradiction|].
  rewrite <- E. now rewrite digits_of_pretty.
Qed.

Lemma integer_text_pretty (n : N) : integer_text (pretty n) = Some (Z.of_N n).
Proof.
  pose proof (digits_value_pretty n) as Hv.
  pose proof (digits_of_pretty n) as Hd.
  unfold integer_text. destruct (pretty n) as [|a s'] eqn:E; [discriminate|].
  cbn [digits_from] in Hd.
  destruct (Ascii.eqb a "-") eqn:Hminus;
    [apply Ascii.eqb_eq in Hminus; subst a; discriminate|].
  destruct (Ascii.eqb a "+") eqn:Hplus;
    [apply Ascii.eqb_eq in Hplus; subst a; discriminate|].
  exact Hv.
Qed.

Lemma pretty_Z_of_N (n : N) : pretty (Z.of_N n) = pretty n.
Proof. now destruct n. Qed.

(** A number given as [ruleId] finds the element at that index, or
    nothing. *)
Lemma removed_text_number (rt : runtime) (xs : list value) (n : Z) :
  removed_text rt xs [] (IdNum n) = to_string (element_at xs n).
Proof.
  unfold removed_text, property_key. destruct n as [|p|p].
  - change (pretty 0%Z) with (pretty 0%N). now rewrite canonical_index_pretty.
  - change (pretty (Z.pos p)) with (pretty (N.pos p)).
    now rewrite canonical_index_pretty.
  - change (pretty (Z.neg p)) with ("-" +:+ pretty (N.pos p)).
    rewrite append_cons, append_nil.
    unfold canonical_index, integer_text. cbn [digits_from digit_of].
    change (digit_of "-") with (@None N). cbn [String.eqb Ascii.eqb Bool.eqb obj_get].
    now rewrite digits_value_pretty.
Qed.

(** The canonical text of a natural number is read as that number. *)
Lemma removed_text_pretty (rt : runtime) (xs : list value) (props : obj) (n : N) :
  removed_text rt xs props (IdStr (pretty n))
  = to_string (element_at xs (Z.of_N n)).
Proof. unfold removed_text, property_key. now rewrite canonical_index_pretty. Qed.

Lemma to_integer_pretty (rt : runtime) (n : N) :
  to_integer rt (IdStr (pretty n)) = Finite (Z.of_N n).
Proof. unfold to_integer. now rewrite integer_text_pretty. Qed.

Section MemoryFacts.
Variable JSON_stringify : value -> string.
Variable rt : runtime.

Lemma persist_to_path (p : string) (c : value) (fs : gmap string string) :
  p <> EmptyString ->
  persist JSON_stringify (Some p) c fs = <[p := JSON_stringify c]> fs.
Proof.
  intros Hp. unfold persist. apply String.eqb_neq in Hp. now rewrite Hp.
Qed.

(** [add] on a configuration with a list of rules. *)
Lemma add_appends (o : obj) (xs : list value) (text : string)
  (cp : option string) (fs : gmap string string) :
  obj_get "rules" o = Some (VArr xs) ->
  text <> EmptyString ->
  handleMemoryCommand JSON_stringify rt (add_call text) (VObj o) cp fs =
  let config' := VObj (obj_set "rules" (VArr (xs ++ [VStr text])) o) in
  Returns ({| title := "✅ Rule Added"; output := "Added rule: " +:+ text |},
           config', persist JSON_stringify cp config' fs).
Proof.
  intros Hrules Htext. unfold handleMemoryCommand, add_call.
  cbn [action rule action_is String.eqb Ascii.eqb Bool.eqb truthy negb].
  apply String.eqb_neq in Htext. rewrite Htext.
  rewrite (get_rules _ _ Hrules).
  cbn [or_else truthy set_rules elements with_elements].
  now rewrite (obj_set_same _ _ _ Hrules).
Qed.

(** [remove] on a configuration with a list of rules. *)
Lemma remove_splices (o : obj) (xs : list value) (i : Z)
  (cp : option string) (fs : gmap string string) :
  obj_get "rules" o = Some (VArr xs) ->
  handleMemoryCommand JSON_stringify rt (remove_call (IdNum i)) (VObj o) cp fs =
  let config' := VObj (obj_set "rules" (VArr (splice1 i xs)) o) in
  Returns ({| title := "🗑️ Rule Removed";
              output := "Removed rule: " +:+ to_string (element_at xs i) |},
           config', persist JSON_stringify cp config' fs).
Proof.
  intros Hrules. unfold handleMemoryCommand, remove_call.
  cbn [action ruleId action_is String.eqb Ascii.eqb Bool.eqb].
  rewrite (get_rules _ _ Hrules).
  cbn [truthy negb elements with_elements set_rules to_integer splice_at].
  now rewrite removed_text_number.
Qed.
End MemoryFacts.

(** C3, as the code has it.  With a list of rules and an index at the
    end of the list or beyond it, [remove] raises nothing: it answers
    that it removed the rule [undefined], the rules are unchanged, and
    the configuration is written out as after any removal. *)
Theorem remove_beyond_the_end_is_silent (JSON_stringify : value -> string) (rt : runtime)
  (o : obj) (xs : list value) (i : Z) (cp : option string)
  (fs : gmap string string) :
  obj_get "rules" o = Some (VArr xs) ->
  (Z.of_nat (length xs) <= i)%Z ->
  handleMemoryCommand JSON_stringify rt (remove_call (IdNum i)) (VObj o) cp fs =
  Returns ({| title := "🗑️ Rule Removed";
              output := "Removed rule: undefined" |},
           VObj o, persist JSON_stringify cp (VObj o) fs).
Proof.
  intros Hrules Hi.
  rewrite (remove_splices JSON_stringify rt o xs i cp fs Hrules). cbn zeta.
  rewrite element_at_beyond, splice1_beyond by assumption.
  now rewrite (obj_set_same _ _ _ Hrules).
Qed.

Lemma remove_beyond_the_end_is_silent_witness :
  handleMemoryCommand sample_stringify sample_runtime (remove_call (IdNum 1)) rules_A None ∅ =
  Returns ({| title := "🗑️ Rule Removed";
              output := "Removed rule: undefined" |},
           rules_A, persist sample_stringify None rules_A ∅).
Proof.
  apply (remove_beyond_the_end_is_silent sample_stringify sample_runtime
           [("rules", VArr [VStr "A"])] [VStr "A"] 1 None ∅).
  - reflexivity.
  - simpl. lia.
Defined.

(** A negative index is out of range too.  [splice] counts it from the
    end: the last rule goes, and the answer names [undefined]. *)
Example remove_negative_index :
  handleMemoryCommand sample_stringify sample_runtime (remove_call (IdNum (-1)))
    (VObj [("rules", VArr [VStr "A"; VStr "B"])]) None ∅ =
  Returns ({| title := "🗑️ Rule Removed";
              output := "Removed rule: undefined" |},
           VObj [("rules", VArr [VStr "A"])], ∅).
Proof. reflexivity. Qed.

(** C3 as stated fails: index 5 is out of range for one rule, and the
    command returns a confirmation instead of raising. *)
Lemma remove_out_of_range_returns :
  handleMemoryCommand sample_stringify sample_runtime (remove_call (IdNum 5)) rules_A None ∅ =
  Returns ({| title := "🗑️ Rule Removed";
              output := "Removed rule: undefined" |},
           rules_A, ∅).
Proof. reflexivity. Qed.

(** C9.  On a configuration with a list of rules, [add] puts the new
    rule at the end of the list, where a following [list] shows it, and
    [remove] at an index of the list answers with the rule found there
    and takes out that one element: the rules before it keep their
    index and the rules after it move down by one.  Scenario C: from the
    rules [A], adding [X] and then removing index 0, both through the
    shell, leaves the rules [X]. *)
Theorem add_appends_and_remove_shifts (JSON_stringify : value -> string) (rt : runtime)
  (o : obj) (xs : list value) (cp : option string) (fs : gmap string string) :
  obj_get "rules" o = Some (VArr xs) ->
  (forall text : string,
      text <> EmptyString ->
      exists (config' : value) (fs' : gmap string string),
        handleMemoryCommand JSON_stringify rt (add_call text) (VObj o) cp fs =
          Returns ({| title := "✅ Rule Added";
                      output := "Added rule: " +:+ text |}, config', fs')
        /\ get config' "rules" = VArr (xs ++ [VStr text])
        /\ exists listing,
             handleMemoryCommand JSON_stringify rt list_call config' cp fs' =
               Returns (listing, config', fs')
             /\ output listing =
                JSON_stringify (VObj [ ("rules", VArr (xs ++ [VStr text]));
                                       ("commands", or_else (get (VObj o) "commands") (VObj []));
                                       ("project", or_else (get (VObj o) "project") (VObj [])) ]))
  /\ (forall (i : nat) (x : value),
        xs !! i = Some x ->
        exists (ys : list value) (config' : value) (fs' : gmap string string),
          handleMemoryCommand JSON_stringify rt (remove_call (IdNum (Z.of_nat i)))
            (VObj o) cp fs =
            Returns ({| title := "🗑️ Rule Removed";
                        output := "Removed rule: " +:+ to_string x |},
                     config', fs')
          /\ get config' "rules" = VArr ys
          /\ S (length ys) = length xs
          /\ (forall j, j < i -> ys !! j = xs !! j)
          /\ (forall j, i <= j -> ys !! j = xs !! S j))
  /\ (exists (r1 r2 : reply) (fs1 fs2 : gmap string string),
        tool_execute_before JSON_stringify rt
          {| agentrcConfig := rules_A; configPath := cp |} fs "bash"
          (shell_call ("memory action=add rule=" +:+ quoted "X")) =
          Answers r1
            {| agentrcConfig := VObj [("rules", VArr [VStr "A"; VStr "X"])];
               configPath := cp |} fs1
        /\ tool_execute_before JSON_stringify rt
             {| agentrcConfig := VObj [("rules", VArr [VStr "A"; VStr "X"])];
                configPath := cp |} fs1 "bash"
             (shell_call "memory action=remove ruleId=0") =
           Answers r2
             {| agentrcConfig := VObj [("rules", VArr [VStr "X"])];
                configPath := cp |} fs2).
Proof.
  intros Hrules. split; [|split].
  - intros text Htext. eexists _, _. split; [|split].
    + rewrite (add_appends JSON_stringify rt o xs text cp fs Hrules Htext).
      cbn zeta. reflexivity.
    + apply get_obj_set_eq.
    + eexists. split; [reflexivity|]. cbn [output].
      rewrite get_obj_set_eq.
      rewrite !get_obj_set_ne by discriminate.
      reflexivity.
  - intros i x Hx.
    pose proof (lookup_lt_Some _ _ _ Hx) as Hlt.
    exists (delete i xs). eexists _, _. split; [|split; [|split; [|split]]].
    + rewrite (remove_splices JSON_stringify rt o xs _ cp fs Hrules). cbn zeta.
      rewrite (element_at_lookup _ _ _ Hx), splice1_delete by assumption.
      reflexivity.
    + apply get_obj_set_eq.
    + rewrite length_delete by eauto. lia.
    + intros j Hj. now apply list_lookup_delete_lt.
    + intros j Hj. now apply list_lookup_delete_ge.
  - eexists _, _, _, _. split; reflexivity.
Qed.

Lemma add_appends_and_remove_shifts_witness :
  exists (ys : list value) (config' : value) (fs' : gmap string string),
    handleMemoryCommand sample_stringify sample_runtime (remove_call (IdNum (Z.of_nat 0)))
      (VObj [("rules", VArr [VStr "A"; VStr "X"])]) None ∅ =
      Returns ({| title := "🗑️ Rule Removed";
                  output := "Removed rule: " +:+ to_string (VStr "A") |},
               config', fs')
    /\ get config' "rules" = VArr ys
    /\ S (length ys) = length [VStr "A"; VStr "X"]
    /\ (forall j, j < 0 -> ys !! j = [VStr "A"; VStr "X"] !! j)
    /\ (forall j, 0 <= j -> ys !! j = [VStr "A"; VStr "X"] !! S j).
Proof.
  apply (proj1 (proj2
           (add_appends_and_remove_shifts sample_stringify sample_runtime
              [("rules", VArr [VStr "A"; VStr "X"])] [VStr "A"; VStr "X"] None ∅
              eq_refl)) 0 (VStr "A")).
  reflexivity.
Defined.

(** ** Persistence of rule changes *)

Lemma load_from_nothing (JSON_parse : string -> option value)
  (fs : gmap string string) (candidates : list string) :
  path (load_from JSON_parse fs candidates) = None ->
  config (load_from JSON_parse fs candidates) = VNull.
Proof.
  induction candidates as [|p rest IH]; [reflexivity|].
  cbn [load_from]. destruct (try_location JSON_parse fs p); [discriminate|].
  exact IH.
Qed.

Lemma load_from_somewhere (JSON_parse : string -> option value)
  (fs : gmap string string) (candidates : list string) (p : string) :
  path (load_from JSON_parse fs candidates) = Some p ->
  In p candidates
  /\ try_location JSON_parse fs p
     = Returns (config (load_from JSON_parse fs candidates)).
Proof.
  induction candidates as [|q rest IH]; [discriminate|].
  cbn [load_from]. destruct (try_location JSON_parse fs q) eqn:E.
  - intros [= <-]. split; [now left | exact E].
  - intros H. destruct (IH H) as [Hin Htry]. split; [now right | exact Htry].
Qed.

Lemma mergeConfigs_nothing_located (legacyConfig : value) :
  legacyConfig = VNull \/ (exists o, legacyConfig = VObj o) ->
  mergeConfigs VNull legacyConfig = legacyConfig.
Proof. intros [-> | [o ->]]; reflexivity. Qed.

Lemma loadLegacyConfigs_shape (fs : gmap string string) (a : app) :
  loadLegacyConfigs fs a = VNull \/ exists o, loadLegacyConfigs fs a = VObj o.
Proof.
  unfold loadLegacyConfigs, legacy_value.
  destruct (_ || _); eauto.
Qed.

(** The start on the legacy extraction alone, or on nothing: the
    banner has nothing to raise on. *)
Lemma announce_legacy (fs : gmap string string) (a : app) (cp : option string) :
  announce {| agentrcConfig := loadLegacyConfigs fs a; configPath := cp |}
  = Returns {| agentrcConfig := loadLegacyConfigs fs a; configPath := cp |}.
Proof.
  unfold loadLegacyConfigs. destruct (_ || _); reflexivity.
Qed.

(** What a rule command that returns has done to the files. *)
Lemma handleMemoryCommand_persists (JSON_stringify : value -> string) (rt : runtime)
  (args : memory_args) (config : value) (cp : option string)
  (fs fs' : gmap string string) (r : reply) (config' : value) :
  action args = Some "add" \/ action args = Some "remove" ->
  handleMemoryCommand JSON_stringify rt args config cp fs = Returns (r, config', fs') ->
  fs' = persist JSON_stringify cp config' fs.
Proof.
  intros Haction Hrun. unfold handleMemoryCommand in Hrun.
  destruct Haction as [Ha | Ha]; rewrite Ha in Hrun;
    cbn [action_is String.eqb Ascii.eqb Bool.eqb] in Hrun.
  - destruct (rule args) as [text|]; [|discriminate].
    destruct (String.eqb text EmptyString); [discriminate|].
    destruct (negb (truthy config)); [discriminate|].
    destruct (set_rules config _) as [config1|]; [|discriminate].
    destruct (elements _) as [[xs props]|]; [|discriminate].
    destruct (set_rules config1 _); [|discriminate].
    now injection Hrun as _ <- <-.
  - destruct (ruleId args) as [id|]; [|discriminate].
    destruct (negb (truthy (get config "rules"))); [discriminate|].
    destruct (elements _) as [[xs props]|]; [|discriminate].
    destruct (set_rules config _); [|discriminate].
    now injection Hrun as _ <- <-.
Qed.

(** C6, as the code has it.  Every [add] and every [remove] that
    returns has written the configuration, as the call left it, to
    [configPath] when there is one, and to no other file; with no
    [configPath] it has written nothing.  The plugin's [configPath] is
    the location the configuration was loaded from; it is the project
    location once a valid file there has been reloaded.  When the
    locator found nothing, the plugin starts with the legacy extraction
    as its configuration and with no [configPath]: rule changes then
    stay in memory. *)
Theorem rule_changes_are_written_to_configPath
  (JSON_stringify : value -> string) (rt : runtime)
  (JSON_parse : string -> option value) :
  (forall (args : memory_args) (config : value) (cp : option string)
          (fs fs' : gmap string string) (r : reply) (config' : value),
      action args = Some "add" \/ action args = Some "remove" ->
      handleMemoryCommand JSON_stringify rt args config cp fs
        = Returns (r, config', fs') ->
      match cp with
      | Some p =>
          p <> EmptyString ->
          fs' !! p = Some (JSON_stringify config')
          /\ forall q, q <> p -> fs' !! q = fs !! q
      | None => fs' = fs
      end)
  /\ (forall (fs : gmap string string) (a : app) (p : string) (st : plugin),
        path (loadAgentrcConfig JSON_parse fs a) = Some p ->
        KuuzukiAgentrcPlugin JSON_parse fs a = Returns st ->
        configPath st = Some p
        /\ In p (locations a)
        /\ try_location JSON_parse fs p
           = Returns (config (loadAgentrcConfig JSON_parse fs a)))
  /\ (forall (st : plugin) (fs : gmap string string) (a : app)
             (changed content : string) (o : obj),
        Js.endsWith changed ".agentrc" = true ->
        fs !! project_location a = Some content ->
        JSON_parse content = Some (VObj o) ->
        file_changed JSON_parse st fs a (Some changed) =
        {| agentrcConfig := VObj o; configPath := Some (project_location a) |})
  /\ (forall (fs : gmap string string) (a : app),
        path (loadAgentrcConfig JSON_parse fs a) = None ->
        KuuzukiAgentrcPlugin JSON_parse fs a =
        Returns {| agentrcConfig := loadLegacyConfigs fs a; configPath := None |}).
Proof.
  split; [|split; [|split]].
  - intros args config cp fs fs' r config' Haction Hrun.
    pose proof (handleMemoryCommand_persists _ _ _ _ _ _ _ _ _ Haction Hrun) as Hfs.
    destruct cp as [p|]; [|exact Hfs].
    intros Hp. rewrite Hfs, persist_to_path by assumption.
    split; [apply lookup_insert_eq|].
    intros q Hq. now apply lookup_insert_ne.
  - intros fs a p st Hp Hstart.
    split; [|now apply load_from_somewhere].
    unfold KuuzukiAgentrcPlugin, announce in Hstart. cbn [agentrcConfig] in Hstart.
    destruct (truthy _); [destruct (displayKuuzukiBanner _); [|discriminate]|];
      injection Hstart as <-; exact Hp.
  - intros st fs a changed content o Hchanged Hread Hparse.
    unfold file_changed. cbn [opt_test]. rewrite Hchanged.
    now rewrite (load_project_object _ _ _ _ _ Hread Hparse).
  - intros fs a Hnone.
    unfold KuuzukiAgentrcPlugin. rewrite Hnone.
    unfold loadAgentrcConfig in *. rewrite (load_from_nothing _ _ _ Hnone).
    rewrite mergeConfigs_nothing_located by apply loadLegacyConfigs_shape.
    apply announce_legacy.
Qed.

Lemma rule_changes_are_written_to_configPath_witness :
  (<[ "/work/.agentrc" :=
        sample_stringify (VObj [("rules", VArr [VStr "A"; VStr "X"])]) ]> ∅
     : gmap string string) !! "/work/.agentrc"
  = Some (sample_stringify (VObj [("rules", VArr [VStr "A"; VStr "X"])]))
  /\ forall q, q <> "/work/.agentrc" ->
       (<[ "/work/.agentrc" :=
             sample_stringify (VObj [("rules", VArr [VStr "A"; VStr "X"])]) ]> ∅
          : gmap string string) !! q
       = (∅ : gmap string string) !! q.
Proof.
  refine (proj1 (rule_changes_are_written_to_configPath sample_stringify
                   sample_runtime sample_parse)
            (add_call "X") rules_A (Some "/work/.agentrc") ∅ _
            {| title := "✅ Rule Added"; output := "Added rule: X" |}
            (VObj [("rules", VArr [VStr "A"; VStr "X"])]) _ _ _).
  - left. reflexivity.
  - reflexivity.
  - discriminate.
Defined.

(** A configuration file that holds an array is a configuration: the
    rule that is added becomes a property of the array, and the file is
    written from the array, where the sample writer, like
    [JSON.stringify], prints the elements only.  A text that is no
    number removes the first rule. *)
Example rule_changes_off_the_usual_path :
  handleMemoryCommand sample_stringify sample_runtime (add_call "X") (VArr [])
    (Some "/work/.agentrc") ∅
  = Returns ({| title := "✅ Rule Added"; output := "Added rule: X" |},
             VArrWith [] [("rules", VArr [VStr "X"])],
             <[ "/work/.agentrc" := "[]" ]> ∅)
  /\ handleMemoryCommand sample_stringify sample_runtime (remove_call (IdStr "-1"))
       (VObj [("rules", VArr [VStr "A"; VStr "B"])]) None ∅
     = Returns ({| title := "🗑️ Rule Removed"; output := "Removed rule: undefined" |},
                VObj [("rules", VArr [VStr "A"])], ∅)
  /\ handleMemoryCommand sample_stringify sample_runtime (remove_call (IdStr "abc"))
       (VObj [("rules", VArr [VStr "A"; VStr "B"])]) None ∅
     = Returns ({| title := "🗑️ Rule Removed"; output := "Removed rule: undefined" |},
                VObj [("rules", VArr [VStr "B"])], ∅).
Proof. repeat split; reflexivity. Qed.

(** C6 as stated fails for a configuration that came from legacy
    extraction alone: the rule is added, and no file is written. *)
Lemma legacy_only_changes_are_not_written :
  KuuzukiAgentrcPlugin sample_parse legacy_only sample_app =
    Returns
      {| agentrcConfig :=
           VObj [ ("rules", VArr [VStr "Follow style: be consistent"]);
                  ("commands", VObj []); ("project", VObj []) ];
         configPath := None |}
  /\ tool_execute_before sample_stringify sample_runtime
       {| agentrcConfig :=
            VObj [ ("rules", VArr [VStr "Follow style: be consistent"]);
                   ("commands", VObj []); ("project", VObj []) ];
          configPath := None |}
       legacy_only "memory" (memory_call (add_call "X")) =
     Answers {| title := "✅ Rule Added"; output := "Added rule: X" |}
       {| agentrcConfig :=
            VObj [ ("rules", VArr [VStr "Follow style: be consistent"; VStr "X"]);
                   ("commands", VObj []); ("project", VObj []) ];
          configPath := None |}
       legacy_only
  /\ legacy_only !! project_location sample_app = None.
Proof. vm_compute. repeat split. Qed.

(** * Further properties of the code *)

(** ** Objects and spreading *)

Lemma obj_get_absent (k : string) (o : obj) :
  ~ In k (keys o) -> obj_get k o = None.
Proof.
  induction o as [|[k' v'] o IH]; [reflexivity|].
  cbn [keys map fst In obj_get]. intros H.
  destruct (String.eqb k' k) eqn:E.
  - apply String.eqb_eq in E. tauto.
  - apply IH. tauto.
Qed.

(** Spreading an object with distinct property names onto [o]: its
    properties win, the others of [o] stay. *)
Lemma obj_get_spread (k : string) (p o : obj) :
  List.NoDup (keys p) ->
  obj_get k (spread (VObj p) o) =
  match obj_get k p with Some v => Some v | None => obj_get k o end.
Proof.
  unfold spread. cbn [own_properties]. revert o.
  induction p as [|[k0 v0] p IH]; intros o Hnd; [reflexivity|].
  cbn [keys map fst] in Hnd. apply NoDup_cons_iff in Hnd as [Hnotin Hnd].
  cbn [fold_left fst snd obj_get]. rewrite IH by assumption.
  destruct (String.eqb k0 k) eqn:E.
  - apply String.eqb_eq in E. subst k0.
    rewrite (obj_get_absent k p Hnotin). apply obj_get_set_eq.
  - apply String.eqb_neq in E.
    destruct (obj_get k p); [reflexivity|].
    apply obj_get_set_ne. congruence.
Qed.

(** ** Config Merger: nested objects and the other properties *)

(** X1.  When both configurations have a [commands] object (and the
    same for [project]), a name configured on the primary side has the
    primary value in the merged object, and a name configured only on
    the legacy side keeps its legacy value. *)
Theorem mergeConfigs_primary_overrides (P L : value) (section : string)
  (primary legacy : obj) (k : string) :
  section = "commands" \/ section = "project" ->
  get P section = VObj primary ->
  get L section = VObj legacy ->
  List.NoDup (keys primary) -> List.NoDup (keys legacy) ->
  get (get (mergeConfigs P L) section) k =
  match obj_get k primary with
  | Some v => v
  | None => get (VObj legacy) k
  end.
Proof.
  intros Hsec HP HL Hnp Hnl.
  assert (HtP : truthy P = true) by (now apply (get_truthy _ _ _ HP)).
  assert (HtL : truthy L = true) by (now apply (get_truthy _ _ _ HL)).
  unfold mergeConfigs. rewrite HtP, HtL. cbn [negb andb]. cbv zeta.
  replace (or_else P (VObj [])) with P by (unfold or_else; now rewrite HtP).
  replace (or_else L (VObj [])) with L by (unfold or_else; now rewrite HtL).
  assert (Hin : get (VObj (obj_set "project"
             (VObj (spread (or_else (get P "project") (VObj []))
                      (spread (or_else (get L "project") (VObj [])) [])))
             (obj_set "rules"
                (VArr (array_or_empty (get L "rules")
                       ++ array_or_empty (get P "rules")))
                (obj_set "commands"
                   (VObj (spread (or_else (get P "commands") (VObj []))
                            (spread (or_else (get L "commands") (VObj [])) [])))
                   (spread P []))))) section
          = VObj (spread (VObj primary) (spread (VObj legacy) []))).
  { destruct Hsec as [-> | ->].
    - rewrite !get_obj_set_ne by discriminate. rewrite get_obj_set_eq.
      now rewrite HP, HL.
    - rewrite get_obj_set_eq. now rewrite HP, HL. }
  rewrite Hin. unfold get at 1.
  rewrite obj_get_spread by assumption.
  destruct (obj_get k primary); [reflexivity|].
  rewrite obj_get_spread by assumption.
  unfold get. now destruct (obj_get k legacy).
Qed.

Lemma mergeConfigs_primary_overrides_witness :
  get (get (mergeConfigs
              (VObj [("commands", VObj [("test", VStr "bun test")])])
              (VObj [("commands", VObj [("test", VStr "npm test");
                                        ("lint", VStr "npm run lint")])]))
         "commands") "test"
  = VStr "bun test".
Proof.
  apply (mergeConfigs_primary_overrides _ _ "commands"
           [("test", VStr "bun test")]
           [("test", VStr "npm test"); ("lint", VStr "npm run lint")] "test").
  - now left.
  - reflexivity.
  - reflexivity.
  - repeat constructor; simpl; tauto.
  - repeat constructor; simpl; intuition discriminate.
Defined.

(** X2.  When both configurations are present, every other property of
    the merged configuration is the primary one: what the legacy side
    holds under another name (a security section, say) is not carried
    over. *)
Theorem mergeConfigs_keeps_primary_properties (p l : obj) (k : string) :
  List.NoDup (keys p) ->
  k <> "commands" -> k <> "rules" -> k <> "project" ->
  get (mergeConfigs (VObj p) (VObj l)) k = get (VObj p) k.
Proof.
  intros Hnd Hc Hr Hp.
  unfold mergeConfigs. cbn [truthy negb andb or_else].
  rewrite !get_obj_set_ne by assumption.
  unfold get. rewrite obj_get_spread by assumption.
  now destruct (obj_get k p).
Qed.

Lemma mergeConfigs_keeps_primary_properties_witness :
  get (mergeConfigs (VObj [("rules", VArr [])])
                    (VObj [("security", VObj [("sensitiveFiles", VArr [VStr "*.env"])])]))
      "security"
  = get (VObj [("rules", VArr [])]) "security".
Proof.
  apply mergeConfigs_keeps_primary_properties;
    first [discriminate | repeat constructor; simpl; tauto].
Defined.

(** ** Config Locator: what a result says about the files *)

Lemma validated_is_object (v c : value) :
  validateAgentrcConfig v = Returns c ->
  c = v /\ typeof c = "object" /\ c <> VNull.
Proof.
  unfold validateAgentrcConfig.
  destruct (String.eqb (typeof v) "object") eqn:E; [|discriminate].
  destruct v; cbn [negb orb is_null]; try discriminate;
    intros [= <-]; repeat split; try discriminate; now apply String.eqb_eq.
Qed.

Lemma try_location_object (JSON_parse : string -> option value)
  (fs : gmap string string) (p : string) (c : value) :
  try_location JSON_parse fs p = Returns c ->
  typeof c = "object" /\ c <> VNull
  /\ exists content, fs !! p = Some content /\ JSON_parse content = Some c.
Proof.
  unfold try_location.
  destruct (fs !! p) as [content|]; [|discriminate].
  destruct (JSON_parse content) as [v|] eqn:E; [|discriminate].
  intros H. destruct (validated_is_object _ _ H) as (-> & Ht & Hn). eauto.
Qed.

Lemma load_from_shape (JSON_parse : string -> option value)
  (fs : gmap string string) (candidates : list string) :
  let r := load_from JSON_parse fs candidates in
  (path r = None /\ config r = VNull /\ consulted r = candidates
   /\ forall q, In q candidates -> exists e, try_location JSON_parse fs q = Throws e)
  \/ (exists p before after,
        candidates = before ++ p :: after
        /\ path r = Some p /\ consulted r = before ++ [p]
        /\ try_location JSON_parse fs p = Returns (config r)
        /\ forall q, In q before -> exists e, try_location JSON_parse fs q = Throws e).
Proof.
  induction candidates as [|c rest IH]; cbn zeta.
  - left. repeat split. intros q [].
  - cbn [load_from]. destruct (try_location JSON_parse fs c) as [v|e] eqn:E.
    + right. exists c, [], rest. cbn [path consulted config].
      repeat split; try assumption. intros q [].
    + cbn zeta in IH. cbn [path consulted config].
      destruct IH as [(Hp & Hc & Hs & Hall) | (p & before & after & -> & Hp & Hs & Ht & Hall)].
      * left. repeat split; [assumption | assumption | now rewrite Hs |].
        intros q [<- | Hq]; eauto.
      * right. exists p, (c :: before), after.
        repeat split; [assumption | now rewrite Hs | assumption |].
        intros q [<- | Hq]; eauto.
Qed.

(** X3.  The locator's answer describes the files.  Either it found
    nothing: the configuration is null, there is no path, and each of
    the three locations was tried and failed.  Or it names one of the
    three locations: the file there parses to the configuration
    returned, which is a non-null object; every location before it was
    tried and failed, and no location after it was read. *)
Theorem locator_result_shape (JSON_parse : string -> option value)
  (fs : gmap string string) (a : app) :
  (path (loadAgentrcConfig JSON_parse fs a) = None
   /\ config (loadAgentrcConfig JSON_parse fs a) = VNull
   /\ consulted (loadAgentrcConfig JSON_parse fs a) = locations a
   /\ forall q, In q (locations a) -> exists e, try_location JSON_parse fs q = Throws e)
  \/ (exists p before after content,
        locations a = before ++ p :: after
        /\ path (loadAgentrcConfig JSON_parse fs a) = Some p
        /\ consulted (loadAgentrcConfig JSON_parse fs a) = before ++ [p]
        /\ fs !! p = Some content
        /\ JSON_parse content = Some (config (loadAgentrcConfig JSON_parse fs a))
        /\ typeof (config (loadAgentrcConfig JSON_parse fs a)) = "object"
        /\ config (loadAgentrcConfig JSON_parse fs a) <> VNull
        /\ forall q, In q before -> exists e, try_location JSON_parse fs q = Throws e).
Proof.
  unfold loadAgentrcConfig.
  destruct (load_from_shape JSON_parse fs (locations a))
    as [H | (p & before & after & Hl & Hp & Hs & Ht & Hall)]; [now left|].
  right. destruct (try_location_object _ _ _ _ Ht) as (Hty & Hn & content & Hread & Hparse).
  exists p, before, after, content. repeat split; assumption.
Qed.

(** ** Legacy Config Extractor: rules *)

Lemma scan_lines_rules (lines : list string) (acc : legacy) :
  rules (fold_left scan_line lines acc) =
  rules acc ++ map (Js.substring 2) (List.filter is_rule_line lines).
Proof.
  revert acc. induction lines as [|l lines IH]; intros acc.
  - cbn. now rewrite app_nil_r.
  - cbn [fold_left List.filter]. rewrite IH. unfold scan_line at 1. cbn [rules].
    unfold is_rule_line at 2.
    destruct (Js.startsWith l "- " && Js.includes l ":").
    + cbn [map]. now rewrite <- app_assoc.
    + reflexivity.
Qed.

Lemma scan_file_rules (fs : gmap string string) (acc : legacy)
  (p : string) (t : legacy_type) :
  rules (scan_file fs acc (p, t)) =
  rules acc ++ match t with
               | agents | claude => rule_lines (fs !! p)
               | cursor | copilot => []
               end.
Proof.
  unfold scan_file. cbn [fst snd].
  destruct (fs !! p) as [content|]; cbn [rule_lines].
  - destruct t; try (now rewrite app_nil_r); apply scan_lines_rules.
  - destruct t; now rewrite app_nil_r.
Qed.

(** X4.  When the legacy files hold a rule line, the legacy rules are
    the rule lines of [AGENTS.md] followed by those of [CLAUDE.md]:
    every line that starts with a dash and a space and holds a colon,
    without the dash, in file order, repeats included.  The other two
    legacy files give no rules. *)
Theorem legacy_rules_are_the_rule_lines (fs : gmap string string) (a : app) :
  rule_lines (fs !! path_join [root a; "AGENTS.md"])
  ++ rule_lines (fs !! path_join [root a; "CLAUDE.md"]) <> [] ->
  get (loadLegacyConfigs fs a) "rules" =
  VArr (map VStr (rule_lines (fs !! path_join [root a; "AGENTS.md"])
                  ++ rule_lines (fs !! path_join [root a; "CLAUDE.md"]))).
Proof.
  intros Hne. unfold loadLegacyConfigs.
  assert (Hr : rules (scan_files fs a) =
               rule_lines (fs !! path_join [root a; "AGENTS.md"])
               ++ rule_lines (fs !! path_join [root a; "CLAUDE.md"])).
  { unfold scan_files, legacyFiles. cbn [fold_left].
    rewrite !scan_file_rules. cbn [rules]. now rewrite !app_nil_r. }
  rewrite Hr.
  destruct (rule_lines _ ++ rule_lines _) eqn:E; [congruence|].
  cbn [length Nat.ltb Nat.leb orb]. unfold legacy_value, get. cbn [obj_get String.eqb Ascii.eqb Bool.eqb].
  rewrite Hr. reflexivity.
Qed.

(** Scenario A of the specification: no primary configuration, and an
    instructions file with one rule line and one command. *)
Lemma legacy_rules_scenario_A :
  get (loadLegacyConfigs scenario_A_files sample_app) "rules" =
  VArr (map VStr (rule_lines (scenario_A_files !! path_join [root sample_app; "AGENTS.md"])
                  ++ rule_lines (scenario_A_files !! path_join [root sample_app; "CLAUDE.md"]))).
Proof.
  apply legacy_rules_are_the_rule_lines. vm_compute. discriminate.
Defined.

Example scenario_A_effective_config :
  KuuzukiAgentrcPlugin sample_parse scenario_A_files sample_app =
  Returns
    {| agentrcConfig :=
         VObj [ ("rules", VArr [VStr "Follow style: be consistent"]);
                ("commands", VObj [("test", VStr "npm test")]);
                ("project", VObj []) ];
       configPath := None |}.
Proof. vm_compute. reflexivity. Qed.

Lemma scan_file_ignored (fs : gmap string string) (acc : legacy) (p : string)
  (t : legacy_type) :
  t = cursor \/ t = copilot -> scan_file fs acc (p, t) = acc.
Proof.
  unfold scan_file. cbn [fst snd].
  intros [-> | ->]; now destruct (fs !! p).
Qed.

Lemma scan_file_same (fs fs' : gmap string string) (acc : legacy) (p : string)
  (t : legacy_type) :
  fs !! p = fs' !! p -> scan_file fs acc (p, t) = scan_file fs' acc (p, t).
Proof. unfold scan_file. cbn [fst snd]. now intros ->. Qed.

(** X5.  Legacy extraction reads [AGENTS.md] and [CLAUDE.md] and
    nothing else: two file systems that agree on these two files give
    the same legacy configuration, whatever [.cursorrules] and the
    copilot instructions hold; and with neither file there is no legacy
    configuration. *)
Theorem legacy_depends_on_two_files (fs fs' : gmap string string) (a : app) :
  (fs !! path_join [root a; "AGENTS.md"] = fs' !! path_join [root a; "AGENTS.md"] ->
   fs !! path_join [root a; "CLAUDE.md"] = fs' !! path_join [root a; "CLAUDE.md"] ->
   loadLegacyConfigs fs a = loadLegacyConfigs fs' a)
  /\ (fs !! path_join [root a; "AGENTS.md"] = None ->
      fs !! path_join [root a; "CLAUDE.md"] = None ->
      loadLegacyConfigs fs a = VNull).
Proof.
  split.
  - intros Ha Hc. unfold loadLegacyConfigs, scan_files, legacyFiles.
    cbn [fold_left].
    rewrite !(scan_file_ignored fs) by tauto.
    rewrite !(scan_file_ignored fs') by tauto.
    rewrite (scan_file_same fs fs' _ _ agents Ha).
    now rewrite (scan_file_same fs fs' _ _ claude Hc).
  - intros Ha Hc. unfold loadLegacyConfigs, scan_files, legacyFiles.
    cbn [fold_left].
    rewrite !(scan_file_ignored fs) by tauto.
    unfold scan_file. cbn [fst snd]. now rewrite Ha, Hc.
Qed.

Lemma legacy_depends_on_two_files_witness :
  loadLegacyConfigs (<[ "/work/.cursorrules" := "- Style: tabs" ]> scenario_A_files) sample_app
  = loadLegacyConfigs scenario_A_files sample_app
  /\ loadLegacyConfigs (<[ "/work/.cursorrules" := "- Style: tabs" ]> ∅) sample_app = VNull.
Proof.
  split.
  - apply (proj1 (legacy_depends_on_two_files _ _ sample_app)); reflexivity.
  - apply (proj2 (legacy_depends_on_two_files _ (∅ : gmap string string) sample_app));
      reflexivity.
Defined.

(** ** Rule list commands: failures, missing rules, round trip *)

(** X6.  The failures of the rule commands, in the order the code
    tests them.  [add] without a rule text fails for want of the text,
    also when there is no configuration; [add] with a text and no
    configuration fails for want of the configuration.  [remove]
    without an index fails for want of the index, also when there are
    no rules; [remove] with an index and no rules fails for want of
    rules.  An empty list of rules is not a want of rules. *)
Theorem memory_command_failures (JSON_stringify : value -> string) (rt : runtime)
  (config : value) (cp : option string) (fs : gmap string string) :
  (forall args,
      action args = Some "add" ->
      rule args = None \/ rule args = Some EmptyString ->
      handleMemoryCommand JSON_stringify rt args config cp fs = Throws MissingRule)
  /\ (forall text,
        text <> EmptyString -> truthy config = false ->
        handleMemoryCommand JSON_stringify rt (add_call text) config cp fs
        = Throws NoConfig)
  /\ (forall args,
        action args = Some "remove" -> ruleId args = None ->
        handleMemoryCommand JSON_stringify rt args config cp fs = Throws MissingRuleId)
  /\ (forall id,
        truthy (get config "rules") = false ->
        handleMemoryCommand JSON_stringify rt (remove_call id) config cp fs
        = Throws NoRules)
  /\ (forall (o : obj) (n : Z),
        obj_get "rules" o = Some (VArr []) ->
        handleMemoryCommand JSON_stringify rt (remove_call (IdNum n)) (VObj o) cp fs
        = Returns ({| title := "🗑️ Rule Removed";
                      output := "Removed rule: undefined" |},
                   VObj o, persist JSON_stringify cp (VObj o) fs)).
Proof.
  repeat split.
  - intros args Ha Hr. unfold handleMemoryCommand. rewrite Ha.
    cbn [action_is String.eqb Ascii.eqb Bool.eqb].
    now destruct Hr as [-> | ->].
  - intros text Ht Hc. unfold handleMemoryCommand, add_call.
    cbn [action rule action_is String.eqb Ascii.eqb Bool.eqb].
    apply String.eqb_neq in Ht. now rewrite Ht, Hc.
  - intros args Ha Hr. unfold handleMemoryCommand. rewrite Ha, Hr. reflexivity.
  - intros id Hr. unfold handleMemoryCommand, remove_call.
    cbn [action ruleId action_is String.eqb Ascii.eqb Bool.eqb].
    now rewrite Hr.
  - intros o n Hr.
    rewrite (remove_splices JSON_stringify rt o [] n cp fs Hr). cbn zeta.
    assert (Hs : splice1 n [] = []).
    { unfold splice1. now rewrite take_nil, drop_nil. }
    assert (He : element_at [] n = VUndefined).
    { unfold element_at. destruct (n <? 0)%Z; [reflexivity|].
      now rewrite lookup_nil. }
    rewrite Hs, He. now rewrite (obj_set_same _ _ _ Hr).
Qed.

Lemma memory_command_failures_witness :
  handleMemoryCommand sample_stringify sample_runtime (add_call "X") VNull None ∅
  = Throws NoConfig
  /\ handleMemoryCommand sample_stringify sample_runtime (remove_call (IdNum 0)) (VObj []) None ∅
     = Throws NoRules.
Proof.
  split.
  - apply (proj1 (proj2 (memory_command_failures sample_stringify sample_runtime VNull None ∅)));
      [discriminate | reflexivity].
  - apply (proj1 (proj2 (proj2 (proj2
             (memory_command_failures sample_stringify sample_runtime (VObj []) None ∅))))).
    reflexivity.
Defined.

Lemma obj_set_twice (k : string) (v w : value) (o : obj) :
  obj_set k w (obj_set k v o) = obj_set k w o.
Proof.
  induction o as [|[k' v'] o IH]; cbn [obj_set].
  - now rewrite String.eqb_refl.
  - destruct (String.eqb k' k) eqn:E; cbn [obj_set].
    + now rewrite String.eqb_refl.
    + now rewrite E, IH.
Qed.

(** X7.  [add] on a configuration whose [rules] are missing, null or
    otherwise falsy starts the list: afterwards the rules are the one
    new rule, and every other property is as it was. *)
Theorem add_starts_the_rules (JSON_stringify : value -> string) (rt : runtime)
  (o : obj) (text : string) (cp : option string) (fs : gmap string string) :
  truthy (get (VObj o) "rules") = false ->
  text <> EmptyString ->
  exists config',
    handleMemoryCommand JSON_stringify rt (add_call text) (VObj o) cp fs =
      Returns ({| title := "✅ Rule Added"; output := "Added rule: " +:+ text |},
               config', persist JSON_stringify cp config' fs)
    /\ get config' "rules" = VArr [VStr text]
    /\ forall k, k <> "rules" -> get config' k = get (VObj o) k.
Proof.
  intros Hr Ht. eexists. split; [|split].
  - unfold handleMemoryCommand, add_call.
    cbn [action rule action_is String.eqb Ascii.eqb Bool.eqb truthy negb].
    apply String.eqb_neq in Ht. rewrite Ht.
    unfold or_else. rewrite Hr. cbn [List.app]. reflexivity.
  - apply get_obj_set_eq.
  - intros k Hk. rewrite obj_set_twice. now apply get_obj_set_ne.
Qed.

Lemma add_starts_the_rules_witness :
  exists config',
    handleMemoryCommand sample_stringify sample_runtime (add_call "X")
      (VObj [("project", VObj [("name", VStr "demo")])]) None ∅ =
      Returns ({| title := "✅ Rule Added"; output := "Added rule: " +:+ "X" |},
               config', persist sample_stringify None config' ∅)
    /\ get config' "rules" = VArr [VStr "X"]
    /\ forall k, k <> "rules" ->
         get config' k = get (VObj [("project", VObj [("name", VStr "demo")])]) k.
Proof.
  apply add_starts_the_rules; [reflexivity | discriminate].
Defined.





(** ** The tokenizer reads back what was written *)

Lemma obj_set_fresh (k : string) (v : value) (o : obj) :
  ~ In k (keys o) -> obj_set k v o = o ++ [(k, v)].
Proof.
  induction o as [|[k' v'] o IH]; [reflexivity|].
  cbn [keys map fst In obj_set]. intros H.
  destruct (String.eqb k' k) eqn:E.
  - apply String.eqb_eq in E. tauto.
  - cbn [List.app]. rewrite IH by tauto. reflexivity.
Qed.

Lemma strip_quotes_plain (s : string) :
  Js.includes s "'" = false -> Js.includes s double_quote = false ->
  Js.strip_quotes s = s.
Proof.
  unfold double_quote. change "'" with (String "'" EmptyString).
  induction s as [|a s IH]; [reflexivity|].
  rewrite !includes_char_cons.
  intros [Ha Hs]%orb_false_iff [Hb Ht]%orb_false_iff.
  cbn [Js.strip_quotes]. rewrite Ha, Hb. cbn [orb]. now rewrite IH.
Qed.

Lemma plain_text_spec (k : string) :
  plain_text k = true ->
  k <> EmptyString /\ Js.includes k " " = false /\ Js.includes k "=" = false.
Proof.
  unfold plain_text. intros [[H1 H2]%andb_true_iff H3]%andb_true_iff.
  apply negb_true_iff in H1, H2, H3. apply String.eqb_neq in H1. auto.
Qed.

Lemma plain_key_spec (k : string) :
  plain_key k = true -> plain_text k = true /\ k <> "__proto__".
Proof.
  unfold plain_key. intros [H1 H2]%andb_true_iff.
  apply negb_true_iff, String.eqb_neq in H2. auto.
Qed.

Lemma plain_value_spec (v : string) :
  plain_value v = true ->
  plain_text v = true /\ Js.strip_quotes v = v.
Proof.
  unfold plain_value. intros [[H1 H2]%andb_true_iff H3]%andb_true_iff.
  apply negb_true_iff in H2, H3. split; [assumption|]. now apply strip_quotes_plain.
Qed.

Lemma token_has_no_space (kv : string * string) :
  plain_token kv = true -> Js.split " " (token kv) = [token kv].
Proof.
  unfold plain_token. intros [Hk Hv]%andb_true_iff.
  apply plain_key_spec in Hk as [(_ & Hk & _)%plain_text_spec _].
  apply plain_value_spec in Hv as [(_ & Hv & _)%plain_text_spec _].
  apply split_without_separator. unfold token.
  change " " with (String " " EmptyString) in Hk, Hv.
  now rewrite !includes_char_app, Hk, Hv.
Qed.

Lemma split_rendered (l : list (string * string)) :
  l <> [] -> Forall (fun kv => plain_token kv = true) l ->
  Js.split " " (render_tokens l) = map token l.
Proof.
  induction l as [|kv l IH]; [congruence|]. intros _ Hall.
  apply Forall_cons_iff in Hall as [Hkv Hall].
  destruct l as [|kv' l].
  - now apply token_has_no_space.
  - change (render_tokens (kv :: kv' :: l))
      with (token kv +:+ " " +:+ render_tokens (kv' :: l)).
    change (" " +:+ render_tokens (kv' :: l))
      with (String " " (render_tokens (kv' :: l))).
    rewrite split_app, token_has_no_space by assumption.
    now rewrite IH.
Qed.

Lemma parse_plain_token (kv : string * string) (args : obj) :
  plain_token kv = true -> ~ In (fst kv) (keys args) ->
  parse_part args (token kv) = args ++ [(fst kv, VStr (snd kv))].
Proof.
  unfold plain_token. intros [Hk Hv]%andb_true_iff Hfresh.
  apply plain_key_spec in Hk as [(Hk1 & _ & Hk2)%plain_text_spec Hproto].
  apply plain_value_spec in Hv as [(Hv1 & _ & Hv2)%plain_text_spec Hstrip].
  unfold token. rewrite parse_part_token, assign_text_sets by assumption.
  rewrite Hstrip. now apply obj_set_fresh.
Qed.

Lemma parse_tokens (l : list (string * string)) (args : obj) :
  Forall (fun kv => plain_token kv = true) l ->
  List.NoDup (keys args ++ map fst l) ->
  fold_left parse_part (map token l) args
  = args ++ map (fun kv => (fst kv, VStr (snd kv))) l.
Proof.
  revert args. induction l as [|kv l IH]; intros args Hall Hnd.
  - cbn. now rewrite app_nil_r.
  - apply Forall_cons_iff in Hall as [Hkv Hall].
    cbn [map fold_left].
    assert (Hfresh : ~ In (fst kv) (keys args)).
    { cbn [map] in Hnd. apply NoDup_remove_2 in Hnd.
      rewrite in_app_iff in Hnd. tauto. }
    rewrite parse_plain_token by assumption.
    rewrite IH; [now rewrite <- app_assoc | assumption |].
    unfold keys in *. rewrite map_app. cbn [map fst]. rewrite <- app_assoc. exact Hnd.
Qed.

Lemma parse_rendered (l : list (string * string)) :
  Forall (fun kv => plain_token kv = true) l ->
  List.NoDup (map fst l) ->
  parse_memory_command ("memory " +:+ render_tokens l)
  = map (fun kv => (fst kv, VStr (snd kv))) l.
Proof.
  intros Hall Hnd. unfold parse_memory_command. rewrite replace_memory_prefix.
  destruct l as [|kv l]; [reflexivity|].
  rewrite split_rendered by (assumption || discriminate).
  now rewrite parse_tokens.
Qed.

Lemma obj_get_in (k : string) (v : value) (o : obj) :
  List.NoDup (keys o) -> In (k, v) o -> obj_get k o = Some v.
Proof.
  induction o as [|[k' v'] o IH]; [intros _ []|].
  cbn [keys map fst obj_get]. intros Hnd [[= -> ->] | Hin].
  - now rewrite String.eqb_refl.
  - apply List.NoDup_cons_iff in Hnd as [Hk' Hnd].
    destruct (String.eqb k' k) eqn:E; [|now apply IH].
    apply String.eqb_eq in E. subst k'. exfalso. apply Hk'.
    apply in_map_iff. now exists (k, v).
Qed.

(** X9.  The tokenizer reads back a command line of plain tokens.
    For distinct keys other than [__proto__] and values, none of them
    empty or holding a space, an [=] or (for the values) a quote
    character, the arguments parsed from [memory k1=v1 k2=v2 ...] have
    each key as a property of their own with its value, and no other
    property of their own.  No command at all gives them a property
    [__proto__]. *)
Theorem tokenizer_reads_back_plain_tokens (l : list (string * string)) :
  Forall (fun kv => plain_token kv = true) l ->
  List.NoDup (map fst l) ->
  (forall k v, In (k, v) l ->
     obj_get k (parse_memory_command ("memory " +:+ render_tokens l)) = Some (VStr v))
  /\ (forall k, ~ In k (map fst l) ->
        obj_get k (parse_memory_command ("memory " +:+ render_tokens l)) = None)
  /\ (forall command, obj_get "__proto__" (parse_memory_command command) = None).
Proof.
  intros Hall Hnd. rewrite (parse_rendered l Hall Hnd).
  assert (Hkeys : keys (map (fun kv => (fst kv, VStr (snd kv))) l) = map fst l).
  { unfold keys. rewrite map_map. reflexivity. }
  split; [|split].
  - intros k v Hin. apply obj_get_in; [now rewrite Hkeys|].
    apply in_map_iff. now exists (k, v).
  - intros k Hk. apply obj_get_absent. now rewrite Hkeys.
  - intros command. unfold parse_memory_command. now apply parse_parts_no_proto.
Qed.

Lemma tokenizer_reads_back_plain_tokens_witness :
  obj_get "ruleId"
    (parse_memory_command
       ("memory " +:+ render_tokens [("action", "remove"); ("ruleId", "3")]))
  = Some (VStr "3").
Proof.
  apply (proj1 (tokenizer_reads_back_plain_tokens
                  [("action", "remove"); ("ruleId", "3")]
                  ltac:(repeat constructor)
                  ltac:(repeat constructor; simpl; intuition discriminate))).
  right. now left.
Defined.

(** A token whose key is [__proto__] leaves no trace, and neither does
    one behind it depend on it. *)
Example proto_token_is_dropped :
  parse_memory_command "memory __proto__=x action=list" = [("action", VStr "list")].
Proof. reflexivity. Qed.

(** ** An index given as text *)

(** A string of digits has no other character. *)
Lemma digits_have_no_other (c : ascii) (s : string) (acc n : N) :
  digit_of c = None -> digits_from acc s = Some n ->
  Js.includes s (String c EmptyString) = false.
Proof.
  intros Hc. revert acc. induction s as [|a s IH]; intros acc; [reflexivity|].
  cbn [digits_from]. destruct (digit_of a) as [d|] eqn:Ha; [|discriminate].
  intros H. rewrite includes_char_cons, (IH _ H), orb_false_r.
  apply Ascii.eqb_neq. intros ->. congruence.
Qed.

Lemma pretty_is_plain (n : N) : plain_value (pretty n) = true.
Proof.
  pose proof (digits_of_pretty n) as Hd.
  unfold plain_value, plain_text, double_quote.
  change " " with (String " " EmptyString).
  change "=" with (String "=" EmptyString).
  change "'" with (String "'" EmptyString).
  rewrite (digits_have_no_other " " _ _ _ eq_refl Hd),
          (digits_have_no_other "=" _ _ _ eq_refl Hd),
          (digits_have_no_other "'" _ _ _ eq_refl Hd),
          (digits_have_no_other "034" _ _ _ eq_refl Hd).
  cbn [negb andb].
  rewrite !andb_true_r. apply negb_true_iff, String.eqb_neq.
  intros E. rewrite E in Hd. cbn in Hd.
  unfold pretty, pretty_N in E. destruct (decide (n = 0%N)); [discriminate|].
  congruence.
Qed.

(** X10.  An index written in decimal on a shell command removes what
    the same number removes when the memory tool is called directly:
    the two invocations of the hook have the same result. *)
Theorem shell_index_is_the_number (JSON_stringify : value -> string) (rt : runtime)
  (st : plugin) (fs : gmap string string) (n : N) :
  tool_execute_before JSON_stringify rt st fs "bash"
    (shell_call ("memory action=remove ruleId=" +:+ pretty n))
  = tool_execute_before JSON_stringify rt st fs "memory"
      (memory_call (remove_call (IdNum (Z.of_N n)))).
Proof.
  unfold tool_execute_before.
  cbn [String.eqb Ascii.eqb Bool.eqb andb orb opt_test shell_call memory_call
       command filePath memory default].
  assert (Hstart : Js.startsWith ("memory action=remove ruleId=" +:+ pretty n) "memory "
                   = true).
  { unfold Js.startsWith. rewrite !append_cons, !prefix_cons, prefix_empty. reflexivity. }
  assert (Hinit : String.eqb ("memory action=remove ruleId=" +:+ pretty n) "/init" = false)
    by reflexivity.
  rewrite Hinit, Hstart. unfold id.
  change ("memory action=remove ruleId=" +:+ pretty n)
    with ("memory " +:+ render_tokens [("action", "remove"); ("ruleId", pretty n)]).
  rewrite parse_rendered.
  - unfold destructure, string_property.
    cbn [map fst snd obj_get String.eqb Ascii.eqb Bool.eqb fmap option_fmap option_map].
    unfold handleMemoryCommand, remove_call.
    cbn [action ruleId action_is String.eqb Ascii.eqb Bool.eqb].
    destruct (negb (truthy (get (agentrcConfig st) "rules"))); [reflexivity|].
    destruct (elements (get (agentrcConfig st) "rules")) as [[xs props]|];
      [|reflexivity].
    rewrite removed_text_pretty, to_integer_pretty.
    unfold removed_text, property_key, to_integer.
    now rewrite pretty_Z_of_N, canonical_index_pretty.
  - repeat constructor. unfold plain_token. cbn [fst snd].
    now rewrite pretty_is_plain.
  - repeat constructor; simpl; intuition discriminate.
Qed.

(** ** Command Dispatcher: restricted paths *)

Lemma some_restricts_strings (file : string) (patterns : list string) :
  some_restricts file (map VStr patterns) =
  Returns (existsb (fun p => Js.includes file (Js.replace "*" EmptyString p)) patterns).
Proof.
  induction patterns as [|p patterns IH]; [reflexivity|].
  cbn [map some_restricts existsb].
  destruct (Js.includes file (Js.replace "*" EmptyString p)); [reflexivity | exact IH].
Qed.

Lemma some_restricts_throws (file : string) (xs : list value) (e : exn) :
  some_restricts file xs = Throws e -> e = TypeError.
Proof.
  induction xs as [|x xs IH]; [discriminate|].
  cbn [some_restricts]. destruct x; try (now intros [= <-]).
  destruct (Js.includes _ _); [discriminate | exact IH].
Qed.

Lemma is_restricted_throws (file : string) (v : value) (e : exn) :
  is_restricted file v = Throws e -> e = TypeError.
Proof.
  destruct v; cbn [is_restricted]; try (now intros [= <-]);
    apply some_restricts_throws.
Qed.

(** X11.  A restricted path is no reason to refuse.  For an [edit],
    and for a [write] of a file other than [AGENTS.md]: when
    [restrictedPaths] is an array of patterns and the path is not empty,
    the invocation goes on with its command untouched, and it is flagged
    for a warning exactly when the path contains some pattern taken
    without its first star; with no [restrictedPaths], or an empty path,
    it goes on without a warning; a [restrictedPaths] that is truthy
    and not an array makes it fail with a [TypeError].  Nothing else
    can happen. *)
Theorem restricted_path_warns_and_proceeds (JSON_stringify : value -> string)
  (rt : runtime) (st : plugin) (fs : gmap string string) (tool : string)
  (args : tool_args) (file : string) :
  tool = "edit" \/ (tool = "write" /\ Js.endsWith file "AGENTS.md" = false) ->
  filePath args = Some file ->
  let restrictedPaths := get (get (agentrcConfig st) "security") "restrictedPaths" in
  let unchanged := match command args with Some c => VStr c | None => VUndefined end in
  (forall patterns : list string,
      file <> EmptyString ->
      restrictedPaths = VArr (map VStr patterns) ->
      tool_execute_before JSON_stringify rt st fs tool args =
      Proceeds unchanged
        (existsb (fun p => Js.includes file (Js.replace "*" EmptyString p)) patterns))
  /\ (file = EmptyString \/ truthy restrictedPaths = false ->
      tool_execute_before JSON_stringify rt st fs tool args = Proceeds unchanged false)
  /\ (file <> EmptyString ->
      truthy restrictedPaths = true -> elements restrictedPaths = None ->
      tool_execute_before JSON_stringify rt st fs tool args = Fails TypeError)
  /\ ((exists warned,
         tool_execute_before JSON_stringify rt st fs tool args = Proceeds unchanged warned)
      \/ tool_execute_before JSON_stringify rt st fs tool args = Fails TypeError).
Proof.
  intros Htool Hfile. cbv zeta.
  assert (Hrun :
    tool_execute_before JSON_stringify rt st fs tool args =
    if negb (String.eqb file EmptyString)
       && truthy (get (get (agentrcConfig st) "security") "restrictedPaths")
    then
      match is_restricted file
              (get (get (agentrcConfig st) "security") "restrictedPaths") with
      | Throws e => Fails e
      | Returns w =>
          Proceeds (match command args with Some c => VStr c | None => VUndefined end) w
      end
    else Proceeds (match command args with Some c => VStr c | None => VUndefined end)
           false).
  { unfold tool_execute_before, enforce. rewrite Hfile.
    destruct Htool as [-> | [-> Hagents]];
      cbn [String.eqb Ascii.eqb Bool.eqb andb orb opt_test negb];
      rewrite ?Hagents; reflexivity. }
  rewrite Hrun. split; [|split; [|split]].
  - intros patterns Hne%String.eqb_neq Hpaths. rewrite Hne, Hpaths.
    cbn [negb andb truthy is_restricted]. now rewrite some_restricts_strings.
  - intros [-> | Hf]; [reflexivity|]. now rewrite Hf, andb_false_r.
  - intros Hne%String.eqb_neq Ht Hel. rewrite Hne, Ht. cbn [negb andb].
    destruct (get (get (agentrcConfig st) "security") "restrictedPaths");
      try discriminate; reflexivity.
  - destruct (negb _ && _); [|left; eauto].
    destruct (is_restricted _ _) as [w|e] eqn:E; [left; eauto|].
    right. f_equal. now apply is_restricted_throws in E.
Qed.

Lemma restricted_path_warns_and_proceeds_witness :
  tool_execute_before sample_stringify sample_runtime with_restricted_paths ∅ "edit"
    (write_call "/work/secrets/token.txt")
  = Proceeds VUndefined
      (existsb (fun p => Js.includes "/work/secrets/token.txt"
                           (Js.replace "*" EmptyString p))
         ["secrets/*"; "**/keys"]).
Proof.
  refine (proj1 (restricted_path_warns_and_proceeds sample_stringify sample_runtime
                   with_restricted_paths ∅ "edit"
                   (write_call "/work/secrets/token.txt")
                   "/work/secrets/token.txt" _ _)
            ["secrets/*"; "**/keys"] _ _).
  - now left.
  - reflexivity.
  - discriminate.
  - reflexivity.
Defined.

(** A pattern given as one text instead of a list: every edit fails. *)
Example restricted_paths_as_text :
  tool_execute_before sample_stringify sample_runtime
    {| agentrcConfig := VObj [("security", VObj [("restrictedPaths", VStr "secrets/*")])];
       configPath := None |}
    ∅ "edit" (write_call "/work/README.md")
  = Fails TypeError.
Proof. reflexivity. Qed.

(** Only the first star of a pattern is dropped: a pattern with two
    stars is looked for with a star in it, and an ordinary path does not
    hold one. *)
Example two_star_pattern_does_not_match :
  tool_execute_before sample_stringify sample_runtime with_restricted_paths ∅ "write"
    (write_call "/work/config/keys")
  = Proceeds VUndefined false.
Proof. reflexivity. Qed.

(** ** Command Dispatcher: what is intercepted, what is refused *)

Lemma memory_prefix_is_not_init (c : string) :
  Js.startsWith c "memory " = true -> String.eqb c "/init" = false.
Proof.
  intros H. destruct (String.eqb c "/init") eqn:E; [|reflexivity].
  apply String.eqb_eq in E. subst c. discriminate H.
Qed.

Lemma set_rules_throws (config v : value) (e : exn) :
  set_rules config v = Throws e -> e = TypeError.
Proof. destruct config; cbn [set_rules]; now intros [= <-]. Qed.

(** What the rule commands can throw. *)
Lemma handleMemoryCommand_throws (JSON_stringify : value -> string) (rt : runtime)
  (margs : memory_args) (config : value) (cp : option string)
  (fs : gmap string string) (e : exn) :
  handleMemoryCommand JSON_stringify rt margs config cp fs = Throws e ->
  In e [MissingRule; NoConfig; MissingRuleId; NoRules; TypeError].
Proof.
  unfold handleMemoryCommand. cbn [In].
  destruct (action_is (action margs) "list"); [discriminate|].
  destruct (action_is (action margs) "add").
  - destruct (rule margs) as [text|]; [|intros [= <-]; auto 10].
    destruct (String.eqb text EmptyString); [intros [= <-]; auto 10|].
    destruct (negb (truthy config)); [intros [= <-]; auto 10|].
    destruct (set_rules config _) as [config1|e1] eqn:E1;
      [|intros [= <-]; apply set_rules_throws in E1; subst; auto 10].
    destruct (elements _) as [[xs props]|]; [|intros [= <-]; auto 10].
    destruct (set_rules config1 _) as [config2|e2] eqn:E2; [discriminate|].
    intros [= <-]. apply set_rules_throws in E2. subst. auto 10.
  - destruct (action_is (action margs) "remove"); [|discriminate].
    destruct (ruleId margs) as [id|]; [|intros [= <-]; auto 10].
    destruct (negb (truthy (get config "rules"))); [intros [= <-]; auto 10|].
    destruct (elements _) as [[xs props]|]; [|intros [= <-]; auto 10].
    destruct (set_rules config _) as [config2|e2] eqn:E2; [discriminate|].
    intros [= <-]. apply set_rules_throws in E2. subst. auto 10.
Qed.

(** X12.  A shell command that starts with [memory ] is a memory
    command whatever else it holds, even when it contains [lint] or is
    spelled like a mapped command.  The hook hands it to the rule
    commands and ends there: either it answers, and the plugin keeps
    its [configPath], or it fails with one of the errors of the rule
    commands.  It is never passed on, remapped or not, and never taken
    for the onboarding command. *)
Theorem memory_command_is_never_passed_on (JSON_stringify : value -> string)
  (rt : runtime) (st : plugin) (fs : gmap string string) (args : tool_args)
  (c : string) :
  command args = Some c ->
  Js.startsWith c "memory " = true ->
  ((exists r config' fs',
       handleMemoryCommand JSON_stringify rt (destructure (parse_memory_command c))
         (agentrcConfig st) (configPath st) fs = Returns (r, config', fs')
       /\ tool_execute_before JSON_stringify rt st fs "bash" args
          = Answers r {| agentrcConfig := config'; configPath := configPath st |} fs')
   \/ (exists e,
         handleMemoryCommand JSON_stringify rt (destructure (parse_memory_command c))
           (agentrcConfig st) (configPath st) fs = Throws e
         /\ tool_execute_before JSON_stringify rt st fs "bash" args = Fails e
         /\ In e [MissingRule; NoConfig; MissingRuleId; NoRules; TypeError]))
  /\ (forall v w, tool_execute_before JSON_stringify rt st fs "bash" args
                  <> Proceeds v w)
  /\ (forall b, tool_execute_before JSON_stringify rt st fs "bash" args
                <> Onboards b).
Proof.
  intros Hc Hm.
  unfold tool_execute_before. rewrite Hc.
  cbn [String.eqb Ascii.eqb Bool.eqb andb orb opt_test default].
  rewrite (memory_prefix_is_not_init c Hm), Hm. unfold id.
  destruct (handleMemoryCommand _ _ _ _ _ _) as [[[r c'] fs']|e] eqn:E.
  - split; [left; eauto 10|]. split; intros; discriminate.
  - split; [|split; intros; discriminate].
    right. exists e. repeat split. now apply handleMemoryCommand_throws in E.
Qed.

Lemma memory_command_is_never_passed_on_witness :
  (forall v w,
      tool_execute_before sample_stringify sample_runtime
        {| agentrcConfig := VObj [("commands", VObj [("lint", VStr "eslint .")])];
           configPath := None |} ∅ "bash" (shell_call "memory action=lint")
      <> Proceeds v w)
  /\ (forall b,
        tool_execute_before sample_stringify sample_runtime
          {| agentrcConfig := VObj [("commands", VObj [("lint", VStr "eslint .")])];
             configPath := None |} ∅ "bash" (shell_call "memory action=lint")
        <> Onboards b).
Proof.
  apply (proj2 (memory_command_is_never_passed_on sample_stringify sample_runtime _ ∅
                  (shell_call "memory action=lint") "memory action=lint"
                  eq_refl eq_refl)).
Defined.

(** A removal through the shell with an index counted from the end is
    answered like any other. *)
Example shell_remove_from_the_end :
  tool_execute_before sample_stringify sample_runtime
    {| agentrcConfig := VObj [("rules", VArr [VStr "A"; VStr "B"])];
       configPath := None |} ∅ "bash" (shell_call "memory action=remove ruleId=-1")
  = Answers {| title := "🗑️ Rule Removed"; output := "Removed rule: undefined" |}
      {| agentrcConfig := VObj [("rules", VArr [VStr "A"])]; configPath := None |} ∅.
Proof. reflexivity. Qed.

Lemma some_protects_env_throws (xs : list value) (e : exn) :
  some_protects_env xs = Throws e -> e = TypeError.
Proof.
  induction xs as [|x xs IH]; [discriminate|].
  cbn [some_protects_env]. destruct x; try (now intros [= <-]).
  destruct (Js.includes _ _); [discriminate | exact IH].
Qed.

Lemma env_is_sensitive_throws (config : value) (e : exn) :
  env_is_sensitive config = Throws e -> e = TypeError.
Proof.
  unfold env_is_sensitive.
  destruct (includes_env_glob _) as [[|]|e'] eqn:Eg.
  - discriminate.
  - unfold rules_protect_env. destruct (get config "rules"); try (now intros [= <-]);
      try discriminate; apply some_protects_env_throws.
  - intros [= <-]. unfold includes_env_glob in Eg.
    destruct (get _ _); try discriminate; now injection Eg as <-.
Qed.

(** What the last three rules of the hook refuse, and why. *)
Lemma enforce_fails (config : value) (tool : string) (args : tool_args) (e : exn) :
  enforce config tool args = Fails e ->
  e = TypeError
  \/ (e = SecurityDenied /\ tool = "read"
      /\ (exists file, filePath args = Some file /\ Js.includes file ".env" = true)
      /\ env_is_sensitive config = Returns true).
Proof.
  unfold enforce.
  destruct (String.eqb tool "bash" && truthy (get config "commands"));
    [destruct (command args); [|intros [= <-]; now left]|].
  all: destruct (String.eqb tool "read") eqn:Hread; cbn [andb].
  all: try (apply String.eqb_eq in Hread).
  all: destruct (filePath args) as [file|] eqn:Hfile; cbn [opt_test].
  all: try destruct (Js.includes file ".env") eqn:Henv.
  all: try destruct (env_is_sensitive config) as [[|]|e'] eqn:Es.
  all: try (intros [= <-]; right; now eauto 10).
  all: try (intros [= <-]; left; eapply env_is_sensitive_throws; eassumption).
  all: destruct (String.eqb tool "write" || String.eqb tool "edit"); try discriminate.
  all: try (destruct (_ && _); [|discriminate]).
  all: destruct (is_restricted _ _) as [w|e''] eqn:Er; try discriminate.
  all: intros [= <-]; left; eapply is_restricted_throws; eassumption.
Qed.

(** X13.  The hook refuses with SecurityDenied only a [read] of a path
    that contains [.env], and only when the configuration marks such
    files as sensitive.  No write, edit, shell or memory invocation is
    ever refused on these grounds. *)
Theorem only_env_reads_are_denied (JSON_stringify : value -> string) (rt : runtime)
  (st : plugin) (fs : gmap string string) (tool : string) (args : tool_args) :
  tool_execute_before JSON_stringify rt st fs tool args = Fails SecurityDenied ->
  tool = "read"
  /\ (exists file, filePath args = Some file /\ Js.includes file ".env" = true)
  /\ env_is_sensitive (agentrcConfig st) = Returns true.
Proof.
  unfold tool_execute_before.
  destruct (String.eqb tool "write" && _); [discriminate|].
  destruct (String.eqb tool "bash" && opt_test (fun c => String.eqb c "/init") _);
    [discriminate|].
  destruct (String.eqb tool "memory" || _).
  - destruct (handleMemoryCommand _ _ _ _ _ _) as [[[r c'] fs']|e] eqn:E;
      try discriminate.
    intros [= ->]. apply handleMemoryCommand_throws in E.
    cbn [In] in E.
    unfold MissingRule, NoConfig, MissingRuleId, NoRules, SecurityDenied in E.
    intuition discriminate.
  - intros [= H]. apply enforce_fails in H as [H | (_ & H)]; [discriminate | exact H].
Qed.

Lemma only_env_reads_are_denied_witness :
  "read" = "read"
  /\ (exists file, filePath (read_call "/work/.env") = Some file
                   /\ Js.includes file ".env" = true)
  /\ env_is_sensitive (agentrcConfig with_protect_rule) = Returns true.
Proof.
  apply (only_env_reads_are_denied sample_stringify sample_runtime with_protect_rule ∅ "read"
           (read_call "/work/.env")).
  reflexivity.
Defined.

Lemma some_protects_env_one (texts : list string) :
  Exists (fun t => Js.includes (Js.toLowerCase t) "protect .env" = true) texts ->
  some_protects_env (map VStr texts) = Returns true.
Proof.
  induction 1 as [t texts Ht | t texts _ IH]; cbn [map some_protects_env].
  - now rewrite Ht.
  - destruct (Js.includes (Js.toLowerCase t) "protect .env"); [reflexivity | exact IH].
Qed.

(** X14.  A rule is enough to protect the [.env] files.  When the rules
    are texts and one of them contains [protect .env] in any mix of
    upper and lower case, every read of a path that contains [.env] is
    refused, whether or not there is a security section without the
    [*.env] pattern. *)
Theorem protect_rule_denies_env_reads (JSON_stringify : value -> string) (rt : runtime)
  (st : plugin) (fs : gmap string string) (args : tool_args)
  (file : string) (texts : list string) :
  filePath args = Some file ->
  Js.includes file ".env" = true ->
  includes_env_glob (get (get (agentrcConfig st) "security") "sensitiveFiles")
    = Returns false ->
  get (agentrcConfig st) "rules" = VArr (map VStr texts) ->
  Exists (fun t => Js.includes (Js.toLowerCase t) "protect .env" = true) texts ->
  tool_execute_before JSON_stringify rt st fs "read" args = Fails SecurityDenied.
Proof.
  intros Hfile Henv Hglob Hrules Hone.
  unfold tool_execute_before, enforce. rewrite Hfile.
  cbn [String.eqb Ascii.eqb Bool.eqb andb orb opt_test]. rewrite Henv.
  unfold env_is_sensitive. rewrite Hglob, Hrules. cbn [rules_protect_env].
  now rewrite some_protects_env_one.
Qed.

Lemma protect_rule_denies_env_reads_witness :
  tool_execute_before sample_stringify sample_runtime
    {| agentrcConfig := VObj [("rules", VArr (map VStr ["Use tabs"; "PROTECT .ENV files"]))];
       configPath := None |}
    ∅ "read" (read_call "/work/.env.local")
  = Fails SecurityDenied.
Proof.
  apply (protect_rule_denies_env_reads sample_stringify sample_runtime _ ∅
           (read_call "/work/.env.local")
           "/work/.env.local" ["Use tabs"; "PROTECT .ENV files"]);
    try reflexivity.
  apply Exists_cons_tl, Exists_cons_hd. reflexivity.
Defined.

(** ** Reload *)

(** X15.  A change of a file whose name does not end in [.agentrc]
    leaves the plugin as it is.  A change of one that does replaces the
    configuration by what the locator finds, and the legacy files are
    not read again: a plugin that started on legacy files alone has a
    configuration before the event and none after it. *)
Theorem reload_drops_the_legacy_configuration (JSON_parse : string -> option value)
  (fs : gmap string string) (a : app) (changed : string) :
  (forall st, Js.endsWith changed ".agentrc" = false ->
              file_changed JSON_parse st fs a (Some changed) = st)
  /\ (forall st, Js.endsWith changed ".agentrc" = true ->
                 file_changed JSON_parse st fs a (Some changed) =
                 {| agentrcConfig := config (loadAgentrcConfig JSON_parse fs a);
                    configPath := path (loadAgentrcConfig JSON_parse fs a) |})
  /\ (Js.endsWith changed ".agentrc" = true ->
      path (loadAgentrcConfig JSON_parse fs a) = None ->
      loadLegacyConfigs fs a <> VNull ->
      KuuzukiAgentrcPlugin JSON_parse fs a
      = Returns {| agentrcConfig := loadLegacyConfigs fs a; configPath := None |}
      /\ file_changed JSON_parse
           {| agentrcConfig := loadLegacyConfigs fs a; configPath := None |}
           fs a (Some changed)
         = {| agentrcConfig := VNull; configPath := None |}).
Proof.
  split; [|split].
  - intros st H. unfold file_changed. cbn [opt_test]. now rewrite H.
  - intros st H. unfold file_changed. cbn [opt_test]. now rewrite H.
  - intros H Hnone Hlegacy. split.
    + unfold KuuzukiAgentrcPlugin. rewrite Hnone.
      unfold loadAgentrcConfig in *. rewrite (load_from_nothing _ _ _ Hnone).
      rewrite mergeConfigs_nothing_located by apply loadLegacyConfigs_shape.
      apply announce_legacy.
    + unfold file_changed. cbn [opt_test]. rewrite H, Hnone.
      unfold loadAgentrcConfig in *. now rewrite (load_from_nothing _ _ _ Hnone).
Qed.

Lemma reload_drops_the_legacy_configuration_witness :
  KuuzukiAgentrcPlugin sample_parse legacy_only sample_app
  = Returns {| agentrcConfig := loadLegacyConfigs legacy_only sample_app;
               configPath := None |}
  /\ file_changed sample_parse
       {| agentrcConfig := loadLegacyConfigs legacy_only sample_app;
          configPath := None |}
       legacy_only sample_app (Some "/tmp/other/.agentrc")
     = {| agentrcConfig := VNull; configPath := None |}.
Proof.
  apply (proj2 (proj2 (reload_drops_the_legacy_configuration sample_parse legacy_only
                         sample_app "/tmp/other/.agentrc"))).
  - reflexivity.
  - vm_compute. reflexivity.
  - vm_compute. discriminate.
Defined.


(** ** The hook after a tool has run *)

(** X16.  A memory command is answered through the two hooks together.
    Whatever the hook before answered is what the hook after puts in the
    title and the body of the result, for the memory tool and for a
    shell command alike: the shell title gets no prefix, the body no
    comment block, and the metadata is left as it was. *)
Theorem memory_answer_reaches_the_output (JSON_stringify : value -> string) (rt : runtime)
  (st st' : plugin) (fs fs' : gmap string string) (tool : string)
  (args : tool_args) (r : reply) (out : tool_output) :
  tool_execute_before JSON_stringify rt st fs tool args = Answers r st' fs' ->
  out_args out = left_for_after (Answers r st' fs') ->
  tool_execute_after (agentrcConfig st') tool out =
  {| out_args := NoResult;
     out_title := VStr (title r);
     out_output := VStr (output r);
     out_metadata := out_metadata out |}
  /\ (tool = "memory" \/ tool = "bash").
Proof.
  intros Hbefore Hout. split.
  - unfold tool_execute_after. rewrite Hout. reflexivity.
  - revert Hbefore. unfold tool_execute_before.
    destruct (String.eqb tool "write" && _); [discriminate|].
    destruct (String.eqb tool "bash" && opt_test (fun c => String.eqb c "/init") _);
      [discriminate|].
    destruct (String.eqb tool "memory") eqn:Hm.
    + apply String.eqb_eq in Hm. auto.
    + destruct (String.eqb tool "bash") eqn:Hb.
      * apply String.eqb_eq in Hb. auto.
      * cbn [orb andb]. unfold enforce. cbn [andb].
        repeat match goal with
               | |- context [if ?b then _ else _] => destruct b
               | |- context [match ?x with _ => _ end] => destruct x
               end; discriminate.
Qed.

Lemma memory_answer_reaches_the_output_witness :
  tool_execute_after rules_A "bash" listing_pending
  = {| out_args := NoResult;
       out_title := VStr (title listing_of_A);
       out_output := VStr (output listing_of_A);
       out_metadata := out_metadata listing_pending |}
  /\ ("bash" = "memory" \/ "bash" = "bash").
Proof.
  exact (memory_answer_reaches_the_output sample_stringify sample_runtime
           {| agentrcConfig := rules_A; configPath := None |}
           {| agentrcConfig := rules_A; configPath := None |} ∅ ∅ "bash"
           (shell_call "memory action=list") listing_of_A listing_pending
           eq_refl eq_refl).
Defined.

(** X17.  For a result of a tool's own, with a configuration loaded:
    the metadata gets a [kuuzuki] entry whose rule count is the number
    of rules, and keeps every entry it had under another name.  With no
    configuration the metadata is not touched. *)
Theorem after_hook_metadata (config : value) (tool : string) (out : tool_output) :
  out_args out = NoResult ->
  (truthy config = false ->
   out_metadata (tool_execute_after config tool out) = out_metadata out)
  /\ (forall (xs : list value),
        get config "rules" = VArr xs ->
        get (get (out_metadata (tool_execute_after config tool out)) "kuuzuki")
            "rulesCount"
        = VNum (Z.of_nat (length xs))
        /\ get (get (out_metadata (tool_execute_after config tool out)) "kuuzuki")
               "hasAgentrc"
           = VBool true)
  /\ (forall (m : obj) (k : string),
        truthy config = true ->
        out_metadata out = VObj m -> List.NoDup (keys m) -> k <> "kuuzuki" ->
        get (out_metadata (tool_execute_after config tool out)) k = get (VObj m) k).
Proof.
  intros Hout. unfold tool_execute_after. rewrite Hout. cbn [out_metadata].
  split; [|split].
  - now intros ->.
  - intros xs Hr.
    rewrite (get_truthy _ _ _ Hr) by discriminate.
    rewrite get_obj_set_eq. unfold kuuzuki_metadata. rewrite Hr.
    cbn [js_length]. split; [|reflexivity].
    unfold get, or_else. cbn [obj_get String.eqb Ascii.eqb Bool.eqb default from_option id].
    destruct xs; reflexivity.
  - intros m k -> -> Hnd Hk.
    rewrite get_obj_set_ne by assumption.
    unfold get. rewrite obj_get_spread by assumption.
    now destruct (obj_get k m).
Qed.

Lemma after_hook_metadata_witness :
  get (get (out_metadata
              (tool_execute_after (VObj [("rules", VArr [VStr "A"; VStr "B"])]) "read"
                 {| out_args := NoResult; out_title := VUndefined;
                    out_output := VStr "text";
                    out_metadata := VObj [("lines", VNum 12)] |}))
         "kuuzuki") "rulesCount"
  = VNum (Z.of_nat (length [VStr "A"; VStr "B"]))
  /\ get (get (out_metadata
                 (tool_execute_after (VObj [("rules", VArr [VStr "A"; VStr "B"])]) "read"
                    {| out_args := NoResult; out_title := VUndefined;
                       out_output := VStr "text";
                       out_metadata := VObj [("lines", VNum 12)] |}))
            "kuuzuki") "hasAgentrc"
     = VBool true.
Proof.
  apply (proj1 (proj2 (after_hook_metadata
                         (VObj [("rules", VArr [VStr "A"; VStr "B"])]) "read"
                         {| out_args := NoResult; out_title := VUndefined;
                            out_output := VStr "text";
                            out_metadata := VObj [("lines", VNum 12)] |} eq_refl))
           [VStr "A"; VStr "B"]).
  reflexivity.
Defined.

Lemma append_text_extends (out : value) (text : string) :
  exists suffix, append_text out text = VStr (to_string out +:+ suffix).
Proof. exists text. reflexivity. Qed.

Lemma append_text_twice (out : value) (t1 t2 : string) :
  append_text (append_text out t1) t2 = append_text out (t1 +:+ t2).
Proof. unfold append_text. cbn [to_string]. now rewrite append_assoc. Qed.

(** X18.  The hook after never takes anything away from a result of a
    tool's own.  The body is touched for a [read] only, and then it is
    the body as text with a comment block after it; the title is touched
    for the shell only, and then it is the old title after a flower. *)
Theorem after_hook_only_adds (config : value) (tool : string) (out : tool_output) :
  out_args out = NoResult ->
  (out_output (tool_execute_after config tool out) = out_output out
   \/ (tool = "read"
       /\ exists suffix,
            out_output (tool_execute_after config tool out)
            = VStr (to_string (out_output out) +:+ suffix)))
  /\ (out_title (tool_execute_after config tool out) = out_title out
      \/ (tool = "bash"
          /\ out_title (tool_execute_after config tool out)
             = VStr ("🌸 " +:+ to_string (out_title out)))).
Proof.
  intros Hout. unfold tool_execute_after. rewrite Hout.
  cbn [out_output out_title]. split.
  - destruct (String.eqb tool "read") eqn:Hr; [|now left].
    apply String.eqb_eq in Hr. cbn [andb].
    destruct (truthy config); [|now left].
    unfold project_context.
    destruct (truthy (get config "conventions") || truthy (get config "tools"));
      [|now left].
    right. split; [assumption|].
    destruct (truthy (get config "conventions"));
      destruct (truthy (get (get config "tools") "packageManager"));
      rewrite ?append_text_twice; apply append_text_extends.
  - destruct (String.eqb tool "bash") eqn:Hb; [|now left].
    apply String.eqb_eq in Hb. cbn [andb].
    destruct (truthy (out_title out)); [right | left]; auto.
Qed.

(** ** The smart logger's gates *)

Lemma setting_set (o : obj) (k : string) (v dflt : value) :
  v <> VUndefined -> setting (VObj (obj_set k v o)) k dflt = v.
Proof.
  intros Hv. unfold setting. rewrite get_obj_set_eq. now destruct v.
Qed.

Lemma setting_other (o : obj) (k k' : string) (v dflt : value) :
  k <> k' -> setting (VObj (obj_set k' v o)) k dflt = setting (VObj o) k dflt.
Proof. intros H. unfold setting. now rewrite get_obj_set_ne. Qed.

Lemma sends_at_level (o : obj) (m : message_level) (l : string) :
  sends_notification (VObj (obj_set "level" (VStr l) o)) m =
  (if negb (truthy (setting (VObj o) "enabled" (VBool true))) || String.eqb l "none"
   then false
   else if String.eqb l "all" then true
   else if String.eqb l "important"
        then match m with info => false | _ => true end
   else if String.eqb l "errors-only"
        then match m with error => true | _ => false end
   else false)
  && (is_str "os" (setting (VObj o) "mode" (VStr "os"))
      || is_str "both" (setting (VObj o) "mode" (VStr "os"))).
Proof.
  unfold sends_notification, shouldNotify.
  rewrite setting_set by discriminate.
  rewrite !setting_other by discriminate.
  reflexivity.
Qed.

(** X19.  The notification levels are nested: with the other settings
    the same, a message that is sent as a desktop notification at level
    [errors-only] is sent at level [important], and one sent at
    [important] is sent at [all]; at level [none], and at a level the
    logger does not know, nothing is sent. *)
Theorem notification_levels_are_nested (o : obj) (m : message_level) :
  let at_level l := sends_notification (VObj (obj_set "level" (VStr l) o)) m in
  (at_level "errors-only" = true -> at_level "important" = true)
  /\ (at_level "important" = true -> at_level "all" = true)
  /\ at_level "none" = false
  /\ (forall l, l <> "all" -> l <> "important" -> l <> "errors-only" ->
                at_level l = false).
Proof.
  cbn zeta. repeat split.
  - rewrite !sends_at_level. cbn [String.eqb Ascii.eqb Bool.eqb].
    destruct (negb _); cbn [orb]; [discriminate|].
    destruct m; cbn [andb]; (discriminate || auto).
  - rewrite !sends_at_level. cbn [String.eqb Ascii.eqb Bool.eqb].
    destruct (negb _); cbn [orb]; [discriminate|].
    destruct m; cbn [andb]; (discriminate || auto).
  - rewrite sends_at_level. cbn [String.eqb Ascii.eqb Bool.eqb].
    now rewrite orb_true_r.
  - intros l Ha Hi He. rewrite sends_at_level.
    apply String.eqb_neq in Ha, Hi, He. rewrite Ha, Hi, He.
    now destruct (negb _ || _).
Qed.

Lemma notification_levels_are_nested_witness :
  sends_notification
    (VObj (obj_set "level" (VStr "important") [("mode", VStr "both")])) error = true.
Proof.
  apply (proj1 (notification_levels_are_nested [("mode", VStr "both")] error)).
  reflexivity.
Defined.

(** X20.  What a logger writes to the console.  A silent logger, and
    one in mode [os], does not echo a message: what it writes is what
    the notifier prints in place of a notification it cannot show.  On
    Linux with a shell the notifier prints nothing, so a silent logger
    writes nothing there; without a shell every message that would be
    notified is printed.  A notification needs the logger enabled, a
    level other than [none], and mode [os] or [both]; an [info] message
    is notified at level [all] only. *)
Theorem logger_gates (h : host) (notificationConfig : value)
  (messageLevel : message_level) (message : string) :
  (truthy (setting notificationConfig "silent" (VBool false)) = true
   \/ setting notificationConfig "mode" (VStr "os") = VStr "os" ->
   echoes notificationConfig = false
   /\ console_lines h notificationConfig messageLevel message
      = if sends_notification notificationConfig messageLevel
        then notify h (notifier_title messageLevel) message
        else [])
  /\ (has_shell h = true -> process_platform h = linux ->
      console_lines h notificationConfig messageLevel message
      = if echoes notificationConfig then ["[🌸 Kuuzuki] " +:+ message] else [])
  /\ (has_shell h = false ->
      sends_notification notificationConfig messageLevel = true ->
      console_lines h notificationConfig messageLevel message
      = (if echoes notificationConfig then ["[🌸 Kuuzuki] " +:+ message] else [])
        ++ ["[" +:+ notifier_title messageLevel +:+ "] " +:+ message])
  /\ (sends_notification notificationConfig messageLevel = true ->
      truthy (setting notificationConfig "enabled" (VBool true)) = true
      /\ setting notificationConfig "level" (VStr "important") <> VStr "none"
      /\ (setting notificationConfig "mode" (VStr "os") = VStr "os"
          \/ setting notificationConfig "mode" (VStr "os") = VStr "both"))
  /\ (sends_notification notificationConfig info = true ->
      setting notificationConfig "level" (VStr "important") = VStr "all").
Proof.
  split; [|split; [|split; [|split]]].
  - intros Hquiet.
    assert (He : echoes notificationConfig = false).
    { unfold echoes. destruct Hquiet as [-> | ->]; [reflexivity|].
      cbn. apply andb_false_r. }
    split; [exact He|]. unfold console_lines. now rewrite He.
  - intros Hs Hp. unfold console_lines, notify. rewrite Hs, Hp. cbn [negb].
    destruct (sends_notification _ _); now rewrite app_nil_r.
  - intros Hs Hn. unfold console_lines, notify. now rewrite Hn, Hs.
  - unfold sends_notification, shouldNotify.
    intros H. apply andb_true_iff in H as [H1 H2]. repeat split.
    + destruct (truthy (setting notificationConfig "enabled" (VBool true)));
        [reflexivity | discriminate].
    + intros E. rewrite E in H1. cbn [is_str String.eqb Ascii.eqb Bool.eqb] in H1.
      rewrite orb_true_r in H1. discriminate.
    + apply orb_true_iff in H2 as [H2 | H2];
        destruct (setting notificationConfig "mode" (VStr "os")); try discriminate;
        apply String.eqb_eq in H2; subst; auto.
  - unfold sends_notification, shouldNotify.
    intros H. apply andb_true_iff in H as [H _].
    destruct (negb _ || _); [discriminate|].
    destruct (setting notificationConfig "level" (VStr "important")) eqn:El;
      cbn [is_str] in H; try discriminate.
    destruct (String.eqb s "all") eqn:Ea; [apply String.eqb_eq in Ea; now subst|].
    destruct (String.eqb s "important"); [discriminate|].
    destruct (String.eqb s "errors-only"); discriminate.
Qed.

Lemma logger_gates_witness :
  echoes (VObj [("silent", VBool true)]) = false
  /\ console_lines no_shell_host (VObj [("silent", VBool true)]) error "disk full"
     = if sends_notification (VObj [("silent", VBool true)]) error
       then notify no_shell_host (notifier_title error) "disk full"
       else [].
Proof.
  apply (proj1 (logger_gates no_shell_host (VObj [("silent", VBool true)])
                  error "disk full")).
  left. reflexivity.
Defined.

(** The logger of a project whose configuration has no notifications
    section is silent and in mode [os]: on Linux with a shell it writes
    nothing, and without a shell it prints every message but [info]. *)
Example default_logger :
  map (sends_notification (notificationConfig_of rules_A))
      [info; success; warning; error; config_level; session]
  = [false; true; true; true; true; true]
  /\ console_lines linux_host (notificationConfig_of rules_A) warning "careful" = []
  /\ console_lines no_shell_host (notificationConfig_of rules_A) warning "careful"
     = ["[" +:+ notifier_title warning +:+ "] careful"]
  /\ console_lines no_shell_host (notificationConfig_of rules_A) info "hello" = [].
Proof. repeat split; reflexivity. Qed.

(** The logger the plugin starts with ([mode: 'in-app'], silent,
    [important]) is mute on every host: this is the logger
    [loadAgentrcConfig] is given at start. *)
Example starting_logger_is_mute :
  let basic := VObj [("mode", VStr "in-app"); ("silent", VBool true);
                     ("level", VStr "important")] in
  forall (h : host) (m : message_level) (message : string),
    console_lines h basic m message = [].
Proof. intros basic h m message. now destruct m. Qed.

Lemma after_hook_only_adds_witness :
  (out_output (tool_execute_after with_tools "read" plain_read_output)
   = out_output plain_read_output
   \/ ("read" = "read"
       /\ exists suffix,
            out_output (tool_execute_after with_tools "read" plain_read_output)
            = VStr (to_string (out_output plain_read_output) +:+ suffix)))
  /\ (out_title (tool_execute_after with_tools "read" plain_read_output)
      = out_title plain_read_output
      \/ ("read" = "bash"
          /\ out_title (tool_execute_after with_tools "read" plain_read_output)
             = VStr ("🌸 " +:+ to_string (out_title plain_read_output)))).
Proof.
  exact (after_hook_only_adds with_tools "read" plain_read_output eq_refl).
Defined.

(** What a [read] returns with a package manager configured. *)
Example read_gets_the_context :
  out_output (tool_execute_after with_tools "read" plain_read_output)
  = VStr ("const a = 1" +:+ newline +:+ newline
          +:+ "<!-- 🌸 Kuuzuki Project Context -->" +:+ newline
          +:+ "<!-- Package Manager: bun -->").
Proof. reflexivity. Qed.

(** ** Project Analyzer *)

Lemma analyze_readable (JSON_parse : string -> option value)
  (fs : gmap string string) (projectPath : string) (packageJson : value) :
  readable_manifest JSON_parse fs projectPath packageJson ->
  analyzeProject JSON_parse fs projectPath = analyze_manifest fs projectPath packageJson.
Proof.
  intros (content & Hread & Hparse & Hn & Hu).
  unfold analyzeProject. rewrite Hread, Hparse. now destruct packageJson.
Qed.

Lemma analyze_unreadable (JSON_parse : string -> option value)
  (fs : gmap string string) (projectPath : string) :
  no_manifest JSON_parse fs projectPath ->
  analyzeProject JSON_parse fs projectPath = detect_other fs projectPath initial_analysis.
Proof.
  unfold analyzeProject. intros [-> | (content & -> & ->)]; reflexivity.
Qed.

(** X21.  For a project with a readable manifest the package manager
    is never [npm]: it is [yarn] exactly when there is a [yarn.lock] and
    no [bun.lockb], [pnpm] exactly when there is a [pnpm-lock.yaml] and
    neither of the other two, and [bun] in every other case, also with
    no lock file at all. *)
Theorem manifest_package_manager (JSON_parse : string -> option value)
  (fs : gmap string string) (projectPath : string) (packageJson : value) :
  readable_manifest JSON_parse fs projectPath packageJson ->
  let pm := Analysis.packageManager (analyzeProject JSON_parse fs projectPath) in
  let lock name := exists_at fs (path_join [projectPath; name]) in
  pm <> "npm"
  /\ (pm = "yarn" <-> lock "bun.lockb" = false /\ lock "yarn.lock" = true)
  /\ (pm = "pnpm" <-> lock "bun.lockb" = false /\ lock "yarn.lock" = false
                      /\ lock "pnpm-lock.yaml" = true)
  /\ (pm <> "yarn" -> pm <> "pnpm" -> pm = "bun").
Proof.
  intros Hm. cbn zeta. rewrite (analyze_readable _ _ _ _ Hm).
  unfold analyze_manifest. cbn [Analysis.packageManager].
  destruct (exists_at fs (path_join [projectPath; "bun.lockb"]));
    destruct (exists_at fs (path_join [projectPath; "yarn.lock"]));
    destruct (exists_at fs (path_join [projectPath; "pnpm-lock.yaml"]));
    repeat split; intros; try discriminate; try tauto; intuition discriminate.
Qed.

Lemma manifest_package_manager_witness :
  let pm := Analysis.packageManager (analyzeProject manifest_parse react_project "/work") in
  let lock name := exists_at react_project (path_join ["/work"; name]) in
  pm <> "npm"
  /\ (pm = "yarn" <-> lock "bun.lockb" = false /\ lock "yarn.lock" = true)
  /\ (pm = "pnpm" <-> lock "bun.lockb" = false /\ lock "yarn.lock" = false
                      /\ lock "pnpm-lock.yaml" = true)
  /\ (pm <> "yarn" -> pm <> "pnpm" -> pm = "bun").
Proof.
  apply (manifest_package_manager manifest_parse react_project "/work" react_manifest).
  exists "react manifest". repeat split; (reflexivity || discriminate).
Defined.

(** X22.  Without a manifest that can be read and parsed, the markers
    of the other project types decide, in the order Rust, Go, Python: a
    [Cargo.toml] makes a Rust project whatever else is there.  With no
    marker at all the analysis is the generic one it started from. *)
Theorem fallback_markers (JSON_parse : string -> option value)
  (fs : gmap string string) (projectPath : string) :
  no_manifest JSON_parse fs projectPath ->
  let an := analyzeProject JSON_parse fs projectPath in
  let marker name := exists_at fs (path_join [projectPath; name]) in
  (marker "Cargo.toml" = true ->
   an = with_kind initial_analysis "rust-project" "rust" "cargo")
  /\ (marker "Cargo.toml" = false -> marker "go.mod" = true ->
      an = with_kind initial_analysis "go-project" "go" "go")
  /\ (marker "Cargo.toml" = false -> marker "go.mod" = false ->
      marker "requirements.txt" = true ->
      an = with_kind initial_analysis "python-project" "python" "pip")
  /\ (marker "Cargo.toml" = false -> marker "go.mod" = false ->
      marker "requirements.txt" = false ->
      an = initial_analysis).
Proof.
  intros Hm. cbn zeta. rewrite (analyze_unreadable _ _ _ Hm). unfold detect_other.
  repeat split; intros; repeat match goal with H : _ = _ |- _ => rewrite H end;
    reflexivity.
Qed.

Lemma fallback_markers_witness :
  analyzeProject manifest_parse rust_and_go "/work"
  = with_kind initial_analysis "rust-project" "rust" "cargo".
Proof.
  apply (proj1 (fallback_markers manifest_parse rust_and_go "/work"
                  (or_introl eq_refl))).
  reflexivity.
Defined.

Lemma detect_other_keeps (fs : gmap string string) (projectPath : string)
  (an : Analysis.analysis) :
  Analysis.framework (detect_other fs projectPath an) = Analysis.framework an
  /\ Analysis.hasTypescript (detect_other fs projectPath an) = Analysis.hasTypescript an
  /\ (Analysis.language (detect_other fs projectPath an) = Analysis.language an
      \/ In (Analysis.language (detect_other fs projectPath an)) ["rust"; "go"; "python"])
  /\ (Analysis.type (detect_other fs projectPath an) = Analysis.type an
      \/ In (Analysis.type (detect_other fs projectPath an))
            ["rust-project"; "go-project"; "python-project"]).
Proof.
  unfold detect_other.
  repeat match goal with |- context [if ?b then _ else _] => destruct b end;
    cbn; tauto.
Qed.

(** X23.  Whatever the directory holds, the analysis is consistent:
    the TypeScript flag is set exactly when the language is
    [typescript], and the project type is one of the five plain types
    exactly when no framework was found. *)
Theorem analysis_is_consistent (JSON_parse : string -> option value)
  (fs : gmap string string) (projectPath : string) :
  let an := analyzeProject JSON_parse fs projectPath in
  (Analysis.hasTypescript an = true <-> Analysis.language an = "typescript")
  /\ (Analysis.framework an = None <-> In (Analysis.type an) plain_types).
Proof.
  cbn zeta.
  assert (Hother : forall an0,
            Analysis.hasTypescript an0 = false -> Analysis.language an0 = "javascript" ->
            Analysis.framework an0 = None -> In (Analysis.type an0) plain_types ->
            let an := detect_other fs projectPath an0 in
            (Analysis.hasTypescript an = true <-> Analysis.language an = "typescript")
            /\ (Analysis.framework an = None <-> In (Analysis.type an) plain_types)).
  { intros an0 Ht Hl Hf Hty. cbn zeta.
    destruct (detect_other_keeps fs projectPath an0) as (-> & -> & Hlang & Htype).
    rewrite Ht, Hf. split.
    - split; [discriminate|]. intros E. rewrite E in Hlang.
      destruct Hlang as [Hlang | Hlang]; [congruence|].
      cbn in Hlang. intuition discriminate.
    - split; [|reflexivity]. intros _.
      destruct Htype as [-> | Htype]; [assumption|].
      unfold plain_types. cbn in *. tauto. }
  unfold analyzeProject.
  destruct (fs !! path_join [projectPath; "package.json"]) as [content|];
    [|apply Hother; cbn; tauto].
  destruct (JSON_parse content) as [packageJson|]; [|apply Hother; cbn; tauto].
  assert (Hman : let an := analyze_manifest fs projectPath packageJson in
            (Analysis.hasTypescript an = true <-> Analysis.language an = "typescript")
            /\ (Analysis.framework an = None <-> In (Analysis.type an) plain_types)).
  { cbn zeta. unfold analyze_manifest.
    cbn [Analysis.hasTypescript Analysis.language Analysis.framework Analysis.type].
    split.
    - destruct (_ || _ || _); split; (reflexivity || discriminate).
    - unfold plain_types.
      repeat match goal with |- context [if ?b then _ else _] => destruct b end;
        cbn; split; intros; try discriminate; try tauto; intuition discriminate. }
  destruct packageJson; try exact Hman; apply Hother; cbn; tauto.
Qed.

(** ** Default configuration *)

Lemma project_location_not_empty (a : app) : project_location a <> EmptyString.
Proof.
  unfold project_location, path_join. destruct (root a); discriminate.
Qed.

Lemma endsWith_refl (s : string) : Js.endsWith s s = true.
Proof. destruct s; cbn [Js.endsWith]; now rewrite String.eqb_refl. Qed.

Lemma endsWith_app (x y : string) : Js.endsWith (x +:+ y) y = true.
Proof.
  induction x as [|a x IH]; [apply endsWith_refl|].
  rewrite append_cons. cbn [Js.endsWith]. rewrite IH. apply orb_true_r.
Qed.

Lemma project_location_ends (a : app) :
  Js.endsWith (project_location a) ".agentrc" = true.
Proof.
  unfold project_location, path_join.
  rewrite <- append_assoc. apply endsWith_app.
Qed.

Lemma default_commands_build_test (an : Analysis.analysis) :
  exists build test rest,
    default_commands an = ("build", VStr build) :: ("test", VStr test) :: rest
    /\ build <> EmptyString /\ test <> EmptyString.
Proof.
  unfold default_commands. eexists _, _, _. split; [reflexivity|].
  split;
    repeat match goal with |- context [if ?b then _ else _] => destruct b end;
    try discriminate;
    destruct (Analysis.packageManager an); discriminate.
Qed.

(** X24.  [createDefaultAgentrc] writes one file, the [.agentrc] of the
    project, and what it writes is the configuration it returns.  That
    configuration passes the locator's validation, always has a build
    and a test command that are not empty, and lists the package manager
    the analysis found. *)
Theorem default_config_is_written (JSON_parse : string -> option value)
  (JSON_stringify : value -> string) (fs : gmap string string)
  (projectPath created : string) :
  let config := fst (createDefaultAgentrc JSON_parse JSON_stringify fs projectPath created) in
  let fs' := snd (createDefaultAgentrc JSON_parse JSON_stringify fs projectPath created) in
  fs' !! path_join [projectPath; ".agentrc"] = Some (JSON_stringify config)
  /\ (forall q, q <> path_join [projectPath; ".agentrc"] -> fs' !! q = fs !! q)
  /\ validateAgentrcConfig config = Returns config
  /\ (exists build test,
        get (get config "commands") "build" = VStr build
        /\ get (get config "commands") "test" = VStr test
        /\ build <> EmptyString /\ test <> EmptyString)
  /\ get (get config "tools") "packageManager"
     = VStr (Analysis.packageManager (analyzeProject JSON_parse fs projectPath)).
Proof.
  cbn zeta. unfold createDefaultAgentrc. cbn [fst snd].
  split; [apply lookup_insert_eq|].
  split; [intros q Hq; apply lookup_insert_ne; congruence|].
  split; [reflexivity|]. split; [|reflexivity].
  destruct (default_commands_build_test (analyzeProject JSON_parse fs projectPath))
    as (build & test & rest & E & Hb & Ht).
  exists build, test. unfold default_config, get at 2 4.
  cbn [obj_get String.eqb Ascii.eqb Bool.eqb default from_option id].
  rewrite E. repeat split; assumption.
Qed.

(** X25.  The default configuration has thirteen rules, three more for
    a React project and one more for a TypeScript project; the rule
    about commit messages is always among them. *)
Theorem default_rules_count (an : Analysis.analysis) :
  length (default_rules an) =
    13 + (if opt_test (fun f => String.eqb f "react") (Analysis.framework an)
          then 3 else 0)
       + (if Analysis.hasTypescript an then 1 else 0)
  /\ In "Use semantic commit messages" (default_rules an).
Proof.
  unfold default_rules. split.
  - rewrite !length_app.
    destruct (opt_test _ _); destruct (Analysis.hasTypescript an); reflexivity.
  - rewrite !in_app_iff. do 4 right. cbn. tauto.
Qed.

(** ** Onboarding *)

Section OnboardingFacts.
Variable JSON_parse : string -> option value.
Variable JSON_stringify : value -> string.

Lemma init_when_present (fs : gmap string string) (a : app) (created : string) :
  exists_at fs (project_location a) = true ->
  init JSON_parse JSON_stringify fs a created = (already_initialized, fs).
Proof. intros H. unfold init. now rewrite H. Qed.

Lemma init_when_absent (fs : gmap string string) (a : app) (created : string) :
  exists_at fs (project_location a) = false ->
  init JSON_parse JSON_stringify fs a created =
  (initialized (default_config (basename (root a))
                  (analyzeProject JSON_parse fs (root a)) created),
   <[project_location a :=
       JSON_stringify (default_config (basename (root a))
                         (analyzeProject JSON_parse fs (root a)) created)]> fs).
Proof. intros H. unfold init. rewrite H. reflexivity. Qed.

Lemma init_leaves_a_file (fs : gmap string string) (a : app) (created : string) :
  exists_at (snd (init JSON_parse JSON_stringify fs a created)) (project_location a)
  = true.
Proof.
  destruct (exists_at fs (project_location a)) eqn:E.
  - now rewrite init_when_present.
  - rewrite init_when_absent by assumption. cbn [snd].
    unfold exists_at. now rewrite lookup_insert_eq.
Qed.
End OnboardingFacts.

(** X26.  Onboarding never overwrites a project file.  When the
    [.agentrc] of the project exists, [init] answers that the project is
    already initialized, a write of [AGENTS.md] goes on with a note
    appended to its content, and neither changes the file system.  A
    second [init] is therefore always without effect. *)
Theorem onboarding_never_overwrites (JSON_parse : string -> option value)
  (JSON_stringify : value -> string) (fs : gmap string string) (a : app)
  (created created' : string) (content : value) :
  (exists_at fs (project_location a) = true ->
   init JSON_parse JSON_stringify fs a created = (already_initialized, fs)
   /\ snd (annotate_agents_file JSON_parse JSON_stringify fs a created content) = fs)
  /\ init JSON_parse JSON_stringify
       (snd (init JSON_parse JSON_stringify fs a created)) a created'
     = (already_initialized, snd (init JSON_parse JSON_stringify fs a created))
  /\ (forall q, q <> project_location a ->
                snd (init JSON_parse JSON_stringify fs a created) !! q = fs !! q).
Proof.
  split; [|split].
  - intros H. split; [now apply init_when_present|].
    unfold annotate_agents_file. cbn [snd]. now rewrite H.
  - apply init_when_present, init_leaves_a_file.
  - intros q Hq. destruct (exists_at fs (project_location a)) eqn:E.
    + now rewrite init_when_present.
    + rewrite init_when_absent by assumption. cbn [snd].
      apply lookup_insert_ne. congruence.
Qed.

Lemma onboarding_never_overwrites_witness :
  init sample_parse sample_stringify project_file_only sample_app "t"
  = (already_initialized, project_file_only)
  /\ snd (annotate_agents_file sample_parse sample_stringify project_file_only
            sample_app "t" (VStr "# Agents"))
     = project_file_only.
Proof.
  apply (proj1 (onboarding_never_overwrites sample_parse sample_stringify
                  project_file_only sample_app "t" "t" (VStr "# Agents"))).
  reflexivity.
Defined.

(** X27.  [init] writes the file and leaves the running plugin as it
    was.  On a plugin without a configuration, a rule cannot be added
    right after [init]: the command still fails for want of a
    configuration.  Once the change of the file has been handled (and
    the file reads back as the configuration written) the same command
    succeeds, the rule comes after the default rules, and the project
    file holds the result. *)
Theorem init_needs_a_reload (JSON_parse : string -> option value)
  (JSON_stringify : value -> string) (rt : runtime) (fs : gmap string string) (a : app)
  (created text : string) (st : plugin) :
  exists_at fs (project_location a) = false ->
  truthy (agentrcConfig st) = false ->
  text <> EmptyString ->
  let config := default_config (basename (root a))
                  (analyzeProject JSON_parse fs (root a)) created in
  let fs1 := snd (init JSON_parse JSON_stringify fs a created) in
  JSON_parse (JSON_stringify config) = Some config ->
  tool_execute_before JSON_stringify rt st fs1 "memory" (memory_call (add_call text))
    = Fails NoConfig
  /\ file_changed JSON_parse st fs1 a (Some (project_location a))
     = {| agentrcConfig := config; configPath := Some (project_location a) |}
  /\ exists r config' fs2,
       tool_execute_before JSON_stringify rt
         (file_changed JSON_parse st fs1 a (Some (project_location a)))
         fs1 "memory" (memory_call (add_call text))
       = Answers r {| agentrcConfig := config';
                      configPath := Some (project_location a) |} fs2
       /\ get config' "rules"
          = VArr (map VStr (default_rules (analyzeProject JSON_parse fs (root a)))
                  ++ [VStr text])
       /\ fs2 !! project_location a = Some (JSON_stringify config').
Proof.
  intros Habsent Hnone Htext config fs1 Hround.
  assert (Hfs1 : fs1 = <[project_location a := JSON_stringify config]> fs).
  { unfold fs1. now rewrite init_when_absent. }
  assert (Hreload : file_changed JSON_parse st fs1 a (Some (project_location a))
                    = {| agentrcConfig := config;
                         configPath := Some (project_location a) |}).
  { unfold file_changed. cbn [opt_test]. rewrite project_location_ends.
    unfold config, default_config.
    erewrite load_project_object; [reflexivity | | exact Hround].
    rewrite Hfs1. apply lookup_insert_eq. }
  split; [|split; [exact Hreload|]].
  - unfold tool_execute_before.
    cbn [String.eqb Ascii.eqb Bool.eqb andb orb opt_test memory_call filePath command memory].
    unfold handleMemoryCommand, add_call.
    cbn [action rule action_is String.eqb Ascii.eqb Bool.eqb].
    apply String.eqb_neq in Htext. now rewrite Htext, Hnone.
  - rewrite Hreload. unfold tool_execute_before.
    cbn [String.eqb Ascii.eqb Bool.eqb andb orb opt_test memory_call filePath command memory
         agentrcConfig configPath].
    unfold config at 1, default_config at 1.
    erewrite add_appends; [| reflexivity | exact Htext].
    cbn zeta. eexists _, _, _. split; [reflexivity|]. split.
    + apply get_obj_set_eq.
    + rewrite persist_to_path by apply project_location_not_empty.
      apply lookup_insert_eq.
Qed.

Lemma init_needs_a_reload_witness :
  tool_execute_before sample_stringify sample_runtime no_plugin_config
    (snd (init reload_parse sample_stringify react_project sample_app
            "2025-01-01T00:00:00.000Z"))
    "memory" (memory_call (add_call "X"))
  = Fails NoConfig.
Proof.
  refine (proj1 (init_needs_a_reload reload_parse sample_stringify sample_runtime
                   react_project
                   sample_app "2025-01-01T00:00:00.000Z" "X" no_plugin_config
                   _ _ _ _)).
  - reflexivity.
  - reflexivity.
  - discriminate.
  - vm_compute. reflexivity.
Defined.
